(** * Hierarchical configuration loader

    A shallow embedding of the configuration subsystem under [src/config]:
    the settings models ([models/*.py]), the source tracking and source
    priority of [helpers/base.py], the cached entry point [get_config] of
    [config/__init__.py], the two exporters of
    [helpers/config_exporter.py] and the set-up of the root logger of
    [helpers/logging_setup.py].

    Python values are an inductive type, dictionaries are insertion-ordered
    association lists, the interpreter state that the code mutates (the
    module-level list of tracked sources, the [lru_cache] slot, the objects
    that were allocated, the log) is an explicit record threaded through
    every call, and exceptions are a result type. *)

From Stdlib Require Import String Ascii List ZArith Bool Lia.
From Stdlib Require Import DecimalString DecimalZ DecimalPos.
From Stdlib Require Import Sorted Permutation.
Import ListNotations.
Local Open Scope list_scope.
Local Open Scope string_scope.
Set Warnings "-register-all".

(** ** Python values and the builtins the code calls *)
Module Py.

(** What a configuration tree can hold: the scalars a YAML or JSON document
    has (floating point numbers left out: no field of the schema has one),
    [pydantic.SecretStr] and [pathlib.Path] objects, lists and
    dictionaries with string keys. *)
Inductive value : Type :=
| VNone
| VBool (b : bool)
| VInt (z : Z)
| VStr (s : string)
| VSecret (s : string)
| VPath (p : string)
| VList (l : list value)
| VDict (d : list (string * value)).

Definition dict : Type := list (string * value).

(** Induction on values that goes through the lists and dictionaries. *)
Section value_induction.
Variable P : value -> Prop.
Hypothesis HNone : P VNone.
Hypothesis HBool : forall b, P (VBool b).
Hypothesis HInt : forall z, P (VInt z).
Hypothesis HStr : forall s, P (VStr s).
Hypothesis HSecret : forall s, P (VSecret s).
Hypothesis HPath : forall p, P (VPath p).
Hypothesis HList : forall l, Forall P l -> P (VList l).
Hypothesis HDict : forall d, Forall (fun kv => P (snd kv)) d -> P (VDict d).

Fixpoint value_nested_ind (v : value) : P v :=
  match v with
  | VNone => HNone
  | VBool b => HBool b
  | VInt z => HInt z
  | VStr s => HStr s
  | VSecret s => HSecret s
  | VPath p => HPath p
  | VList l =>
      HList l
        ((fix go (l : list value) : Forall P l :=
            match l with
            | [] => Forall_nil _
            | x :: l' => Forall_cons x (value_nested_ind x) (go l')
            end) l)
  | VDict d =>
      HDict d
        ((fix go (d : list (string * value))
            : Forall (fun kv => P (snd kv)) d :=
            match d with
            | [] => Forall_nil _
            | kv :: d' =>
                Forall_cons kv (value_nested_ind (snd kv)) (go d')
            end) d)
  end.
End value_induction.

(** [d.get(k)] *)
Fixpoint dict_get {A : Type} (d : list (string * A)) (k : string) : option A :=
  match d with
  | [] => None
  | (k', v) :: d' => if k' =? k then Some v else dict_get d' k
  end.

(** [d[k] = v]: an existing key keeps its position, a new key goes last. *)
Fixpoint dict_set {A : Type} (d : list (string * A)) (k : string) (v : A)
  : list (string * A) :=
  match d with
  | [] => [(k, v)]
  | (k', v') :: d' =>
      if k' =? k then (k, v) :: d' else (k', v') :: dict_set d' k v
  end.

(** [dict(items)] *)
Definition dict_of_items {A : Type} (items : list (string * A))
  : list (string * A) :=
  fold_left (fun acc kv => dict_set acc (fst kv) (snd kv)) items [].

Definition keys {A : Type} (d : list (string * A)) : list string :=
  map fst d.

Definition is_dict (v : value) : bool :=
  match v with VDict _ => true | _ => false end.

(** The value under a path of keys, when every step but the last lands on
    a dictionary. *)
Fixpoint lookup_path (v : value) (p : list string) : option value :=
  match p with
  | [] => Some v
  | k :: p' =>
      match v with
      | VDict d =>
          match dict_get d k with
          | Some v' => lookup_path v' p'
          | None => None
          end
      | _ => None
      end
  end.

(** A Python dictionary has each key once. [distinct_keys v p] says so of
    the dictionaries met from [v] along the path [p]; a value is a proper
    Python value when this holds along every path. *)
Fixpoint distinct_keys (v : value) (p : list string) : Prop :=
  match v with
  | VDict d =>
      NoDup (keys d) /\
      match p with
      | [] => True
      | k :: p' =>
          match dict_get d k with
          | Some v' => distinct_keys v' p'
          | None => True
          end
      end
  | _ => True
  end.

Definition proper (v : value) : Prop := forall p, distinct_keys v p.

(** The builtins and library calls that stay abstract: [repr] of a [str];
    [json.loads], with which the settings sources decode a model field
    given as text ([None] when it raises), and which returns proper values;
    whether ["fmt % record.__dict__"] raises one of [KeyError],
    [ValueError], [TypeError] for a fresh log record; and which keyword
    arguments [BaseSettings.__init__] takes for itself (its own
    parameters, such as [_env_file] and [_secrets_dir], which differ from
    one version of the library to the next and all start with an
    underscore) instead of reading them as values of fields. *)
Class Runtime : Type := {
  repr_str : string -> string;
  json_loads : string -> option value;
  json_loads_proper : forall s v, json_loads s = Some v -> proper v;
  percent_format_raises : string -> bool;
  init_option : string -> bool;
  init_option_underscore :
    forall k, init_option k = true -> String.prefix "_" k = true
}.

(** [sep.join(parts)] *)
Fixpoint join (sep : string) (parts : list string) : string :=
  match parts with
  | [] => ""
  | [p] => p
  | p :: ps => p ++ sep ++ join sep ps
  end.

(** [s.startswith(p)] *)
Definition startswith (s p : string) : bool := String.prefix p s.

(** [p in s] for strings *)
Fixpoint contains (s p : string) : bool :=
  String.prefix p s ||
  match s with
  | EmptyString => false
  | String _ s' => contains s' p
  end.

Definition lower_ascii (c : ascii) : ascii :=
  let n := nat_of_ascii c in
  if (65 <=? n)%nat && (n <=? 90)%nat then ascii_of_nat (n + 32) else c.

Definition upper_ascii (c : ascii) : ascii :=
  let n := nat_of_ascii c in
  if (97 <=? n)%nat && (n <=? 122)%nat then ascii_of_nat (n - 32) else c.

Fixpoint map_string (f : ascii -> ascii) (s : string) : string :=
  match s with
  | EmptyString => EmptyString
  | String c s' => String (f c) (map_string f s')
  end.

(** [s.lower()] and [s.upper()] on the ASCII letters; the strings they are
    applied to here (["True"], ["False"], the source type names) hold no
    others. *)
Definition lower (s : string) : string := map_string lower_ascii s.
Definition upper (s : string) : string := map_string upper_ascii s.

(** [len(s)]: a string is kept as its UTF-8 bytes, its length counts the
    bytes that start a character. *)
Fixpoint len (s : string) : nat :=
  match s with
  | EmptyString => 0
  | String c s' =>
      let n := nat_of_ascii c in
      (if (128 <=? n)%nat && (n <? 192)%nat then 0 else 1) + len s'
  end.

Fixpoint spaces (n : nat) : string :=
  match n with
  | O => ""
  | S n' => String " " (spaces n')
  end.

(** [f"{s:>w}"] *)
Definition rjust (w : nat) (s : string) : string := spaces (w - len s) ++ s.

Definition newline : string := String (ascii_of_nat 10) "".

(** [str(n)] and the decimal reading of a text as an integer. *)
Definition str_of_int (z : Z) : string := NilZero.string_of_int (Z.to_int z).

Definition int_of_str (s : string) : option Z :=
  option_map Z.of_int (NilZero.int_of_string s).

(** The fixed mask of [pydantic.SecretStr]; [_display] shows it for every
    secret but the empty one, which is shown as the empty string. *)
Definition SECRET_MASK : string := "**********".

Definition secret_display (s : string) : string :=
  if s =? "" then "" else SECRET_MASK.

Section Repr.
Context {R : Runtime}.

(** [repr(v)] *)
Fixpoint py_repr (v : value) : string :=
  match v with
  | VNone => "None"
  | VBool b => if b then "True" else "False"
  | VInt z => str_of_int z
  | VStr s => repr_str s
  | VSecret s => "SecretStr(" ++ repr_str (secret_display s) ++ ")"
  | VPath p => "PosixPath(" ++ repr_str p ++ ")"
  | VList l => "[" ++ join ", " (map py_repr l) ++ "]"
  | VDict d =>
      "{" ++ join ", "
               (map (fun kv => repr_str (fst kv) ++ ": " ++ py_repr (snd kv)) d)
          ++ "}"
  end.

(** [str(v)] *)
Definition py_str (v : value) : string :=
  match v with
  | VStr s => s
  | VSecret s => secret_display s
  | VPath p => p
  | _ => py_repr v
  end.

End Repr.

(** Insertion sort by the order Python has on [str] (code points, which is
    the order of the UTF-8 bytes); [sorted] is applied to the items of a
    dictionary, whose keys differ, so the keys alone decide. *)
Fixpoint insert_sorted {A : Type} (kv : string * A) (l : list (string * A))
  : list (string * A) :=
  match l with
  | [] => [kv]
  | kv' :: l' =>
      if String.leb (fst kv) (fst kv') then kv :: l
      else kv' :: insert_sorted kv l'
  end.

Definition sorted_items {A : Type} (l : list (string * A))
  : list (string * A) :=
  fold_right insert_sorted [] l.

End Py.

(** ** The settings models ([config/models]) *)
Module Models.
Import Py.

(** [pydantic.SecretStr]: the wrapped text is read with [get_secret_value]
    only; [str] goes through [_display]. *)
Record SecretStr : Type := { get_secret_value : string }.

Definition secret_str (x : SecretStr) : string :=
  secret_display (get_secret_value x).

(** [models/db.py] *)
Record DBPerfConfig : Type := {
  POOL_SIZE : Z;
  WEB_CONCURRENCY : Z
}.

Record DBConfig : Type := {
  DB_NAME : string;
  SCHEMA_NAMES : string;
  USERNAME : SecretStr;
  PASSWORD : SecretStr;
  HOST : string;
  PORT : Z;
  PERF : DBPerfConfig
}.

(** [models/aws.py] *)
Record AWSConfig : Type := {
  AWS_PROFILE : option string;
  AWS_ACCESS_KEY_ID : option SecretStr;
  AWS_SECRET_ACCESS_KEY : option SecretStr;
  AWS_DEFAULT_REGION : string
}.

(** [models/lookup_files.py]: [RequiredFile] is [str | Path]; the default
    is the [str] given to [Field], a validated input is the [Path] that
    [convert_to_absolute_path] returned. *)
Inductive PathLike : Type :=
| PStr (s : string)
| PPath (p : string).

Record LookupDataConfig : Type := { DATA_FILE_1 : PathLike }.

(** [models/logging.py] *)
Inductive LogLevel : Type := CRITICAL | ERROR | WARNING | INFO | DEBUG.

Definition LogLevel_value (l : LogLevel) : string :=
  match l with
  | CRITICAL => "CRITICAL"
  | ERROR => "ERROR"
  | WARNING => "WARNING"
  | INFO => "INFO"
  | DEBUG => "DEBUG"
  end.

Record LoggingConfig : Type := {
  LOG_LEVEL : LogLevel;
  LOG_FORMAT : string;
  LOG_DATE_FORMAT : string
}.

(** [models/consolidated.py] *)
Record AppConfig : Type := {
  SERVICE_NAME : string;
  DB : DBConfig;
  AWS_CONFIG : AWSConfig;
  LOOKUP_DATA : LookupDataConfig;
  LOGGING : LoggingConfig
}.

(** Defaults of the fields, as the class bodies give them. *)
Definition DBPerfConfig_default : DBPerfConfig :=
  {| POOL_SIZE := 20; WEB_CONCURRENCY := 5 |}.

Definition DBConfig_default : DBConfig :=
  {| DB_NAME := "DBNAME";
     SCHEMA_NAMES := "SCHEMA";
     USERNAME := {| get_secret_value := "DB_USERNAME" |};
     PASSWORD := {| get_secret_value := "DB_PASS" |};
     HOST := "127.0.0.1";
     PORT := 5432;
     PERF := DBPerfConfig_default |}.

Definition AWS_DEFAULT_REGION_default : string := "us-east-1".
Definition DATA_FILE_1_default : PathLike := PStr "pyproject.toml".

Definition LoggingConfig_default : LoggingConfig :=
  {| LOG_LEVEL := INFO;
     LOG_FORMAT := "%(asctime)s - %(name)s - %(levelname)s - %(message)s";
     LOG_DATE_FORMAT := "%Y-%m-%d %H:%M:%S" |}.

Definition SERVICE_NAME_default : string := "my_service_name".

(** [AWSConfig.use_profile_auth] and [AWSConfig.use_key_auth] *)
Definition is_some {A : Type} (o : option A) : bool :=
  match o with Some _ => true | None => false end.

Definition use_profile_auth (c : AWSConfig) : bool := is_some (AWS_PROFILE c).

Definition use_key_auth (c : AWSConfig) : bool :=
  is_some (AWS_ACCESS_KEY_ID c) && is_some (AWS_SECRET_ACCESS_KEY c).

(** *** Serialisation: [model_dump()] and [model_dump(mode="json")]

    In Python mode a [SecretStr] field is dumped as the object itself, in
    JSON mode as [str] of it; a [Path] becomes its text in JSON mode; an
    enumeration member of [LogLevel], a [str] subclass, is shown by its
    value in both. *)
Inductive dump_mode : Type := PythonMode | JsonMode.

Definition dump_secret (m : dump_mode) (x : SecretStr) : value :=
  match m with
  | PythonMode => VSecret (get_secret_value x)
  | JsonMode => VStr (secret_str x)
  end.

Definition dump_option {A : Type} (f : A -> value) (o : option A) : value :=
  match o with
  | Some a => f a
  | None => VNone
  end.

Definition dump_path (m : dump_mode) (p : PathLike) : value :=
  match p, m with
  | PStr s, _ => VStr s
  | PPath s, PythonMode => VPath s
  | PPath s, JsonMode => VStr s
  end.

Definition dump_DBPerfConfig (c : DBPerfConfig) : value :=
  VDict [("POOL_SIZE", VInt (POOL_SIZE c));
         ("WEB_CONCURRENCY", VInt (WEB_CONCURRENCY c))].

Definition dump_DBConfig (m : dump_mode) (c : DBConfig) : value :=
  VDict [("DB_NAME", VStr (DB_NAME c));
         ("SCHEMA_NAMES", VStr (SCHEMA_NAMES c));
         ("USERNAME", dump_secret m (USERNAME c));
         ("PASSWORD", dump_secret m (PASSWORD c));
         ("HOST", VStr (HOST c));
         ("PORT", VInt (PORT c));
         ("PERF", dump_DBPerfConfig (PERF c))].

Definition dump_AWSConfig (m : dump_mode) (c : AWSConfig) : value :=
  VDict [("AWS_PROFILE", dump_option VStr (AWS_PROFILE c));
         ("AWS_ACCESS_KEY_ID", dump_option (dump_secret m) (AWS_ACCESS_KEY_ID c));
         ("AWS_SECRET_ACCESS_KEY",
            dump_option (dump_secret m) (AWS_SECRET_ACCESS_KEY c));
         ("AWS_DEFAULT_REGION", VStr (AWS_DEFAULT_REGION c))].

Definition dump_LookupDataConfig (m : dump_mode) (c : LookupDataConfig)
  : value :=
  VDict [("DATA_FILE_1", dump_path m (DATA_FILE_1 c))].

Definition dump_LoggingConfig (c : LoggingConfig) : value :=
  VDict [("LOG_LEVEL", VStr (LogLevel_value (LOG_LEVEL c)));
         ("LOG_FORMAT", VStr (LOG_FORMAT c));
         ("LOG_DATE_FORMAT", VStr (LOG_DATE_FORMAT c))].

Definition model_dump (m : dump_mode) (c : AppConfig) : dict :=
  [("SERVICE_NAME", VStr (SERVICE_NAME c));
   ("DB", dump_DBConfig m (DB c));
   ("AWS_CONFIG", dump_AWSConfig m (AWS_CONFIG c));
   ("LOOKUP_DATA", dump_LookupDataConfig m (LOOKUP_DATA c));
   ("LOGGING", dump_LoggingConfig (LOGGING c))].

End Models.

(** ** Exceptions and results *)
Module Exn.

(** One entry of a [pydantic.ValidationError]: where, and what. *)
Record ErrorDetails : Type := {
  loc : list string;
  msg : string
}.

(** The exceptions a load can end with. *)
Inductive exn : Type :=
| ValidationError (title : string) (errors : list ErrorDetails)
| SettingsError (message : string)
| TypeError (message : string)
| OSError (message : string).

Inductive result (A : Type) : Type :=
| Ok (a : A)
| Raise (e : exn).
Arguments Ok {A} a.
Arguments Raise {A} e.

Definition bind {A B : Type} (r : result A) (k : A -> result B) : result B :=
  match r with
  | Ok a => k a
  | Raise e => Raise e
  end.

Definition is_ok {A : Type} (r : result A) : bool :=
  match r with Ok _ => true | Raise _ => false end.

End Exn.

Declare Scope py_scope.
Delimit Scope py_scope with py.
Notation "x <- c1 ;; c2" := (Exn.bind c1 (fun x => c2))
  (at level 61, c1 at next level, right associativity) : py_scope.

(** ** What surrounds the process *)
Module Env.
Import Py Exn.

(** The file system and the environment as the code reads them:
    [Path.exists], [Path.is_file] and [Path.is_dir] on a path given as text;
    [os.environ]; what a dotenv file at a path holds (name and value, as
    [python-dotenv] returns them); the regular files of a secrets directory
    (name and content); what [parse_yaml_file_as_dict] does on a path
    ([None] when it raises); [Path(p).expanduser()], made absolute under
    the project directory and resolved, as [convert_to_absolute_path]
    computes it; for a file name given to an exporter, the text of
    [Path(get_project_basedir(), filename)], and what opening that path
    for writing does ([None] when it raises an [OSError], as for a
    directory or under a directory that is missing; otherwise the file
    that is opened, named so that two paths to one file give one name);
    and, for a construction that is given parameters of
    [BaseSettings.__init__] (the keyword arguments that [init_option]
    tells, such as [_env_file=None]), what the environment source, the
    dotenv source and the secrets source that are built with these
    parameters return or raise when they are called. *)
Record World : Type := {
  PROJECT_BASE_DIR : string;
  path_exists : string -> bool;
  path_is_file : string -> bool;
  path_is_dir : string -> bool;
  environ : list (string * string);
  dotenv_values : string -> list (string * string);
  secret_files : string -> list (string * string);
  parse_yaml_file_as_dict : string -> option value;
  convert_to_absolute_path : string -> string;
  project_file : string -> string;
  open_for_writing : string -> option string;
  sources_with_options : dict -> result dict * result dict * result dict
}.

(** [str(Path(base, name))] for a relative [name]. *)
Definition path_join (base name : string) : string := base ++ "/" ++ name.

End Env.

(** ** Validation: the [pydantic] rules the models select *)
Module Validation.
Import Py Models Exn Env.

(** The outcome of validating one input: the value, or the line errors that
    the enclosing model collects with those of its other fields, or an
    exception that is not a validation error and ends the validation at
    once. *)
Inductive validated (A : Type) : Type :=
| Valid (a : A)
| Invalid (errors : list ErrorDetails)
| Raised (e : exn).
Arguments Valid {A} a.
Arguments Invalid {A} errors.
Arguments Raised {A} e.

(** The ["extra"] setting of a model configuration. *)
Inductive extra_policy : Type := Forbid | Ignore | Allow.

Definition err (m : string) : list ErrorDetails := [{| loc := []; msg := m |}].

Definition prefix_loc (name : string) (e : ErrorDetails) : ErrorDetails :=
  {| loc := name :: loc e; msg := msg e |}.

Definition at_loc {A : Type} (name : string) (r : validated A) : validated A :=
  match r with
  | Invalid es => Invalid (map (prefix_loc name) es)
  | _ => r
  end.

(** Fields are validated in the order of the class body; the line errors
    add up, an exception of another kind stops the run where it is raised. *)
Definition ap {A B : Type} (f : validated (A -> B)) (x : validated A)
  : validated B :=
  match f with
  | Raised e => Raised e
  | Valid g =>
      match x with
      | Valid a => Valid (g a)
      | Invalid es => Invalid es
      | Raised e => Raised e
      end
  | Invalid es =>
      match x with
      | Valid _ => Invalid es
      | Invalid es' => Invalid (es ++ es')%list
      | Raised e => Raised e
      end
  end.

Definition and_then {A B : Type} (r : validated A) (k : A -> validated B)
  : validated B :=
  match r with
  | Valid a => k a
  | Invalid es => Invalid es
  | Raised e => Raised e
  end.

(** A field looked up under its name; an absent field takes its default. *)
Definition field {A : Type} (d : dict) (name : string)
    (validate : value -> validated A) (default : validated A) : validated A :=
  match dict_get d name with
  | Some v => at_loc name (validate v)
  | None => default
  end.

(** A field with [validation_alias=AliasChoices(...)]: the first of the
    names that the input has is the one that is read. *)
Fixpoint field_alias {A : Type} (d : dict) (choices : list string)
    (validate : value -> validated A) (default : validated A) : validated A :=
  match choices with
  | [] => default
  | name :: rest =>
      match dict_get d name with
      | Some v => at_loc name (validate v)
      | None => field_alias d rest validate default
      end
  end.

(** [Field(default_factory=Model)]: the default is [Model()], built when the
    field is absent; a [ValidationError] of that call is the exception of a
    function called during validation, not a line error of the field. *)
Definition default_factory {A : Type} (title : string)
    (validate : value -> validated A) : validated A :=
  match validate (VDict []) with
  | Valid a => Valid a
  | Invalid es => Raised (ValidationError title es)
  | Raised e => Raised e
  end.

(** *** The field types, in lax mode *)

Definition str_type (v : value) : validated string :=
  match v with
  | VStr s => Valid s
  | _ => Invalid (err "Input should be a valid string")
  end.

(** An integer is read from an [int], from a [bool] and from a decimal text
    (an optional minus sign and digits; the further spellings the library
    reads, such as surrounding blanks, are not followed here). *)
Definition int_type (v : value) : validated Z :=
  match v with
  | VInt z => Valid z
  | VBool b => Valid (if b then 1%Z else 0%Z)
  | VStr s =>
      match int_of_str s with
      | Some z => Valid z
      | None =>
          Invalid (err "Input should be a valid integer, unable to parse string as an integer")
      end
  | _ => Invalid (err "Input should be a valid integer")
  end.

Definition secret_type (v : value) : validated SecretStr :=
  match v with
  | VStr s => Valid {| get_secret_value := s |}
  | VSecret s => Valid {| get_secret_value := s |}
  | _ => Invalid (err "Input should be a valid string")
  end.

Definition optional {A : Type} (validate : value -> validated A) (v : value)
  : validated (option A) :=
  match v with
  | VNone => Valid None
  | _ => ap (Valid Some) (validate v)
  end.

Definition LogLevel_type (v : value) : validated LogLevel :=
  match v with
  | VStr s =>
      if s =? "CRITICAL" then Valid CRITICAL
      else if s =? "ERROR" then Valid ERROR
      else if s =? "WARNING" then Valid WARNING
      else if s =? "INFO" then Valid INFO
      else if s =? "DEBUG" then Valid DEBUG
      else Invalid (err "Input should be 'CRITICAL', 'ERROR', 'WARNING', 'INFO' or 'DEBUG'")
  | _ => Invalid (err "Input should be 'CRITICAL', 'ERROR', 'WARNING', 'INFO' or 'DEBUG'")
  end.

Section Validators.
Context {R : Runtime} (w : World).

(** [RequiredFile]: [convert_to_absolute_path] runs first ([Path(x)] raises
    [TypeError] on anything but a [str] or a [Path], and that is no
    validation error), then [assert_file_exists], whose failed [assert] is
    one. *)
Definition assert_file_exists (path : string) : validated PathLike :=
  if path_is_file w path && path_exists w path then Valid (PPath path)
  else Invalid (err "Assertion failed, File not found at path").

Definition RequiredFile (v : value) : validated PathLike :=
  match v with
  | VStr s => assert_file_exists (convert_to_absolute_path w s)
  | VPath s => assert_file_exists (convert_to_absolute_path w s)
  | _ => Raised (TypeError "expected str, bytes or os.PathLike object")
  end.

(** [LoggingConfig.validate_format_string], after the [str] and
    [min_length=1] checks of the field. *)
Definition validate_format_string (v : string) : validated string :=
  if existsb (contains v) ["%{"; "%("; ")"; "{"] then
    if percent_format_raises v
    then Invalid (err "Value error, Invalid log format string")
    else Valid v
  else Valid v.

Definition LOG_FORMAT_type (v : value) : validated string :=
  and_then (str_type v) (fun s =>
    if (len s <? 1)%nat
    then Invalid (err "String should have at least 1 character")
    else validate_format_string s).

(** *** The models. [DBPerfConfig], [DBConfig], [AWSConfig],
    [LookupDataConfig] and [LoggingConfig] derive from [BaseModel] and set
    no [model_config]: a key of the input that names no field is passed
    over. *)
Definition not_a_dict {A : Type} (title : string) : validated A :=
  Invalid (err ("Input should be a valid dictionary or instance of " ++ title)).

Definition validate_DBPerfConfig (v : value) : validated DBPerfConfig :=
  match v with
  | VDict d =>
      ap (ap (Valid Build_DBPerfConfig)
            (field d "POOL_SIZE" int_type (Valid 20%Z)))
         (field d "WEB_CONCURRENCY" int_type (Valid 5%Z))
  | _ => not_a_dict "DBPerfConfig"
  end.

Definition validate_DBConfig (v : value) : validated DBConfig :=
  match v with
  | VDict d =>
      ap (ap (ap (ap (ap (ap (ap (Valid Build_DBConfig)
        (field d "DB_NAME" str_type (Valid (DB_NAME DBConfig_default))))
        (field d "SCHEMA_NAMES" str_type
           (Valid (SCHEMA_NAMES DBConfig_default))))
        (field d "USERNAME" secret_type (Valid (USERNAME DBConfig_default))))
        (field d "PASSWORD" secret_type (Valid (PASSWORD DBConfig_default))))
        (field d "HOST" str_type (Valid (HOST DBConfig_default))))
        (field d "PORT" int_type (Valid (PORT DBConfig_default))))
        (field d "PERF" validate_DBPerfConfig
           (default_factory "DBPerfConfig" validate_DBPerfConfig))
  | _ => not_a_dict "DBConfig"
  end.

(** [AWSConfig.validate_auth_config], the [mode="after"] validator: it runs
    once every field of the model is valid. *)
Definition AUTH_MESSAGE : string :=
  "Value error, Either AWS_PROFILE or both AWS_ACCESS_KEY_ID and AWS_SECRET_ACCESS_KEY must be provided".

Definition validate_auth_config (self : AWSConfig) : validated AWSConfig :=
  let has_profile := is_some (AWS_PROFILE self) in
  let has_access_keys :=
    is_some (AWS_ACCESS_KEY_ID self) && is_some (AWS_SECRET_ACCESS_KEY self) in
  if negb has_profile && negb has_access_keys
  then Invalid (err AUTH_MESSAGE)
  else Valid self.

Definition validate_AWSConfig_fields (d : dict) : validated AWSConfig :=
  ap (ap (ap (ap (Valid Build_AWSConfig)
    (field_alias d ["AWS__AWS_PROFILE"; "AWS_PROFILE"]
       (optional str_type) (Valid None)))
    (field_alias d ["AWS__AWS_ACCESS_KEY_ID"; "AWS_ACCESS_KEY_ID"]
       (optional secret_type) (Valid None)))
    (field_alias d ["AWS__AWS_SECRET_ACCESS_KEY"; "AWS_SECRET_ACCESS_KEY"]
       (optional secret_type) (Valid None)))
    (field d "AWS_DEFAULT_REGION" str_type (Valid AWS_DEFAULT_REGION_default)).

Definition validate_AWSConfig (v : value) : validated AWSConfig :=
  match v with
  | VDict d => and_then (validate_AWSConfig_fields d) validate_auth_config
  | _ => not_a_dict "AWSConfig"
  end.

Definition validate_LookupDataConfig (v : value)
  : validated LookupDataConfig :=
  match v with
  | VDict d =>
      ap (Valid Build_LookupDataConfig)
         (field d "DATA_FILE_1" RequiredFile (Valid DATA_FILE_1_default))
  | _ => not_a_dict "LookupDataConfig"
  end.

Definition validate_LoggingConfig (v : value) : validated LoggingConfig :=
  match v with
  | VDict d =>
      ap (ap (ap (Valid Build_LoggingConfig)
        (field d "LOG_LEVEL" LogLevel_type
           (Valid (LOG_LEVEL LoggingConfig_default))))
        (field d "LOG_FORMAT" LOG_FORMAT_type
           (Valid (LOG_FORMAT LoggingConfig_default))))
        (field d "LOG_DATE_FORMAT" str_type
           (Valid (LOG_DATE_FORMAT LoggingConfig_default)))
  | _ => not_a_dict "LoggingConfig"
  end.

(** [AppConfig] takes [DEFAULT_CONFIG_SETTINGS] through [BaseConfigModel];
    under ["extra": "forbid"] every key that names no field is one more
    line error, after those of the fields. *)
Definition AppConfig_fields : list string :=
  ["SERVICE_NAME"; "DB"; "AWS_CONFIG"; "LOOKUP_DATA"; "LOGGING"].

Definition extra_forbidden (fields : list string) (d : dict)
  : list ErrorDetails :=
  flat_map
    (fun kv =>
       if existsb (String.eqb (fst kv)) fields then []
       else [{| loc := [fst kv]; msg := "Extra inputs are not permitted" |}])
    d.

Definition forbid_extra {A : Type} (fields : list string) (d : dict)
    (r : validated A) : validated A :=
  match r with
  | Raised e => Raised e
  | Valid a =>
      match extra_forbidden fields d with
      | [] => Valid a
      | es => Invalid es
      end
  | Invalid es => Invalid (es ++ extra_forbidden fields d)%list
  end.

Definition check_extra {A : Type} (policy : extra_policy)
    (fields : list string) (d : dict) (r : validated A) : validated A :=
  match policy with
  | Forbid => forbid_extra fields d r
  | _ => r
  end.

Definition validate_AppConfig_fields (d : dict) : validated AppConfig :=
  ap (ap (ap (ap (ap (Valid Build_AppConfig)
    (field d "SERVICE_NAME" str_type (Valid SERVICE_NAME_default)))
    (field d "DB" validate_DBConfig
       (default_factory "DBConfig" validate_DBConfig)))
    (field d "AWS_CONFIG" validate_AWSConfig
       (default_factory "AWSConfig" validate_AWSConfig)))
    (field d "LOOKUP_DATA" validate_LookupDataConfig
       (default_factory "LookupDataConfig" validate_LookupDataConfig)))
    (field d "LOGGING" validate_LoggingConfig
       (default_factory "LoggingConfig" validate_LoggingConfig)).

Definition validate_AppConfig (policy : extra_policy) (d : dict)
  : validated AppConfig :=
  check_extra policy AppConfig_fields d (validate_AppConfig_fields d).

(** The exception, if any, that the caller of the constructor sees. *)
Definition to_result {A : Type} (title : string) (r : validated A)
  : result A :=
  match r with
  | Valid a => Ok a
  | Invalid es => Raise (ValidationError title es)
  | Raised e => Raise e
  end.

End Validators.
End Validation.

(** ** The settings sources and their priority ([helpers/base.py]) *)
Module Settings.
Import Py Models Exn Env Validation.

(** [DEFAULT_CONFIG_SETTINGS] *)
Record SettingsConfigDict : Type := {
  case_sensitive : bool;
  arbitrary_types_allowed : bool;
  env_nested_delimiter : string;
  extra : extra_policy;
  env_file : list string;
  secrets_dir : string
}.

Definition PATH_ENV (w : World) : string := path_join (PROJECT_BASE_DIR w) ".env".

Definition DEFAULT_CONFIG_SETTINGS (w : World) : SettingsConfigDict :=
  {| case_sensitive := true;
     arbitrary_types_allowed := false;
     env_nested_delimiter := "__";
     extra := Forbid;
     env_file := [PATH_ENV w];
     secrets_dir := "/run/secrets" |}.

(** [BaseConfigModel.settings_customise_sources]: the four sources it is
    handed, returned from the highest priority to the lowest. *)
Definition settings_customise_sources {S : Type}
    (init_settings env_settings dotenv_settings file_secret_settings : S)
  : list S :=
  [file_secret_settings; env_settings; dotenv_settings; init_settings].

(** [pydantic_settings.utils.deep_update(mapping, updating)]: the keys of
    [updating] are written over a copy of [mapping], two dictionaries under
    one key being merged in the same way. *)
Fixpoint deep_update_value (mapping updating : value) {struct updating}
  : value :=
  match updating, mapping with
  | VDict upd, VDict m =>
      VDict
        ((fix loop (upd : list (string * value)) (updated : dict) : dict :=
            match upd with
            | [] => updated
            | (k, v) :: rest =>
                loop rest
                  (dict_set updated k
                     match dict_get updated k, v with
                     | Some (VDict u), VDict _ => deep_update_value (VDict u) v
                     | _, _ => v
                     end)
            end) upd m)
  | _, _ => updating
  end.

Definition deep_update (mapping updating : dict) : dict :=
  match deep_update_value (VDict mapping) (VDict updating) with
  | VDict d => d
  | _ => updating
  end.

(** [name.split(sep)] for a separator that is not empty: [skip] counts the
    characters of a separator still to pass, [cur] is the piece read so
    far. *)
Fixpoint split_from (sep s : string) (skip : nat) (cur : string)
  : list string :=
  match s with
  | EmptyString => [cur]
  | String c s' =>
      match skip with
      | S n => split_from sep s' n cur
      | O =>
          if String.prefix sep s
          then cur :: split_from sep s' (String.length sep - 1) ""
          else split_from sep s' 0 (cur ++ String c "")
      end
  end.

Definition split (sep s : string) : list string := split_from sep s 0 "".

(** The fields of [AppConfig] that are models: the sources read such a field
    from JSON text and from the variables named after it and its nested
    fields. *)
Definition field_is_complex (path : list string) : bool :=
  match path with
  | ["DB"] | ["DB"; "PERF"] | ["AWS_CONFIG"] | ["LOOKUP_DATA"] | ["LOGGING"] =>
      true
  | _ => false
  end.

(** [env_var = env_var.setdefault(key, {})] along [keys], then
    [env_var[last_key] = env_val] when a dictionary was reached. *)
Fixpoint set_path (d : dict) (keys : list string) (last_key : string)
    (env_val : value) : dict :=
  match keys with
  | [] => dict_set d last_key env_val
  | key :: keys' =>
      match dict_get d key with
      | Some (VDict d') =>
          dict_set d key (VDict (set_path d' keys' last_key env_val))
      | Some _ => d
      | None => dict_set d key (VDict (set_path [] keys' last_key env_val))
      end
  end.

Section Sources.
Context {R : Runtime} (w : World).

Definition config : SettingsConfigDict := DEFAULT_CONFIG_SETTINGS w.

Definition decode_complex_value (field_name text : string) : result value :=
  match json_loads text with
  | Some v => Ok v
  | None => Raise (SettingsError ("error parsing value for field " ++ field_name))
  end.

(** [EnvSettingsSource.explode_env_vars]: every variable whose name starts
    with the field name and the delimiter is split at the delimiter and set
    at that path; text that lands on a model field is decoded. *)
Definition explode_one (field_name : string) (acc : result dict)
    (var : string * string) : result dict :=
  let (env_name, env_val) := var in
  (result <- acc ;;
   if startswith env_name (field_name ++ env_nested_delimiter config) then
     match split (env_nested_delimiter config) env_name with
     | _ :: (_ :: _) as path =>
         let keys := removelast path in
         let last_key := last path "" in
         env_val' <-
           (if field_is_complex (field_name :: path) && negb (env_val =? "")
            then decode_complex_value last_key env_val
            else Ok (VStr env_val)) ;;
         Ok (set_path result keys last_key env_val')
     | _ => Ok result
     end
   else Ok result)%py.

Definition explode_env_vars (field_name : string)
    (env_vars : list (string * string)) : result dict :=
  fold_left (explode_one field_name) env_vars (Ok []).

(** [EnvSettingsSource.prepare_field_value] for one field of [AppConfig];
    [None] when the source has nothing for the field. *)
Definition env_field_value (env_vars : list (string * string))
    (field_name : string) : result (option value) :=
  (if field_is_complex [field_name] then
     match dict_get env_vars field_name with
     | None =>
         env_val_built <- explode_env_vars field_name env_vars ;;
         match env_val_built with
         | [] => Ok None
         | _ => Ok (Some (VDict env_val_built))
         end
     | Some text =>
         value <- decode_complex_value field_name text ;;
         match value with
         | VDict d =>
             exploded <- explode_env_vars field_name env_vars ;;
             Ok (Some (VDict (deep_update d exploded)))
         | _ => Ok (Some value)
         end
     end
   else Ok (option_map VStr (dict_get env_vars field_name)))%py.

(** The [__call__] of a source over the fields of the settings class. *)
Definition source_call (field_value : string -> result (option value))
  : result dict :=
  fold_left
    (fun acc field_name =>
       (data <- acc ;;
        field_value' <- field_value field_name ;;
        match field_value' with
        | Some v => Ok (dict_set data field_name v)
        | None => Ok data
        end)%py)
    AppConfig_fields (Ok []).

Definition env_settings : result dict :=
  source_call (env_field_value (environ w)).

(** [DotEnvSettingsSource]: the variables are those of the dotenv files that
    are regular files; with [extra] forbidden, a variable with a value that
    no field uses is added under its own name, for the validation to
    refuse. *)
Definition dotenv_vars : list (string * string) :=
  flat_map
    (fun env_path =>
       if path_is_file w env_path then dotenv_values w env_path else [])
    (env_file config).

Definition dotenv_used (env_name : string) : bool :=
  existsb
    (fun field_name =>
       (env_name =? field_name) ||
       (field_is_complex [field_name] &&
        startswith env_name (field_name ++ env_nested_delimiter config)))
    AppConfig_fields.

Definition dotenv_extra (data : dict) (var : string * string) : dict :=
  let (env_name, env_value) := var in
  if (env_value =? "") || is_some (dict_get data env_name) then data
  else if dotenv_used env_name then data
  else dict_set data env_name (VStr env_value).

Definition dotenv_settings : result dict :=
  (data <- source_call (env_field_value dotenv_vars) ;;
   Ok (fold_left dotenv_extra dotenv_vars data))%py.

(** [SecretsSettingsSource]: a file of the secrets directory named after a
    field is its value, JSON text for a model field. *)
Definition secret_field_value (files : list (string * string))
    (field_name : string) : result (option value) :=
  match dict_get files field_name with
  | None => Ok None
  | Some text =>
      if field_is_complex [field_name]
      then (value <- decode_complex_value field_name text ;; Ok (Some value))%py
      else Ok (Some (VStr text))
  end.

Definition file_secret_settings : result dict :=
  let dir := secrets_dir config in
  if negb (path_exists w dir) then Ok []
  else if negb (path_is_dir w dir)
  then Raise (SettingsError "secrets_dir must reference a directory, not a file")
  else source_call (secret_field_value (secret_files w dir)).

(** [InitSettingsSource]: the keyword arguments of the constructor. *)
Definition init_settings (init_kwargs : dict) : result dict := Ok init_kwargs.

(** The environment source, the dotenv source and the secrets source that
    a construction reads: those of the configuration of the class when no
    parameter of the constructor is given, those built with the parameters
    otherwise. *)
Definition settings_sources (options : dict)
  : result dict * result dict * result dict :=
  match options with
  | [] => (env_settings, dotenv_settings, file_secret_settings)
  | _ => sources_with_options w options
  end.

(** [BaseSettings._settings_build_values(init_kwargs, _env_file=..., ...)]:
    the sources, ordered by the class, are called from the first to the
    last, each one laid under what the earlier ones gave. *)
Definition build_step (state : result dict) (source : result dict)
  : result dict :=
  (st <- state ;; source_state <- source ;; Ok (deep_update source_state st))%py.

Definition _settings_build_values (options init_kwargs : dict) : result dict :=
  let '(env_settings, dotenv_settings, file_secret_settings) :=
    settings_sources options in
  fold_left build_step
    (settings_customise_sources (init_settings init_kwargs) env_settings
       dotenv_settings file_secret_settings)
    (Ok []).

(** The keyword arguments that [BaseSettings.__init__] binds to its own
    parameters, and those left in its [**values]. *)
Definition init_options (kwargs : dict) : dict :=
  filter (fun kv => init_option (fst kv)) kwargs.

Definition init_values (kwargs : dict) : dict :=
  filter (fun kv => negb (init_option (fst kv))) kwargs.

(** [BaseSettings.__init__], after the tracking that [BaseConfigModel] adds:
    the values left once the parameters of the constructor are taken out
    are the keyword arguments of the sources, and the merged values are
    validated as an [AppConfig]. *)
Definition BaseSettings_init (kwargs : dict) : result AppConfig :=
  (values <- _settings_build_values (init_options kwargs) (init_values kwargs) ;;
   to_result "AppConfig" (validate_AppConfig w (extra config) values))%py.

End Sources.
End Settings.

(** ** Source tracking and the cached entry point
    ([helpers/base.py], [config/__init__.py]) *)
Module Loader.
Import Py Models Exn Env Validation Settings.

(** [helpers/base.py], [ConfigSource] *)
Record ConfigSource : Type := {
  source_type : string;
  path : string;
  available : bool;
  description : string
}.

(** What a written file holds: the document handed to the YAML writer, or
    the lines of text. *)
Inductive written : Type :=
| YamlFile (document : dict)
| TextFile (lines : list string).

(** The part of the interpreter state that the code reads and writes: the
    module-level list [_config_sources]; the one slot of the [lru_cache]
    around [get_config] (a function of no argument), holding a reference;
    the [AppConfig] objects built so far, a reference being the position of
    the object; the level of the root logger, [WARNING] when the
    interpreter starts, and the levels of its handlers; the log records
    that their logger has let through and handed to the handlers, each
    with the name of its level; the files written by the exporters, under
    the name that [open_for_writing] gives them. The loggers of the
    modules have no level of their own (the code sets none), so that the
    level of the root logger decides for them. *)
Record State : Type := {
  _config_sources : list ConfigSource;
  get_config_cache : option nat;
  objects : list AppConfig;
  root_level : LogLevel;
  root_handlers : list LogLevel;
  log : list (string * string);
  files : list (string * written)
}.

Definition initial_state : State :=
  {| _config_sources := [];
     get_config_cache := None;
     objects := [];
     root_level := WARNING;
     root_handlers := [];
     log := [];
     files := [] |}.

Definition set_config_sources (l : list ConfigSource) (st : State) : State :=
  {| _config_sources := l;
     get_config_cache := get_config_cache st;
     objects := objects st;
     root_level := root_level st;
     root_handlers := root_handlers st;
     log := log st;
     files := files st |}.

Definition set_cache (c : option nat) (st : State) : State :=
  {| _config_sources := _config_sources st;
     get_config_cache := c;
     objects := objects st;
     root_level := root_level st;
     root_handlers := root_handlers st;
     log := log st;
     files := files st |}.

Definition set_root_logger (l : LogLevel) (h : list LogLevel) (st : State)
  : State :=
  {| _config_sources := _config_sources st;
     get_config_cache := get_config_cache st;
     objects := objects st;
     root_level := l;
     root_handlers := h;
     log := log st;
     files := files st |}.

(** The numeric value of a level of [logging]. *)
Definition levelno (l : LogLevel) : nat :=
  match l with
  | CRITICAL => 50
  | ERROR => 40
  | WARNING => 30
  | INFO => 20
  | DEBUG => 10
  end.

(** [Logger.isEnabledFor(level)] for a logger of a module. *)
Definition isEnabledFor (level : LogLevel) (st : State) : bool :=
  (levelno (root_level st) <=? levelno level)%nat.

(** [logger.warning(message)], [logger.info(message)]: a record is made,
    and handed to the handlers, when the logger is enabled for the level. *)
Definition emit (level : LogLevel) (message : string) (st : State) : State :=
  if isEnabledFor level st then
    {| _config_sources := _config_sources st;
       get_config_cache := get_config_cache st;
       objects := objects st;
       root_level := root_level st;
       root_handlers := root_handlers st;
       log := (log st ++ [(LogLevel_value level, message)])%list;
       files := files st |}
  else st.

Definition write_file (name : string) (content : written) (st : State)
  : State :=
  {| _config_sources := _config_sources st;
     get_config_cache := get_config_cache st;
     objects := objects st;
     root_level := root_level st;
     root_handlers := root_handlers st;
     log := log st;
     files := dict_set (files st) name content |}.

(** A new object; its reference is returned. *)
Definition allocate (c : AppConfig) (st : State) : nat * State :=
  (List.length (objects st),
   {| _config_sources := _config_sources st;
      get_config_cache := get_config_cache st;
      objects := (objects st ++ [c])%list;
      root_level := root_level st;
      root_handlers := root_handlers st;
      log := log st;
      files := files st |}).

Definition deref (st : State) (r : nat) : option AppConfig :=
  nth_error (objects st) r.

(** [get_config_sources], [track_config_source], [clear_config_sources] *)
Definition get_config_sources (st : State) : list ConfigSource :=
  _config_sources st.

Definition track_config_source (source_type path : string) (available : bool)
    (description : string) (st : State) : State :=
  set_config_sources
    (_config_sources st ++
       [{| source_type := source_type;
           path := path;
           available := available;
           description := description |}])%list
    st.

Definition clear_config_sources (st : State) : State :=
  set_config_sources [] st.

Section Load.
Context {R : Runtime} (w : World).

(** [BaseConfigModel._track_all_sources] *)
Definition track_env_file (st : State) (env_path : string) : State :=
  track_config_source "dotenv" env_path
    (path_exists w env_path && path_is_file w env_path)
    ("Dotenv file: " ++ env_path) st.

Definition _track_all_sources (st : State) : State :=
  let secrets_dir := secrets_dir (config w) in
  let st1 :=
    track_config_source "secrets" secrets_dir
      (path_exists w secrets_dir && path_is_dir w secrets_dir)
      ("Docker secrets directory: " ++ secrets_dir) st in
  let st2 :=
    track_config_source "environment" "system environment" true
      "System environment variables" st1 in
  fold_left track_env_file (env_file (config w)) st2.

(** [BaseConfigModel.__init__(self, **data)] on the class [AppConfig]: a
    keyword argument named [self] is refused at the call, before the body
    runs; otherwise the sources are tracked, then the settings are built
    and validated. *)
Definition AppConfig_init (data : dict) (st : State)
  : result AppConfig * State :=
  match dict_get data "self" with
  | Some _ =>
      (Raise (TypeError "__init__() got multiple values for argument 'self'"),
       st)
  | None =>
      let st1 := _track_all_sources st in
      (BaseSettings_init w data, st1)
  end.

(** [load_config_yaml]: [None] is [VNone]. *)
Definition load_config_yaml (filename : string) (st : State) : value * State :=
  let path_config := path_join (PROJECT_BASE_DIR w) filename in
  let st1 :=
    track_config_source "yaml" path_config
      (path_exists w path_config && path_is_file w path_config)
      ("YAML configuration file: " ++ filename) st in
  if negb (path_exists w path_config) then
    (VNone,
     emit WARNING
       ("Config file not found at expected path : '" ++ path_config
          ++ "'. Not using it as config source.") st1)
  else
    match parse_yaml_file_as_dict w path_config with
    | Some config_dict => (config_dict, st1)
    | None => (VNone, st1)
    end.

(** [setup_logging(config.LOGGING)]: a root logger that has handlers is
    left as it is; one that has none is set to the level of the
    configuration and given a handler at that level. *)
Definition setup_logging (c : LoggingConfig) (st : State) : State :=
  match root_handlers st with
  | [] => set_root_logger (LOG_LEVEL c) [LOG_LEVEL c] st
  | _ => st
  end.

(** [print_config_sources(logger)], for the logger of a module or for
    [None]: either way the level of the root logger decides whether the
    report is logged. *)
Definition source_line (source : ConfigSource) : string :=
  let status :=
    if available source then "✓ Available" else "✗ Not available" in
  newline ++ "[" ++ upper (source_type source) ++ "]: "
    ++ rjust 13 status ++ " | " ++ description source.

Definition rule : string :=
  "============================================================".

Definition print_config_sources (st : State) : State :=
  let sources := get_config_sources st in
  match sources with
  | [] => emit INFO "No configuration sources tracked." st
  | _ =>
      let msg :=
        "Configuration sources checked during loading:" ++ newline ++ rule
          ++ String.concat "" (map source_line sources)
          ++ newline ++ rule ++ newline
          ++ "Priority order: Secrets > Environment Variables > Dotenv Files > YAML > Defaults" in
      emit INFO msg st
  end.

(** The body of [get_config]. The parsed document is unpacked into the
    keyword arguments of [AppConfig]: it has to be a mapping, anything else
    is a [TypeError]. *)
Definition get_config_body (st : State) : result nat * State :=
  let st1 := clear_config_sources st in
  let (yaml_config, st2) := load_config_yaml "config.yaml" st1 in
  let kwargs :=
    match yaml_config with
    | VNone => Ok []
    | VDict d => Ok d
    | _ => Raise (TypeError "argument after ** must be a mapping")
    end in
  match kwargs with
  | Raise e => (Raise e, st2)
  | Ok data =>
      match AppConfig_init data st2 with
      | (Raise e, st3) => (Raise e, st3)
      | (Ok config, st3) =>
          let (ref, st4) := allocate config st3 in
          let st5 := setup_logging (LOGGING config) st4 in
          let st6 := print_config_sources st5 in
          (Ok ref, st6)
      end
  end.

(** [get_config], under [functools.lru_cache(maxsize=None)]: a stored
    result is returned without running the body; a result is stored when
    the body returns, not when it raises. *)
Definition get_config (st : State) : result nat * State :=
  match get_config_cache st with
  | Some ref => (Ok ref, st)
  | None =>
      match get_config_body st with
      | (Ok ref, st') => (Ok ref, set_cache (Some ref) st')
      | (Raise e, st') => (Raise e, st')
      end
  end.

(** [get_config.cache_clear()] *)
Definition cache_clear (st : State) : State := set_cache None st.

End Load.
End Loader.

(** ** The exporters ([helpers/config_exporter.py]) *)
Module Exporter.
Import Py Models Exn Env Loader.

Section Flatten.
Context {R : Runtime}.

(** [new_key = f"{parent_key}{sep}{key}" if parent_key else key] *)
Definition new_key_of (parent_key sep key : string) : string :=
  if parent_key =? "" then key else parent_key ++ sep ++ key.

(** The body of [_flatten_config_dict], by recursion on the dictionary it is
    given (as a value, so that the nested call is structural; the function
    is only ever applied to dictionaries). The nested call passes
    [new_key] and [sep] only: [null_value] and [skip_secret_values] are back
    at their defaults there. *)
Fixpoint flatten_value (config_dict : value)
    (parent_key sep null_value : string) (skip_secret_values : bool)
    {struct config_dict} : list (string * string) :=
  match config_dict with
  | VDict d =>
      dict_of_items
        ((fix loop (d : list (string * value)) : list (string * string) :=
            match d with
            | [] => []
            | (key, value) :: rest =>
                let new_key := new_key_of parent_key sep key in
                (match value with
                 | VDict _ => flatten_value value new_key sep "None" true
                 | VList l => [(new_key, join "," (map py_str l))]
                 | VNone => [(new_key, null_value)]
                 | VBool _ => [(new_key, lower (py_str value))]
                 | VStr s =>
                     if startswith s "********" && skip_secret_values
                     then []
                     else [(new_key, s)]
                 | _ => [(new_key, py_str value)]
                 end ++ loop rest)%list
            end) d)
  | _ => []
  end.

Definition _flatten_config_dict (config_dict : dict)
    (parent_key sep null_value : string) (skip_secret_values : bool)
  : list (string * string) :=
  flatten_value (VDict config_dict) parent_key sep null_value
    skip_secret_values.

(** One line of the dotenv file; a value with a blank in it goes between
    single quotes. *)
Definition dotenv_line (kv : string * string) : string :=
  let (key, value) := kv in
  if contains value " " then key ++ "='" ++ value ++ "'" ++ newline
  else key ++ "=" ++ value ++ newline.

(** What [dump_config_to_dotenv] writes for a configuration, line by line:
    [model_dump(mode="json")], flattened with every default, sorted. *)
Definition flat_config (config : AppConfig) : list (string * string) :=
  _flatten_config_dict (model_dump JsonMode config) "" "__" "None" true.

Definition dotenv_lines (config : AppConfig) : list string :=
  map dotenv_line (sorted_items (flat_config config)).

(** What [dump_config_to_yaml] hands to the YAML writer. *)
Definition yaml_document (config : AppConfig) : dict :=
  model_dump JsonMode config.

(** [dump_config_to_yaml] and [dump_config_to_dotenv] (called with a file
    name and no further keyword argument): the configuration is the one
    [get_config] returns; the file goes under the project directory; when
    the path cannot be opened for writing the [OSError] is raised and
    nothing is written; otherwise the file is written and the path is
    logged. [dump_with] is what the two have in common: they differ in
    what they write and in the words of the log record. *)
Definition dump_with (content : AppConfig -> written) (notice : string)
    (w : World) (filename : string) (st : State) : result unit * State :=
  match get_config w st with
  | (Raise e, st') => (Raise e, st')
  | (Ok ref, st') =>
      match deref st' ref with
      | Some config =>
          let output_path := project_file w filename in
          match open_for_writing w output_path with
          | None => (Raise (OSError ("cannot open " ++ output_path)), st')
          | Some f =>
              let st'' := write_file f (content config) st' in
              (Ok tt, emit INFO (notice ++ output_path) st'')
          end
      | None => (Ok tt, st')
      end
  end.

Definition dump_config_to_yaml (w : World) (filename : string) (st : State)
  : result unit * State :=
  dump_with (fun config => YamlFile (yaml_document config))
    "Configuration dumped to: " w filename st.

Definition dump_config_to_dotenv (w : World) (filename : string) (st : State)
  : result unit * State :=
  dump_with (fun config => TextFile (dotenv_lines config))
    "Configuration dumped to dotenv format: " w filename st.

End Flatten.
End Exporter.

(** ** The root logger ([helpers/logging_setup.py]) *)
Module LoggingSetup.
Import Py Models.

(** What the code sets on the objects of [logging]: the format string and
    the date format of a formatter (a [pythonjsonlogger] one), the level and
    the formatter of a handler (a [StreamHandler]), the level and the
    handlers of the root logger. A level is given by its name, one of the
    five of [LogLevel]. *)
Record Formatter : Type := {
  fmt : string;
  datefmt : string
}.

Record Handler : Type := {
  handler_level : LogLevel;
  handler_formatter : Formatter
}.

Record Logger : Type := {
  level : LogLevel;
  handlers : list Handler
}.

(** [_create_formatter]: the format string is fixed, [config.LOG_FORMAT] is
    only read by the line that is commented out. *)
Definition _create_formatter (config : LoggingConfig) : Formatter :=
  {| fmt := "%(asctime)s %(name)s %(levelname)s %(message)s";
     datefmt := LOG_DATE_FORMAT config |}.

(** [_create_console_handler] *)
Definition _create_console_handler (config : LoggingConfig)
    (formatter : Formatter) : Handler :=
  {| handler_level := LOG_LEVEL config;
     handler_formatter := formatter |}.

(** [setup_logging(config, force_reconfigure=...)] on the root logger; the
    dictionary it returns has the root logger as its one entry, so the
    logger stands for it. A handler object is always true, and a new one
    is never among the handlers yet: [addHandler] appends it. *)
Definition setup_logging (config : LoggingConfig) (force_reconfigure : bool)
    (root_logger : Logger) : Logger :=
  match handlers root_logger, force_reconfigure with
  | _ :: _, false => root_logger
  | _, _ =>
      let cleared :=
        if force_reconfigure then [] else handlers root_logger in
      let formatter := _create_formatter config in
      let console_handler := _create_console_handler config formatter in
      {| level := LOG_LEVEL config;
         handlers := (cleared ++ [console_handler])%list |}
  end.

(** [reset_logging] *)
Definition reset_logging (root_logger : Logger) : Logger :=
  {| level := WARNING; handlers := [] |}.

End LoggingSetup.

(** ** Notions used to state the properties *)
Module Notions.
Import Py Models Exn Env Validation Settings Loader Exporter.

(** [reaches v p leaf]: [leaf] is met from [v] by following the keys of
    [p] through entries of dictionaries. *)
Inductive reaches : value -> list string -> value -> Prop :=
| reaches_here v : reaches v [] v
| reaches_step d k v' p leaf :
    In (k, v') d -> reaches v' p leaf -> reaches (VDict d) (k :: p) leaf.

(** The leaves of a tree, each with its path. *)
Fixpoint leaves (v : value) : list (list string * value) :=
  match v with
  | VDict d =>
      (fix loop (d : list (string * value)) : list (list string * value) :=
         match d with
         | [] => []
         | (k, v') :: rest =>
             (map (fun pl => (k :: fst pl, snd pl)) (leaves v') ++ loop rest)%list
         end) d
  | _ => [([], v)]
  end.

(** The key under which [_flatten_config_dict] files the leaf at a path:
    [DB__PORT] for the path [DB], [PORT]. *)
Definition flat_key (parent_key sep : string) (p : list string) : string :=
  fold_left (fun parent key => new_key_of parent sep key) p parent_key.

Definition flat_keys (d : dict) : list string :=
  map (fun pl => flat_key "" "__" (fst pl)) (leaves (VDict d)).

Fixpoint distinctb (l : list string) : bool :=
  match l with
  | [] => true
  | x :: l' => negb (existsb (String.eqb x) l') && distinctb l'
  end.

(** A string that starts with eight asterisks. *)
Definition starred (v : value) : bool :=
  match v with
  | VStr s => startswith s "********"
  | _ => false
  end.

(** The items of one entry in [_flatten_config_dict], and those of a
    dictionary before [dict(items)]. *)
Definition entry_items {R : Runtime} (parent_key sep null_value : string)
    (skip_secret_values : bool) (kv : string * value)
  : list (string * string) :=
  let new_key := new_key_of parent_key sep (fst kv) in
  match snd kv with
  | VDict _ => flatten_value (snd kv) new_key sep "None" true
  | VList l => [(new_key, join "," (map py_str l))]
  | VNone => [(new_key, null_value)]
  | VBool _ => [(new_key, lower (py_str (snd kv)))]
  | VStr s =>
      if startswith s "********" && skip_secret_values then []
      else [(new_key, s)]
  | _ => [(new_key, py_str (snd kv))]
  end.

Definition raw_items {R : Runtime} (d : dict)
    (parent_key sep null_value : string) (skip_secret_values : bool)
  : list (string * string) :=
  flat_map (entry_items parent_key sep null_value skip_secret_values) d.

(** One step of the loop of [deep_update]. *)
Definition merge_entry (updated : dict) (kv : string * value) : dict :=
  dict_set updated (fst kv)
    match dict_get updated (fst kv), snd kv with
    | Some (VDict u), VDict _ => deep_update_value (VDict u) (snd kv)
    | _, _ => snd kv
    end.

(** What lies at one key when [updating] is laid over [mapping]. *)
Definition merged_value (below : option value) (above : value) : value :=
  match below, above with
  | Some (VDict m), VDict u => VDict (deep_update m u)
  | _, _ => above
  end.

(** The walk along a path is stopped by a value that is no dictionary. *)
Fixpoint blocked (v : value) (p : list string) : bool :=
  match p with
  | [] => false
  | k :: p' =>
      match v with
      | VDict d =>
          match dict_get d k with
          | Some v' => blocked v' p'
          | None => false
          end
      | _ => true
      end
  end.

(** The value that the first of the sources to have one gives to a path;
    the sources come from the highest priority to the lowest. *)
Fixpoint first_supplied (sources : list dict) (p : list string)
  : option value :=
  match sources with
  | [] => None
  | s :: rest =>
      match lookup_path (VDict s) p with
      | Some x => Some x
      | None => first_supplied rest p
      end
  end.

(** The merge of [_settings_build_values], on sources already read. *)
Definition merge_sources (sources : list dict) (state : dict) : dict :=
  fold_left (fun st s => deep_update s st) sources state.

(** A field that is read under its own name: its path, what the validation
    makes of a supplied value (as the Python dump shows it; [None] when the
    value is refused) and the dump of its default. *)
Record leaf_rule : Type := {
  rule_path : list string;
  rule_coerce : value -> option value;
  rule_default : value
}.

Definition as_dump {A : Type} (validate : value -> validated A)
    (dump : A -> value) (x : value) : option value :=
  match validate x with
  | Valid a => Some (dump a)
  | _ => None
  end.

Definition dump_LogLevel (l : LogLevel) : value := VStr (LogLevel_value l).

(** Every field of the schema but the three of [AWSConfig] that are read
    under an alias. *)
Definition leaf_rules {R : Runtime} (w : World) : list leaf_rule :=
  [ {| rule_path := ["SERVICE_NAME"];
       rule_coerce := as_dump str_type VStr;
       rule_default := VStr SERVICE_NAME_default |};
    {| rule_path := ["DB"; "DB_NAME"];
       rule_coerce := as_dump str_type VStr;
       rule_default := VStr (DB_NAME DBConfig_default) |};
    {| rule_path := ["DB"; "SCHEMA_NAMES"];
       rule_coerce := as_dump str_type VStr;
       rule_default := VStr (SCHEMA_NAMES DBConfig_default) |};
    {| rule_path := ["DB"; "USERNAME"];
       rule_coerce := as_dump secret_type (dump_secret PythonMode);
       rule_default := dump_secret PythonMode (USERNAME DBConfig_default) |};
    {| rule_path := ["DB"; "PASSWORD"];
       rule_coerce := as_dump secret_type (dump_secret PythonMode);
       rule_default := dump_secret PythonMode (PASSWORD DBConfig_default) |};
    {| rule_path := ["DB"; "HOST"];
       rule_coerce := as_dump str_type VStr;
       rule_default := VStr (HOST DBConfig_default) |};
    {| rule_path := ["DB"; "PORT"];
       rule_coerce := as_dump int_type VInt;
       rule_default := VInt (PORT DBConfig_default) |};
    {| rule_path := ["DB"; "PERF"; "POOL_SIZE"];
       rule_coerce := as_dump int_type VInt;
       rule_default := VInt (POOL_SIZE DBPerfConfig_default) |};
    {| rule_path := ["DB"; "PERF"; "WEB_CONCURRENCY"];
       rule_coerce := as_dump int_type VInt;
       rule_default := VInt (WEB_CONCURRENCY DBPerfConfig_default) |};
    {| rule_path := ["AWS_CONFIG"; "AWS_DEFAULT_REGION"];
       rule_coerce := as_dump str_type VStr;
       rule_default := VStr AWS_DEFAULT_REGION_default |};
    {| rule_path := ["LOOKUP_DATA"; "DATA_FILE_1"];
       rule_coerce := as_dump (RequiredFile w) (dump_path PythonMode);
       rule_default := dump_path PythonMode DATA_FILE_1_default |};
    {| rule_path := ["LOGGING"; "LOG_LEVEL"];
       rule_coerce := as_dump LogLevel_type dump_LogLevel;
       rule_default := dump_LogLevel (LOG_LEVEL LoggingConfig_default) |};
    {| rule_path := ["LOGGING"; "LOG_FORMAT"];
       rule_coerce := as_dump LOG_FORMAT_type VStr;
       rule_default := VStr (LOG_FORMAT LoggingConfig_default) |};
    {| rule_path := ["LOGGING"; "LOG_DATE_FORMAT"];
       rule_coerce := as_dump str_type VStr;
       rule_default := VStr (LOG_DATE_FORMAT LoggingConfig_default) |} ].

(** No validator of a leaf accepts a dictionary. *)
Definition refuses_dict {A : Type} (validate : value -> validated A) : Prop :=
  forall x a, validate x = Valid a -> is_dict x = false.

(** How a validated configuration stands to the merged values, for one
    field read under its name: the field is what the validation made of
    the value at the path, or the default when the path leads nowhere. *)
Definition extracted (values : dict) (cfg : AppConfig) (r : leaf_rule)
  : Prop :=
  match lookup_path (VDict values) (rule_path r) with
  | Some x =>
      is_dict x = false
      /\ rule_coerce r x
         = lookup_path (VDict (model_dump PythonMode cfg)) (rule_path r)
  | None =>
      blocked (VDict values) (rule_path r) = false
      /\ lookup_path (VDict (model_dump PythonMode cfg)) (rule_path r)
         = Some (rule_default r)
  end.

(** What a dotenv file says when it sets [DB.PORT] and nothing else does:
    a variable of the file that lands on the path [DB], [PORT] or below is
    [DB__PORT] itself, with the text [9999]. *)
Definition sets_port_only (vars : list (string * string)) : Prop :=
  forall k v, In (k, v) vars -> startswith k "DB__" = true ->
  forall x rest, split "__" k = x :: "PORT" :: rest -> rest = [] /\ v = "9999".

(** Outcomes of a validation. *)
Definition is_valid {A : Type} (r : validated A) : bool :=
  match r with Valid _ => true | _ => false end.



(** The error entries the properties speak of. *)
Definition extra_error (k : string) : ErrorDetails :=
  {| loc := [k]; msg := "Extra inputs are not permitted" |}.

Definition auth_error (place : list string) : ErrorDetails :=
  {| loc := place; msg := AUTH_MESSAGE |}.

(** A dictionary has one of the names. *)
Definition sets (d : dict) (names : list string) : bool :=
  existsb (fun n => is_some (dict_get d n)) names.

(** The merged values give the AWS section no profile and not both access
    keys, under any of the names the fields are read by. *)
Definition aws_auth_unset (values : dict) : Prop :=
  match dict_get values "AWS_CONFIG" with
  | Some (VDict d) =>
      sets d ["AWS__AWS_PROFILE"; "AWS_PROFILE"] = false
      /\ sets d ["AWS__AWS_ACCESS_KEY_ID"; "AWS_ACCESS_KEY_ID"]
         && sets d ["AWS__AWS_SECRET_ACCESS_KEY"; "AWS_SECRET_ACCESS_KEY"]
         = false
  | _ => True
  end.



(** The secret fields of a configuration, each with its path; [None] for an
    optional one that is not set. *)
Definition secret_fields (c : AppConfig)
  : list (list string * option SecretStr) :=
  [(["DB"; "USERNAME"], Some (USERNAME (DB c)));
   (["DB"; "PASSWORD"], Some (PASSWORD (DB c)));
   (["AWS_CONFIG"; "AWS_ACCESS_KEY_ID"], AWS_ACCESS_KEY_ID (AWS_CONFIG c));
   (["AWS_CONFIG"; "AWS_SECRET_ACCESS_KEY"],
      AWS_SECRET_ACCESS_KEY (AWS_CONFIG c))].

(** The configuration in which every secret is replaced by what [str]
    shows of it. *)
Definition redact_secret (x : SecretStr) : SecretStr :=
  {| get_secret_value := secret_str x |}.

Definition redact (c : AppConfig) : AppConfig :=
  {| SERVICE_NAME := SERVICE_NAME c;
     DB :=
       {| DB_NAME := DB_NAME (DB c);
          SCHEMA_NAMES := SCHEMA_NAMES (DB c);
          USERNAME := redact_secret (USERNAME (DB c));
          PASSWORD := redact_secret (PASSWORD (DB c));
          HOST := HOST (DB c);
          PORT := PORT (DB c);
          PERF := PERF (DB c) |};
     AWS_CONFIG :=
       {| AWS_PROFILE := AWS_PROFILE (AWS_CONFIG c);
          AWS_ACCESS_KEY_ID :=
            option_map redact_secret (AWS_ACCESS_KEY_ID (AWS_CONFIG c));
          AWS_SECRET_ACCESS_KEY :=
            option_map redact_secret (AWS_SECRET_ACCESS_KEY (AWS_CONFIG c));
          AWS_DEFAULT_REGION := AWS_DEFAULT_REGION (AWS_CONFIG c) |};
     LOOKUP_DATA := LOOKUP_DATA c;
     LOGGING := LOGGING c |}.

(** The text that stands for a leaf in a flat dictionary, [None] for a
    string that is left out as a masked secret. *)
Definition leaf_text {R : Runtime} (null_value : string)
    (skip_secret_values : bool) (leaf : value) : option string :=
  match leaf with
  | VDict _ => None
  | VList l => Some (join "," (map py_str l))
  | VNone => Some null_value
  | VBool _ => Some (lower (py_str leaf))
  | VStr s =>
      if startswith s "********" && skip_secret_values then None else Some s
  | _ => Some (py_str leaf)
  end.

(** Flattening, read off the leaves: one item for every leaf that is not
    left out, in the order of the document, under the key of its path. A
    leaf directly under the dictionary that is flattened is written with
    the [null_value] and the [skip_secret_values] given; a deeper one with
    ["None"] and [True]. *)
Definition leaf_item {R : Runtime} (parent_key sep null_value : string)
    (skip_secret_values : bool) (pl : list string * value)
  : list (string * string) :=
  let top := match fst pl with [_] => true | _ => false end in
  match leaf_text (if top then null_value else "None")
                  (if top then skip_secret_values else true) (snd pl) with
  | Some text => [(flat_key parent_key sep (fst pl), text)]
  | None => []
  end.

Definition flat_items {R : Runtime} (d : dict)
    (parent_key sep null_value : string) (skip_secret_values : bool)
  : list (string * string) :=
  flat_map (leaf_item parent_key sep null_value skip_secret_values)
    (leaves (VDict d)).

(** The items of the leaves under one entry of a dictionary. *)
Definition entry_leaves {R : Runtime} (parent_key sep null_value : string)
    (skip_secret_values : bool) (kv : string * value)
  : list (string * string) :=
  flat_map (leaf_item parent_key sep null_value skip_secret_values)
    (map (fun pl => (fst kv :: fst pl, snd pl)) (leaves (snd kv))).

(** The value of the last item of a list that has a key. *)
Definition last_item (items : list (string * string)) (k : string)
  : option string :=
  dict_get (rev items) k.

(** The flat keys of all the leaves, left out or not. *)
Definition leaf_keys (d : dict) (parent_key sep : string) : list string :=
  map (fun pl => flat_key parent_key sep (fst pl)) (leaves (VDict d)).

(** Ascending order of the keys of two items. *)
Definition key_le (a b : string * string) : Prop :=
  String.leb (fst a) (fst b) = true.

(** The configuration that the surroundings determine: what [get_config]
    builds from the YAML document and the other sources when it runs its
    body, or the exception it then raises. *)
Definition loaded {R : Runtime} (w : World) : result AppConfig :=
  match fst (load_config_yaml w "config.yaml" initial_state) with
  | VNone => fst (AppConfig_init w [] initial_state)
  | VDict data => fst (AppConfig_init w data initial_state)
  | _ => Raise (TypeError "argument after ** must be a mapping")
  end.

(** The records of the sources, as they are tracked. *)
Definition yaml_record (w : World) (filename : string) : ConfigSource :=
  let yaml := path_join (PROJECT_BASE_DIR w) filename in
  {| source_type := "yaml"; path := yaml;
     available := path_exists w yaml && path_is_file w yaml;
     description := "YAML configuration file: " ++ filename |}.

Definition settings_records (w : World) : list ConfigSource :=
  [ {| source_type := "secrets"; path := "/run/secrets";
       available := path_exists w "/run/secrets" && path_is_dir w "/run/secrets";
       description := "Docker secrets directory: /run/secrets" |};
    {| source_type := "environment"; path := "system environment";
       available := true;
       description := "System environment variables" |};
    {| source_type := "dotenv"; path := PATH_ENV w;
       available := path_exists w (PATH_ENV w) && path_is_file w (PATH_ENV w);
       description := "Dotenv file: " ++ PATH_ENV w |} ].

(** The keyword arguments that [get_config] builds [AppConfig] from. *)
Definition yaml_kwargs (w : World) : dict :=
  match fst (load_config_yaml w "config.yaml" initial_state) with
  | VDict data => data
  | _ => []
  end.

(** The surroundings with another environment. *)
Definition with_environ (w : World) (vars : list (string * string)) : World :=
  {| PROJECT_BASE_DIR := PROJECT_BASE_DIR w;
     path_exists := path_exists w;
     path_is_file := path_is_file w;
     path_is_dir := path_is_dir w;
     environ := vars;
     dotenv_values := dotenv_values w;
     secret_files := secret_files w;
     parse_yaml_file_as_dict := parse_yaml_file_as_dict w;
     convert_to_absolute_path := convert_to_absolute_path w;
     project_file := project_file w;
     open_for_writing := open_for_writing w;
     sources_with_options := sources_with_options w |}.

(** A text with no line break in it. *)
Definition single_line (s : string) : bool :=
  forallb (fun c => negb (Ascii.eqb c (ascii_of_nat 10)))
    (list_ascii_of_string s).

(** The lines of the report of [print_config_sources]: what the line of a
    source says, and the lines of the whole report. *)
Definition source_text (source : ConfigSource) : string :=
  "[" ++ upper (source_type source) ++ "]: "
    ++ rjust 13 (if available source then "✓ Available" else "✗ Not available")
    ++ " | " ++ description source.

Definition report_lines (sources : list ConfigSource) : list string :=
  ("Configuration sources checked during loading:" :: rule
     :: map source_text sources
     ++ [rule;
         "Priority order: Secrets > Environment Variables > Dotenv Files > YAML > Defaults"])%list.

(** The reference in the cache, if any, is that of an object. *)
Definition cache_valid (st : State) : Prop :=
  match get_config_cache st with
  | Some ref => (ref < List.length (objects st))%nat
  | None => True
  end.

End Notions.

(** ** Sample surroundings, for closed instances of the statements *)
Module Samples.
Import Py Models Exn Env Validation Settings Loader Exporter.

(** The [%] operator of CPython on a text and the dictionary of the log
    record that [validate_format_string] builds, read for whether it
    raises. What matters of a value of the record is its kind: a text, an
    integer, a float, or something else ([None], a tuple). *)
Inductive arg_kind : Type := KStr | KInt | KFloat | KOther.

(** The attributes of [logging.LogRecord(name="test", level=logging.INFO,
    pathname="", lineno=0, msg="test", args=(), exc_info=None)]: there is
    no [message] and no [asctime], which a formatter adds when it formats
    a record. *)
Definition record_kind (key : string) : option arg_kind :=
  if existsb (String.eqb key)
       ["name"; "msg"; "levelname"; "pathname"; "filename"; "module";
        "threadName"; "processName"]
  then Some KStr
  else if existsb (String.eqb key) ["levelno"; "lineno"; "thread"; "process"]
  then Some KInt
  else if existsb (String.eqb key) ["created"; "msecs"; "relativeCreated"]
  then Some KFloat
  else if existsb (String.eqb key)
            ["args"; "exc_info"; "exc_text"; "stack_info"; "funcName";
             "taskName"]
  then Some KOther
  else None.

(** Where the reading of a conversion specifier stands: in plain text;
    after the [%]; in a key between brackets, [depth] brackets being open;
    among the flags; in the digits of the width; after the width; after
    the point of the precision; in the digits of the precision; before the
    conversion character, a length modifier being still allowed or not. *)
Inductive phase : Type :=
| Text
| Start
| Key (depth : nat) (key : string)
| Flags
| WidthDigits
| AfterWidth
| AfterPoint
| PrecDigits
| Length
| Conversion.

(** The argument that the next conversion takes, if one is left: the
    dictionary itself before any key is read, the value under the key
    after one. *)
Definition format_arg : Type := option arg_kind.

Definition one_of (c : ascii) (chars : string) : bool :=
  existsb (Ascii.eqb c) (list_ascii_of_string chars).

(** The conversion character: [%] takes no argument; the others take the
    one that is left, of a kind they accept. [None] is an exception. *)
Definition convert (c : ascii) (arg : format_arg) : option (phase * format_arg) :=
  if Ascii.eqb c "%" then Some (Text, arg)
  else
    match arg with
    | None => None
    | Some kind =>
        let accepted :=
          if one_of c "sra" then true
          else if one_of c "diu" then
            match kind with KInt | KFloat => true | _ => false end
          else if one_of c "oxXc" then
            match kind with KInt => true | _ => false end
          else if one_of c "eEfFgG" then
            match kind with KInt | KFloat => true | _ => false end
          else false in
        if accepted then Some (Text, None) else None
    end.

Definition after_length (c : ascii) (arg : format_arg)
  : option (phase * format_arg) :=
  if one_of c "hlL" then Some (Conversion, arg) else convert c arg.

(** A [*] takes the argument that is left as the width or the precision:
    it has to be an integer. *)
Definition star (next : phase) (arg : format_arg)
  : option (phase * format_arg) :=
  match arg with
  | Some KInt => Some (next, None)
  | _ => None
  end.

Definition is_digit (c : ascii) : bool := one_of c "0123456789".

Definition after_point (c : ascii) (arg : format_arg)
  : option (phase * format_arg) :=
  if Ascii.eqb c "*" then star Length arg
  else if is_digit c then Some (PrecDigits, arg)
  else after_length c arg.

Definition after_width (c : ascii) (arg : format_arg)
  : option (phase * format_arg) :=
  if Ascii.eqb c "." then Some (AfterPoint, arg) else after_length c arg.

Definition after_flags (c : ascii) (arg : format_arg)
  : option (phase * format_arg) :=
  if Ascii.eqb c "*" then star AfterWidth arg
  else if is_digit c then Some (WidthDigits, arg)
  else after_width c arg.

Definition flags (c : ascii) (arg : format_arg)
  : option (phase * format_arg) :=
  if one_of c "-+ #0" then Some (Flags, arg) else after_flags c arg.

(** One character of the format. *)
Definition format_step (p : phase) (c : ascii) (arg : format_arg)
  : option (phase * format_arg) :=
  match p with
  | Text => if Ascii.eqb c "%" then Some (Start, arg) else Some (Text, arg)
  | Start =>
      if Ascii.eqb c "%" then Some (Text, arg)
      else if Ascii.eqb c "(" then Some (Key 1 "", arg)
      else flags c arg
  | Key depth key =>
      if Ascii.eqb c ")" then
        match depth with
        | 1%nat => option_map (fun kind => (Flags, Some kind)) (record_kind key)
        | _ => Some (Key (depth - 1) (key ++ String c ""), arg)
        end
      else if Ascii.eqb c "(" then Some (Key (S depth) (key ++ String c ""), arg)
      else Some (Key depth (key ++ String c ""), arg)
  | Flags => flags c arg
  | WidthDigits => if is_digit c then Some (WidthDigits, arg) else after_width c arg
  | AfterWidth => after_width c arg
  | AfterPoint => after_point c arg
  | PrecDigits => if is_digit c then Some (PrecDigits, arg) else after_length c arg
  | Length => after_length c arg
  | Conversion => convert c arg
  end.

(** Whether the formatting raises: at a character, or at the end of the
    text when a specifier or a key is left open. *)
Fixpoint format_raises (p : phase) (arg : format_arg) (fmt : string) : bool :=
  match fmt with
  | EmptyString => match p with Text => false | _ => true end
  | String c rest =>
      match format_step p c arg with
      | None => true
      | Some (p', arg') => format_raises p' arg' rest
      end
  end.

(** The parameters of [BaseSettings.__init__] in a recent version of
    [pydantic-settings]. *)
Definition BaseSettings_parameters : list string :=
  ["__pydantic_self__"; "_case_sensitive";
   "_nested_model_default_partial_update"; "_env_prefix"; "_env_file";
   "_env_file_encoding"; "_env_ignore_empty"; "_env_nested_delimiter";
   "_env_nested_max_split"; "_env_parse_none_str"; "_env_parse_enums";
   "_cli_prog_name"; "_cli_parse_args"; "_cli_settings_source";
   "_cli_parse_none_str"; "_cli_hide_none_type"; "_cli_avoid_json";
   "_cli_enforce_required"; "_cli_use_class_docs_for_groups";
   "_cli_exit_on_error"; "_cli_prefix"; "_cli_flag_prefix_char";
   "_cli_implicit_flags"; "_cli_ignore_unknown_args"; "_cli_kebab_case";
   "_cli_shortcuts"; "_secrets_dir"].

(** A runtime whose [repr] puts single quotes around the text, whose JSON
    decoder refuses everything, whose [%] is the one above on a dictionary
    (a first conversion without a key takes the dictionary itself), and
    whose constructor has the parameters above. *)
Definition no_json_proper (s : string) (v : value)
    (H : @None value = Some v) : proper v :=
  match H in _ = o return match o with Some _ => proper v | None => True end
  with eq_refl => I end.

#[global] Instance sample_runtime : Runtime :=
  {| repr_str := fun s => "'" ++ s ++ "'";
     json_loads := fun _ => None;
     json_loads_proper := no_json_proper;
     percent_format_raises := format_raises Text (Some KOther);
     init_option :=
       fun k => String.prefix "_" k && existsb (String.eqb k) BaseSettings_parameters;
     init_option_underscore := fun k H => proj1 (andb_prop _ _ H) |}.

(** A project directory [/app] with a [.env] file and a [config.yaml], no
    secrets directory; every file under [/app] can be written, and is
    named by its path. *)
Definition sample_files (environ dotenv : list (string * string))
    (yaml : option value)
    (sources : dict -> result dict * result dict * result dict) : World :=
  {| PROJECT_BASE_DIR := "/app";
     path_exists := fun p => (p =? "/app/.env") || (p =? "/app/config.yaml");
     path_is_file := fun p => (p =? "/app/.env") || (p =? "/app/config.yaml");
     path_is_dir := fun _ => false;
     environ := environ;
     dotenv_values := fun _ => dotenv;
     secret_files := fun _ => [];
     parse_yaml_file_as_dict := fun _ => yaml;
     convert_to_absolute_path := fun s => "/app/" ++ s;
     project_file := fun name => "/app/" ++ name;
     open_for_writing := fun p => Some p;
     sources_with_options := sources |}.

(** With [_env_file=None], as the tests construct an [AppConfig], no
    dotenv file is read and the other sources are as without the option;
    a keyword argument named as the first parameter of the constructor is
    refused with a [TypeError]; any other option is read as one that
    repeats the configuration of the class and changes nothing. *)
Definition sample_world (environ dotenv : list (string * string))
    (yaml : option value) : World :=
  let base := sample_files environ dotenv yaml (fun _ => (Ok [], Ok [], Ok [])) in
  sample_files environ dotenv yaml
    (fun options =>
       match options with
       | [("_env_file", VNone)] =>
           (env_settings base, Ok [], file_secret_settings base)
       | _ =>
           if is_some (dict_get options "__pydantic_self__") then
             let refused :=
               Raise (TypeError
                        "__init__() got multiple values for argument '__pydantic_self__'") in
             (refused, refused, refused)
           else settings_sources base []
       end).

Definition profile_in_env : list (string * string) :=
  [("AWS_CONFIG__AWS_PROFILE", "default")].

(** A configuration with an empty user name, a password, a profile and no
    access keys. *)
Definition sample_config (service_name user : string) : AppConfig :=
  {| SERVICE_NAME := service_name;
     DB :=
       {| DB_NAME := "DBNAME";
          SCHEMA_NAMES := "SCHEMA";
          USERNAME := {| get_secret_value := user |};
          PASSWORD := {| get_secret_value := "hunter2" |};
          HOST := "127.0.0.1";
          PORT := 5432;
          PERF := DBPerfConfig_default |};
     AWS_CONFIG :=
       {| AWS_PROFILE := Some "default";
          AWS_ACCESS_KEY_ID := None;
          AWS_SECRET_ACCESS_KEY := None;
          AWS_DEFAULT_REGION := "us-east-1" |};
     LOOKUP_DATA := {| DATA_FILE_1 := DATA_FILE_1_default |};
     LOGGING := LoggingConfig_default |}.

(** Worlds for the closed statements: a load that succeeds with an
    unparsable [config.yaml]; a dotenv file that sets [DB__PORT]; a YAML
    document with a key that [DBConfig] does not declare; a YAML document
    that gives the AWS section a region of the wrong type and no
    credentials; and a YAML document that gives the profile under its
    first alias while the environment gives it under the field name. *)
Definition world_ok : World := sample_world profile_in_env [] None.

Definition world_port : World :=
  sample_world profile_in_env [("DB__PORT", "9999")] None.

Definition yaml_nested_unknown : dict :=
  [("DB", VDict [("BOGUS", VInt 1)])].

Definition world_nested_unknown : World :=
  sample_world profile_in_env [] (Some (VDict yaml_nested_unknown)).



Definition world_no_aws : World := sample_world [] [] None.

(** A YAML document with an empty AWS section and a number where
    [LOOKUP_DATA] wants a file. *)
Definition yaml_bad_file : dict :=
  [("AWS_CONFIG", VDict []); ("LOOKUP_DATA", VDict [("DATA_FILE_1", VInt 5)])].

Definition world_bad_file : World :=
  sample_world [] [] (Some (VDict yaml_bad_file)).

Definition yaml_alias : dict :=
  [("AWS_CONFIG", VDict [("AWS__AWS_PROFILE", VStr "yaml_profile")])].

Definition world_alias : World :=
  sample_world [("AWS_CONFIG__AWS_PROFILE", "env_profile")] []
    (Some (VDict yaml_alias)).

(** A [config.yaml] that holds a list. *)
Definition world_yaml_list : World :=
  sample_world profile_in_env [] (Some (VList [VStr "a"])).

(** A dictionary with a nested section (a null, a boolean and a string
    that starts with eight asterisks), a list, an empty section, a null and
    a string of eight asterisks. *)
Definition sample_tree : dict :=
  [("A", VDict [("B", VNone); ("C", VBool true); ("D", VStr "********x")]);
   ("L", VList [VInt 1; VInt 2]);
   ("E", VDict []);
   ("N", VNone);
   ("S", VStr "********")].

(** A dotenv file with a variable that no field reads. *)
Definition world_stray : World :=
  sample_world profile_in_env [("EDITOR", "vi")] None.

End Samples.

(** * Properties *)

(** ** Dictionaries as association lists *)
Module DictFacts.
Import Py.
Section Facts.
Context {A : Type}.
Implicit Types (d l : list (string * A)) (k : string) (v : A).

Lemma dict_get_set_eq d k v : dict_get (dict_set d k v) k = Some v.
Proof.
  induction d as [|[k' v'] d IH]; simpl.
  - now rewrite String.eqb_refl.
  - destruct (k' =? k) eqn:E; simpl.
    + now rewrite String.eqb_refl.
    + now rewrite E.
Qed.

Lemma dict_get_set_ne d k k' v :
  k <> k' -> dict_get (dict_set d k v) k' = dict_get d k'.
Proof.
  intros Hne. induction d as [|[k0 v0] d IH]; simpl.
  - destruct (k =? k') eqn:E; [apply String.eqb_eq in E; contradiction|reflexivity].
  - destruct (k0 =? k) eqn:E; simpl.
    + apply String.eqb_eq in E; subst k0.
      destruct (k =? k') eqn:E'; [apply String.eqb_eq in E'; contradiction|reflexivity].
    + destruct (k0 =? k'); [reflexivity|exact IH].
Qed.

Lemma in_keys_dict_set d k v k' :
  In k' (keys (dict_set d k v)) <-> k' = k \/ In k' (keys d).
Proof.
  unfold keys. induction d as [|[k0 v0] d IH]; simpl.
  - split; [intros [H|[]]; left; now symmetry|intros [H|[]]; left; now symmetry].
  - destruct (k0 =? k) eqn:E; simpl.
    + apply String.eqb_eq in E; subst k0. intuition.
    + rewrite IH. intuition.
Qed.

Lemma dict_get_none d k : dict_get d k = None <-> ~ In k (keys d).
Proof.
  unfold keys. induction d as [|[k0 v0] d IH]; simpl.
  - intuition.
  - destruct (k0 =? k) eqn:E.
    + apply String.eqb_eq in E. split; [discriminate|intros H; exfalso; apply H; now left].
    + apply String.eqb_neq in E. rewrite IH. intuition.
Qed.

Lemma dict_get_in d k v : dict_get d k = Some v -> In (k, v) d.
Proof.
  induction d as [|[k0 v0] d IH]; simpl; [discriminate|].
  destruct (k0 =? k) eqn:E.
  - apply String.eqb_eq in E; subst. intros [= ->]. now left.
  - intros H. right. auto.
Qed.

Lemma in_keys d k v : In (k, v) d -> In k (keys d).
Proof. intros H. unfold keys. now apply (in_map fst) in H. Qed.

Lemma dict_set_fresh d k v : ~ In k (keys d) -> dict_set d k v = (d ++ [(k, v)])%list.
Proof.
  unfold keys. induction d as [|[k0 v0] d IH]; simpl; intros H; [reflexivity|].
  destruct (k0 =? k) eqn:E.
  - apply String.eqb_eq in E. exfalso. apply H. now left.
  - f_equal. apply IH. intuition.
Qed.

Lemma NoDup_dict_set d k v : NoDup (keys d) -> NoDup (keys (dict_set d k v)).
Proof.
  unfold keys. induction d as [|[k0 v0] d IH]; simpl; intros H.
  - constructor; [intros []|constructor].
  - inversion H as [|? ? Hn Hd]; subst.
    destruct (k0 =? k) eqn:E; simpl.
    + apply String.eqb_eq in E; subst. now constructor.
    + constructor; [|now apply IH].
      intros Hin. apply (in_keys_dict_set d k v k0) in Hin.
      destruct Hin as [->|Hin]; [now rewrite String.eqb_refl in E|contradiction].
Qed.

Lemma fold_dict_set_keys l acc k :
  In k (keys (fold_left (fun a kv => dict_set a (fst kv) (snd kv)) l acc))
  <-> In k (keys acc) \/ In k (keys l).
Proof.
  revert acc. induction l as [|[k0 v0] l IH]; intros acc; simpl.
  - intuition.
  - rewrite IH, in_keys_dict_set. intuition.
Qed.

Lemma in_keys_dict_of_items l k :
  In k (keys (dict_of_items l)) <-> In k (keys l).
Proof.
  unfold dict_of_items. rewrite fold_dict_set_keys. simpl. intuition.
Qed.

Lemma fold_dict_set_fresh l acc :
  NoDup (keys (acc ++ l)%list) ->
  fold_left (fun a kv => dict_set a (fst kv) (snd kv)) l acc = (acc ++ l)%list.
Proof.
  revert acc. induction l as [|[k0 v0] l IH]; intros acc H; simpl.
  - now rewrite app_nil_r.
  - assert (Hf : ~ In k0 (keys acc)).
    { unfold keys in *. rewrite map_app in H. simpl in H.
      apply NoDup_remove_2 in H. intros Hin. apply H. apply in_or_app. now left. }
    rewrite (dict_set_fresh _ _ _ Hf). rewrite IH.
    + now rewrite <- app_assoc.
    + now rewrite <- app_assoc.
Qed.

Lemma dict_of_items_distinct l : NoDup (keys l) -> dict_of_items l = l.
Proof. intros H. unfold dict_of_items. now rewrite fold_dict_set_fresh. Qed.

Lemma keys_app d l : keys (d ++ l)%list = (keys d ++ keys l)%list.
Proof. unfold keys. apply map_app. Qed.

Lemma in_insert_sorted (x y : string * A) l :
  In x (insert_sorted y l) <-> x = y \/ In x l.
Proof.
  induction l as [|z l IH]; simpl.
  - intuition.
  - destruct (String.leb (fst y) (fst z)); simpl; [intuition|].
    rewrite IH. intuition.
Qed.

Lemma in_sorted_items (x : string * A) l : In x (sorted_items l) <-> In x l.
Proof.
  unfold sorted_items. induction l as [|z l IH]; simpl; [intuition|].
  rewrite in_insert_sorted, IH. intuition.
Qed.

End Facts.
End DictFacts.

(** ** The exports and the secrets *)
Module ExportFacts.
Import Py Models Exn Env Loader Exporter Notions Samples DictFacts.
Section Facts.
Context {R : Runtime}.

Lemma flatten_value_dict d parent_key sep null_value skip :
  flatten_value (VDict d) parent_key sep null_value skip
  = dict_of_items (raw_items d parent_key sep null_value skip).
Proof.
  cbn [flatten_value]. f_equal. unfold raw_items.
  induction d as [|[key value] d IH]; [reflexivity|].
  cbn [flat_map]. rewrite <- IH. reflexivity.
Qed.

Lemma flat_keys_origin (v : value) :
  forall parent_key sep null_value k,
  In k (keys (flatten_value v parent_key sep null_value true)) ->
  exists p leaf,
    reaches v p leaf /\ p <> [] /\ is_dict leaf = false /\
    starred leaf = false /\ k = flat_key parent_key sep p.
Proof.
  induction v as [| | | | | | |d IH] using value_nested_ind;
    intros parent_key sep null_value k Hin; try (simpl in Hin; contradiction).
  rewrite flatten_value_dict in Hin.
  apply (proj1 (in_keys_dict_of_items _ _)) in Hin.
  unfold raw_items in Hin.
  induction d as [|[key value] d IHd]; [simpl in Hin; contradiction|].
  cbn [flat_map] in Hin. rewrite keys_app in Hin. apply in_app_or in Hin.
  inversion IH as [|? ? Hv Hd]; subst.
  destruct Hin as [Hin|Hin].
  - unfold entry_items in Hin; cbn [fst snd] in Hin, Hv.
    assert (Hleaf : forall x : string, In k (keys [(new_key_of parent_key sep key, x)]) ->
              is_dict value = false -> starred value = false ->
              exists p leaf, reaches (VDict ((key, value) :: d)) p leaf /\ p <> [] /\
                is_dict leaf = false /\ starred leaf = false /\
                k = flat_key parent_key sep p).
    { intros x [Hk|[]] Hd' Hs'. exists [key], value. repeat split; auto.
      - apply reaches_step with (v' := value); [now left|constructor].
      - discriminate. }
    destruct value; try (eapply Hleaf; [exact Hin|reflexivity|reflexivity]).
    + destruct (startswith s "********") eqn:E; simpl in Hin; [contradiction|].
      apply (Hleaf s); [exact Hin|reflexivity|exact E].
    + destruct (Hv _ _ _ _ Hin) as (p & leaf & Hr & Hp & Hd' & Hs' & Hk).
      exists (key :: p), leaf. repeat split; auto.
      * apply reaches_step with (v' := VDict d0); [now left|exact Hr].
      * discriminate.
  - destruct (IHd Hd Hin) as (p & leaf & Hr & Hp & Hd' & Hs' & Hk).
    exists p, leaf. repeat split; auto.
    inversion Hr as [|? ? ? ? ? Hi Hr']; subst; [contradiction|].
    apply reaches_step with (v' := v'); [now right|exact Hr'].
Qed.

Lemma lookup_reaches v p x : lookup_path v p = Some x -> reaches v p x.
Proof.
  revert v. induction p as [|k p IH]; intros v H; simpl in H.
  - injection H as ->. constructor.
  - destruct v; try discriminate.
    destruct (dict_get d k) as [v'|] eqn:E; [|discriminate].
    apply reaches_step with (v' := v'); [now apply dict_get_in|now apply IH].
Qed.

Lemma leaves_dict d :
  leaves (VDict d)
  = flat_map (fun kv => map (fun pl => (fst kv :: fst pl, snd pl))
                          (leaves (snd kv))) d.
Proof.
  cbn [leaves]. induction d as [|[k v] d IH]; [reflexivity|].
  cbn [flat_map]. rewrite <- IH. reflexivity.
Qed.

Lemma reaches_leaves v p leaf :
  reaches v p leaf -> is_dict leaf = false -> In (p, leaf) (leaves v).
Proof.
  intros Hr Hl. induction Hr as [v|d k v' p leaf Hin Hr IH].
  - destruct v; try discriminate; now left.
  - rewrite leaves_dict. apply in_flat_map. exists (k, v'). split; [exact Hin|].
    apply in_map_iff. exists (p, leaf). split; [reflexivity|now apply IH].
Qed.

Lemma distinctb_NoDup l : distinctb l = true -> NoDup l.
Proof.
  induction l as [|x l IH]; simpl; intros H; [constructor|].
  apply andb_prop in H. destruct H as [Hx Hl].
  constructor; [|now apply IH].
  intros Hin. apply negb_true_iff in Hx.
  assert (existsb (String.eqb x) l = true) as Hex; [|congruence].
  apply existsb_exists. exists x. split; [exact Hin|apply String.eqb_refl].
Qed.

Lemma NoDup_map_eq {A B : Type} (f : A -> B) l a b :
  NoDup (map f l) -> In a l -> In b l -> f a = f b -> a = b.
Proof.
  induction l as [|x l IH]; simpl; intros Hn Ha Hb Hf; [contradiction|].
  inversion Hn as [|? ? Hx Hl]; subst.
  destruct Ha as [->|Ha], Hb as [->|Hb]; auto.
  - exfalso. apply Hx. rewrite Hf. now apply in_map.
  - exfalso. apply Hx. rewrite <- Hf. now apply in_map.
Qed.

(** A string leaf that starts with eight asterisks gets no entry in the flat
    dictionary, in any tree whose leaves get distinct flat keys. *)
Lemma starred_leaf_absent (d : dict) (path : list string) (s v null_value : string) :
  NoDup (flat_keys d) ->
  lookup_path (VDict d) path = Some (VStr s) ->
  startswith s "********" = true ->
  ~ In (flat_key "" "__" path, v)
       (_flatten_config_dict d "" "__" null_value true).
Proof.
  intros Hn Hl Hs Hin. apply in_keys in Hin.
  unfold _flatten_config_dict in Hin.
  destruct (flat_keys_origin _ _ _ _ _ Hin) as (p & leaf & Hr & _ & Hd & Hst & Hk).
  apply reaches_leaves in Hr; [|exact Hd].
  apply lookup_reaches in Hl. apply reaches_leaves in Hl; [|reflexivity].
  assert (E : (path, VStr s) = (p, leaf)).
  { apply (NoDup_map_eq (fun pl => flat_key "" "__" (fst pl)) _ _ _ Hn Hl Hr).
    exact Hk. }
  injection E as _ <-. simpl in Hst. congruence.
Qed.

Lemma model_dump_flat_keys (config : AppConfig) :
  NoDup (flat_keys (model_dump JsonMode config)).
Proof.
  destruct config as [sn [dbn sch [u] [pw] h po [ps wc]] [pr ak sk rg] [df] [ll lf ld]].
  apply distinctb_NoDup.
  destruct pr, ak, sk, df; reflexivity.
Qed.

Lemma starred_field_absent (config : AppConfig) (path : list string)
    (s v : string) :
  lookup_path (VDict (model_dump JsonMode config)) path = Some (VStr s) ->
  startswith s "********" = true ->
  ~ In (flat_key "" "__" path, v) (sorted_items (flat_config config)).
Proof.
  intros Hl Hs Hin. apply (proj1 (in_sorted_items _ _)) in Hin.
  revert Hin. apply starred_leaf_absent with (s := s); auto.
  apply model_dump_flat_keys.
Qed.

Lemma secret_display_twice s : secret_display (secret_display s) = secret_display s.
Proof. unfold secret_display. destruct (s =? ""); reflexivity. Qed.

Lemma secret_display_mask s : s <> "" -> secret_display s = SECRET_MASK.
Proof.
  intros H. unfold secret_display.
  destruct (s =? "") eqn:E; [apply String.eqb_eq in E; contradiction|reflexivity].
Qed.

Lemma model_dump_json_redact (config : AppConfig) :
  model_dump JsonMode (redact config) = model_dump JsonMode config.
Proof.
  destruct config as [sn [dbn sch [u] [pw] h po pf] [pr ak sk rg] ld lg].
  unfold redact, model_dump, dump_DBConfig, dump_AWSConfig, dump_secret,
    redact_secret, secret_str; simpl.
  rewrite !secret_display_twice.
  destruct ak as [[a]|], sk as [[b]|]; simpl; rewrite ?secret_display_twice;
    reflexivity.
Qed.

Lemma secret_field_dump (m : dump_mode) (config : AppConfig) p o :
  In (p, o) (secret_fields config) ->
  lookup_path (VDict (model_dump m config)) p
  = Some (dump_option (dump_secret m) o).
Proof.
  destruct config as [sn [dbn sch u pw h po pf] [pr ak sk rg] ld lg].
  intros [H|[H|[H|[H|[]]]]]; injection H as <- <-; reflexivity.
Qed.

Lemma list_entry_items (d : dict) parent_key sep null_value skip key l :
  In (key, VList l) d ->
  In (new_key_of parent_key sep key, join "," (map py_str l))
     (raw_items d parent_key sep null_value skip).
Proof.
  intros H. unfold raw_items. apply in_flat_map.
  exists (key, VList l). split; [exact H|now left].
Qed.

(** C10. A string field of the serialised configuration that starts with
    eight asterisks has no entry among the items that the dotenv export
    writes, secret or not: no written line is the line of an item under
    its key. *)
Theorem starred_string_omitted (config : AppConfig) (path : list string)
    (s : string) :
  lookup_path (VDict (model_dump JsonMode config)) path = Some (VStr s) ->
  startswith s "********" = true ->
  (forall v, ~ In (flat_key "" "__" path, v) (sorted_items (flat_config config)))
  /\ (forall line, In line (dotenv_lines config) ->
       exists kv, In kv (sorted_items (flat_config config)) /\
                  line = dotenv_line kv /\ fst kv <> flat_key "" "__" path).
Proof.
  intros Hl Hs. split.
  - intros v. now apply starred_field_absent with (s := s).
  - intros line Hline. unfold dotenv_lines in Hline.
    apply in_map_iff in Hline. destruct Hline as ([k v] & <- & Hkv).
    exists (k, v). repeat split; auto. simpl. intros ->.
    revert Hkv. now apply starred_field_absent with (s := s).
Qed.

(** C2, amended. For every secret field: the dump holds, at the path of the
    field, the dump of the secret (the object in Python mode, its display
    in JSON mode, a null when the field is not set); a secret that is not
    empty is displayed as the ten asterisks by [str], in the JSON dump, and
    by [str] and [repr] of the object that the Python dump holds, while
    [get_secret_value] returns the text; an empty secret is displayed as
    the empty text; and the JSON dump is that of the redacted
    configuration. *)
Theorem secret_fields_masked (config : AppConfig) (p : list string)
    (o : option SecretStr) :
  In (p, o) (secret_fields config) ->
  (forall m, lookup_path (VDict (model_dump m config)) p
             = Some (dump_option (dump_secret m) o))
  /\ (forall x, o = Some x ->
        (get_secret_value x <> "" ->
           secret_str x = SECRET_MASK
           /\ lookup_path (VDict (model_dump JsonMode config)) p
              = Some (VStr SECRET_MASK)
           /\ lookup_path (VDict (model_dump PythonMode config)) p
              = Some (VSecret (get_secret_value x))
           /\ py_str (VSecret (get_secret_value x)) = SECRET_MASK
           /\ py_repr (VSecret (get_secret_value x))
              = "SecretStr(" ++ repr_str SECRET_MASK ++ ")")
        /\ (get_secret_value x = "" -> secret_str x = ""))
  /\ model_dump JsonMode (redact config) = model_dump JsonMode config.
Proof.
  intros Hin. split; [|split].
  - intros m. now apply secret_field_dump.
  - intros x ->. split.
    + intros Hx. rewrite !(secret_field_dump _ config p (Some x)) by assumption.
      simpl. unfold secret_str. rewrite (secret_display_mask _ Hx). auto.
    + intros Hx. unfold secret_str. now rewrite Hx.
  - apply model_dump_json_redact.
Qed.

End Facts.

Lemma starred_string_omitted_witness :
  dict_get (sorted_items (flat_config (sample_config "********x" "user")))
    "SERVICE_NAME" = None.
Proof.
  destruct (dict_get (sorted_items (flat_config (sample_config "********x" "user")))
              "SERVICE_NAME") as [v|] eqn:E; [|reflexivity].
  exfalso. apply dict_get_in in E. revert E.
  exact (proj1 (starred_string_omitted (sample_config "********x" "user")
                  ["SERVICE_NAME"] "********x" eq_refl eq_refl) v).
Defined.

(** C2, as stated, fails: an empty secret is shown as the empty text, and a
    secret field that is not set is dumped as a null. *)
Lemma empty_or_unset_secret_is_not_masked :
  let c := sample_config "svc" "" in
  secret_str (USERNAME (DB c)) <> SECRET_MASK
  /\ lookup_path (VDict (model_dump JsonMode c)) ["DB"; "USERNAME"]
     = Some (VStr "")
  /\ lookup_path (VDict (model_dump JsonMode c))
       ["AWS_CONFIG"; "AWS_ACCESS_KEY_ID"] = Some VNone.
Proof. vm_compute. intuition discriminate. Qed.

Lemma secret_fields_masked_witness :
  lookup_path (VDict (model_dump JsonMode (sample_config "svc" "admin")))
    ["DB"; "PASSWORD"] = Some (VStr SECRET_MASK).
Proof.
  destruct (secret_fields_masked (sample_config "svc" "admin")
              ["DB"; "PASSWORD"] (Some {| get_secret_value := "hunter2" |}))
    as (_ & H & _).
  - simpl. right. now left.
  - destruct (H _ eq_refl) as (H' & _). apply H'. simpl. discriminate.
Defined.

End ExportFacts.

(** ** The cached entry point and the tracked sources *)
Module LoadFacts.
Import Py Models Exn Env Validation Settings Loader Notions Samples.
Section Facts.
Context {R : Runtime}.

Lemma track_config_source_sources ty p a d st :
  _config_sources (track_config_source ty p a d st)
  = (_config_sources st ++
       [{| source_type := ty; path := p; available := a; description := d |}])%list.
Proof. reflexivity. Qed.

(** What a log call leaves as it was. *)
Lemma emit_frame level message st :
  let st' := emit level message st in
  _config_sources st' = _config_sources st
  /\ get_config_cache st' = get_config_cache st
  /\ objects st' = objects st
  /\ root_level st' = root_level st
  /\ root_handlers st' = root_handlers st
  /\ files st' = files st
  /\ log st'
     = if isEnabledFor level st
       then (log st ++ [(LogLevel_value level, message)])%list
       else log st.
Proof.
  unfold emit. destruct (isEnabledFor level st); cbn; repeat split; reflexivity.
Qed.

Lemma emit_sources level message st :
  _config_sources (emit level message st) = _config_sources st.
Proof. apply emit_frame. Qed.

Lemma emit_cache level message st :
  get_config_cache (emit level message st) = get_config_cache st.
Proof. apply emit_frame. Qed.

Lemma emit_objects level message st :
  objects (emit level message st) = objects st.
Proof. apply emit_frame. Qed.

Lemma emit_root_level level message st :
  root_level (emit level message st) = root_level st.
Proof. apply emit_frame. Qed.

Lemma emit_root_handlers level message st :
  root_handlers (emit level message st) = root_handlers st.
Proof. apply emit_frame. Qed.

Lemma emit_files level message st :
  files (emit level message st) = files st.
Proof. apply emit_frame. Qed.

Lemma emit_log level message st :
  log (emit level message st)
  = if isEnabledFor level st
    then (log st ++ [(LogLevel_value level, message)])%list
    else log st.
Proof. apply emit_frame. Qed.

Lemma setup_logging_sources c st :
  _config_sources (setup_logging c st) = _config_sources st.
Proof. unfold setup_logging. destruct (root_handlers st); reflexivity. Qed.

Lemma print_config_sources_sources st :
  _config_sources (print_config_sources st) = _config_sources st.
Proof.
  unfold print_config_sources, get_config_sources, emit.
  destruct (_config_sources st) eqn:E; destruct (isEnabledFor INFO st);
    simpl; now rewrite ?E.
Qed.

Lemma setup_logging_objects c st :
  objects (setup_logging c st) = objects st.
Proof. unfold setup_logging. destruct (root_handlers st); reflexivity. Qed.

Lemma print_config_sources_objects st :
  objects (print_config_sources st) = objects st.
Proof.
  unfold print_config_sources, get_config_sources.
  destruct (_config_sources st); apply emit_objects.
Qed.

(** What a run of the body of [get_config] that returns has done. *)
Lemma get_config_body_returns w st ref st' :
  get_config_body w st = (Ok ref, st') ->
  exists data config st2,
    snd (load_config_yaml w "config.yaml" (clear_config_sources st)) = st2
    /\ BaseSettings_init w data = Ok config
    /\ ref = List.length (objects st)
    /\ st' = print_config_sources
               (setup_logging (LOGGING config)
                  (snd (allocate config (_track_all_sources w st2)))).
Proof.
  unfold get_config_body.
  destruct (load_config_yaml w "config.yaml" (clear_config_sources st))
    as [yaml_config st2] eqn:El.
  assert (Ho : objects st2 = objects st).
  { unfold load_config_yaml in El.
    destruct (negb _) in El; [injection El as _ <-; now rewrite emit_objects|].
    destruct (parse_yaml_file_as_dict w _) in El; injection El as _ <-; reflexivity. }
  assert (H : forall data,
    match AppConfig_init w data st2 with
    | (Raise e, st3) => (@Raise nat e, st3)
    | (Ok config, st3) =>
        let (ref, st4) := allocate config st3 in
        (Ok ref, print_config_sources (setup_logging (LOGGING config) st4))
    end = (Ok ref, st') ->
    exists data config st2',
      st2 = st2' /\ BaseSettings_init w data = Ok config
      /\ ref = List.length (objects st)
      /\ st' = print_config_sources
                 (setup_logging (LOGGING config)
                    (snd (allocate config (_track_all_sources w st2'))))).
  { intros data. unfold AppConfig_init.
    destruct (dict_get data "self"); [discriminate|].
    destruct (BaseSettings_init w data) as [c|e] eqn:Eb; [|discriminate].
    simpl. intros [= <- <-]. exists data, c, st2. rewrite <- Ho. auto. }
  destruct yaml_config; try discriminate; cbv beta iota; apply H.
Qed.

Lemma get_config_body_sources w st ref st' :
  get_config_body w st = (Ok ref, st') ->
  let yaml := path_join (PROJECT_BASE_DIR w) "config.yaml" in
  let env := PATH_ENV w in
  _config_sources st' =
    [ {| source_type := "yaml"; path := yaml;
         available := path_exists w yaml && path_is_file w yaml;
         description := "YAML configuration file: config.yaml" |};
      {| source_type := "secrets"; path := "/run/secrets";
         available := path_exists w "/run/secrets" && path_is_dir w "/run/secrets";
         description := "Docker secrets directory: /run/secrets" |};
      {| source_type := "environment"; path := "system environment";
         available := true;
         description := "System environment variables" |};
      {| source_type := "dotenv"; path := env;
         available := path_exists w env && path_is_file w env;
         description := "Dotenv file: " ++ env |} ].
Proof.
  intros H. destruct (get_config_body_returns _ _ _ _ H)
    as (data & config & st2 & Hl & _ & _ & ->).
  rewrite print_config_sources_sources, setup_logging_sources.
  subst st2. unfold load_config_yaml.
  destruct (negb _);
    [unfold _track_all_sources; cbn -[emit]; now rewrite emit_sources|].
  destruct (parse_yaml_file_as_dict w _); reflexivity.
Qed.

(** C3. A call of [get_config] that returns leaves the state such that the
    next call, whatever the surroundings have become, returns the same
    reference (the same object, not an equal one) and changes nothing. *)
Theorem get_config_cached (w w' : World) (st st' : State) (ref : nat) :
  get_config w st = (Ok ref, st') ->
  get_config w' st' = (Ok ref, st').
Proof.
  unfold get_config. destruct (get_config_cache st) as [r|] eqn:E.
  - intros [= <- <-]. now rewrite E.
  - destruct (get_config_body w st) as [[r|e] st1]; [|discriminate].
    intros [= <- <-]. reflexivity.
Qed.

(** C4. When [config.yaml] exists and cannot be parsed, [load_config_yaml]
    returns [None] and the load goes on as the construction of [AppConfig]
    from no keyword argument: it returns a new object holding that
    configuration, or raises what that construction raises. *)
Theorem unparsable_yaml_is_no_source (w : World) (st : State) :
  let yaml := path_join (PROJECT_BASE_DIR w) "config.yaml" in
  path_exists w yaml = true ->
  parse_yaml_file_as_dict w yaml = None ->
  get_config_cache st = None ->
  fst (load_config_yaml w "config.yaml" (clear_config_sources st)) = VNone
  /\ match BaseSettings_init w [] with
     | Ok config =>
         exists st', get_config w st = (Ok (List.length (objects st)), st')
                     /\ deref st' (List.length (objects st)) = Some config
     | Raise e => fst (get_config w st) = Raise e
     end.
Proof.
  intros yaml Hex Hparse Hcache. split.
  - unfold load_config_yaml. fold yaml. now rewrite Hex, Hparse.
  - unfold get_config. rewrite Hcache.
    unfold get_config_body, load_config_yaml. fold yaml. rewrite Hex, Hparse.
    simpl. unfold AppConfig_init.
    destruct (BaseSettings_init w []) as [c|e]; [|reflexivity].
    eexists. split; [reflexivity|].
    unfold deref. simpl.
    rewrite print_config_sources_objects, setup_logging_objects. simpl.
    rewrite nth_error_app2 by (simpl; lia).
    simpl. now rewrite Nat.sub_diag.
Qed.

(** C9, amended. After a load that returns, the tracked sources are, in the
    order in which they were probed: the YAML file, the secrets directory,
    the environment, the dotenv file, each with whether it was found. *)
Theorem sources_in_probing_order (w : World) (st st' : State) (ref : nat) :
  get_config_cache st = None ->
  get_config w st = (Ok ref, st') ->
  let yaml := path_join (PROJECT_BASE_DIR w) "config.yaml" in
  let env := PATH_ENV w in
  get_config_sources st' =
    [ {| source_type := "yaml"; path := yaml;
         available := path_exists w yaml && path_is_file w yaml;
         description := "YAML configuration file: config.yaml" |};
      {| source_type := "secrets"; path := "/run/secrets";
         available := path_exists w "/run/secrets" && path_is_dir w "/run/secrets";
         description := "Docker secrets directory: /run/secrets" |};
      {| source_type := "environment"; path := "system environment";
         available := true;
         description := "System environment variables" |};
      {| source_type := "dotenv"; path := env;
         available := path_exists w env && path_is_file w env;
         description := "Dotenv file: " ++ env |} ].
Proof.
  intros Hcache. unfold get_config. rewrite Hcache.
  destruct (get_config_body w st) as [[r|e] st1] eqn:E; [|discriminate].
  intros [= <- <-]. unfold get_config_sources. simpl.
  now apply (get_config_body_sources w st r st1).
Qed.

End Facts.

Lemma get_config_cached_witness :
  let st' := snd (get_config world_ok initial_state) in
  get_config world_ok st' = (Ok 0%nat, st').
Proof.
  apply (get_config_cached world_ok world_ok initial_state).
  vm_compute. reflexivity.
Defined.

Lemma unparsable_yaml_is_no_source_witness :
  exists st', get_config world_ok initial_state = (Ok 0%nat, st').
Proof.
  destruct (unparsable_yaml_is_no_source world_ok initial_state
              eq_refl eq_refl eq_refl) as [_ H].
  vm_compute in H. destruct H as (st' & H & _).
  exists st'. vm_compute. exact H.
Defined.

(** C9, as stated, fails: the YAML file comes first in the record, not
    last. *)
Lemma sources_not_in_precedence_order :
  map source_type
      (get_config_sources (snd (get_config world_ok initial_state)))
  <> ["secrets"; "environment"; "dotenv"; "yaml"].
Proof. vm_compute. discriminate. Qed.

Lemma sources_in_probing_order_witness :
  map source_type
      (get_config_sources (snd (get_config world_ok initial_state)))
  = ["yaml"; "secrets"; "environment"; "dotenv"].
Proof.
  rewrite (sources_in_probing_order world_ok initial_state
             (snd (get_config world_ok initial_state)) 0 eq_refl).
  - reflexivity.
  - vm_compute. reflexivity.
Defined.

End LoadFacts.

(** ** The merge of the sources *)
Module MergeFacts.
Import Py Settings Notions DictFacts.

Lemma deep_update_fold m u : deep_update m u = fold_left merge_entry u m.
Proof.
  unfold deep_update. cbn [deep_update_value].
  revert m. induction u as [|[k v] u IH]; intros m; [reflexivity|].
  cbn [fold_left]. rewrite <- IH. reflexivity.
Qed.

Lemma deep_update_value_dict m u :
  deep_update_value (VDict m) (VDict u) = VDict (deep_update m u).
Proof. reflexivity. Qed.

Lemma merge_entry_value updated k v :
  merge_entry updated (k, v)
  = dict_set updated k (merged_value (dict_get updated k) v).
Proof.
  unfold merge_entry, merged_value; simpl.
  destruct (dict_get updated k) as [[]|]; try reflexivity.
  destruct v; reflexivity.
Qed.

Lemma deep_update_get m u k :
  NoDup (keys u) ->
  dict_get (deep_update m u) k
  = match dict_get u k with
    | Some v => Some (merged_value (dict_get m k) v)
    | None => dict_get m k
    end.
Proof.
  rewrite deep_update_fold. revert m.
  induction u as [|[k0 v0] u IH]; intros m Hn; [reflexivity|].
  inversion Hn as [|? ? Hk Hu]; subst.
  cbn [fold_left]. rewrite (IH _ Hu). rewrite merge_entry_value. simpl.
  destruct (k0 =? k) eqn:E.
  - apply String.eqb_eq in E; subst k0.
    assert (dict_get u k = None) as -> by now apply dict_get_none.
    now rewrite dict_get_set_eq.
  - apply String.eqb_neq in E. now rewrite dict_get_set_ne.
Qed.

Lemma deep_update_keys m u k :
  In k (keys (deep_update m u)) <-> In k (keys m) \/ In k (keys u).
Proof.
  rewrite deep_update_fold. revert m.
  induction u as [|[k0 v0] u IH]; intros m; simpl; [intuition|].
  rewrite IH, merge_entry_value, in_keys_dict_set. intuition.
Qed.

Lemma deep_update_NoDup m u :
  NoDup (keys m) -> NoDup (keys (deep_update m u)).
Proof.
  rewrite deep_update_fold. revert m.
  induction u as [|[k0 v0] u IH]; intros m H; simpl; [exact H|].
  apply IH. rewrite merge_entry_value. now apply NoDup_dict_set.
Qed.

Lemma deep_update_nil m : deep_update m [] = m.
Proof. reflexivity. Qed.

(** Properness, entry by entry. *)
Lemma proper_dict d :
  proper (VDict d) <->
  NoDup (keys d) /\ forall k v, dict_get d k = Some v -> proper v.
Proof.
  split.
  - intros H. split; [exact (proj1 (H []))|].
    intros k v E p. specialize (H (k :: p)). simpl in H. now rewrite E in H.
  - intros [Hn Hv] [|k p]; simpl; split; auto.
    destruct (dict_get d k) eqn:E; [now apply (Hv k)|exact I].
Qed.

Lemma proper_scalar v : is_dict v = false -> proper v.
Proof. intros H p. destruct v, p; try discriminate; exact I. Qed.

Lemma proper_dict_set d k v :
  proper (VDict d) -> proper v -> proper (VDict (dict_set d k v)).
Proof.
  rewrite !proper_dict. intros [Hn Hd] Hv. split; [now apply NoDup_dict_set|].
  intros k' v' E. destruct (String.eqb_spec k k') as [->|Hne].
  - rewrite dict_get_set_eq in E. now injection E as <-.
  - rewrite dict_get_set_ne in E by assumption. now apply (Hd k').
Qed.

Lemma proper_deep_update_path p :
  forall m u, proper (VDict m) -> proper (VDict u) ->
  distinct_keys (VDict (deep_update m u)) p.
Proof.
  induction p as [|k p IH]; intros m u Hm Hu.
  - simpl. split; [|exact I]. apply deep_update_NoDup. exact (proj1 (Hm [])).
  - simpl. split; [apply deep_update_NoDup; exact (proj1 (Hm []))|].
    rewrite deep_update_get by exact (proj1 (Hu [])).
    apply proper_dict in Hm, Hu. destruct Hm as [Hnm Hm], Hu as [Hnu Hu].
    destruct (dict_get u k) as [v|] eqn:Eu.
    + unfold merged_value. destruct (dict_get m k) as [vm|] eqn:Em.
      * destruct vm; try (apply (Hu k v Eu)).
        destruct v; try (apply (Hu k _ Eu)).
        apply IH; [apply (Hm k _ Em)|apply (Hu k _ Eu)].
      * apply (Hu k v Eu).
    + destruct (dict_get m k) as [vm|] eqn:Em; [apply (Hm k _ Em)|exact I].
Qed.

Lemma proper_deep_update m u :
  proper (VDict m) -> proper (VDict u) -> proper (VDict (deep_update m u)).
Proof. intros Hm Hu p. now apply proper_deep_update_path. Qed.

(** Lookups in a merge. *)
Lemma lookup_above m u p x :
  proper (VDict u) -> p <> [] ->
  lookup_path (VDict u) p = Some x ->
  lookup_path (VDict (deep_update m u)) p
  = Some (merged_value (lookup_path (VDict m) p) x).
Proof.
  revert m u. induction p as [|k p IH]; intros m u Hu Hp Hx; [contradiction|].
  simpl in *. rewrite deep_update_get by exact (proj1 (Hu [])).
  apply proper_dict in Hu. destruct Hu as [Hn Hu].
  destruct (dict_get u k) as [v|] eqn:Eu; [|discriminate].
  destruct p as [|k' p].
  - simpl in *. injection Hx as ->. destruct (dict_get m k); reflexivity.
  - destruct v; try discriminate.
    unfold merged_value at 1.
    destruct (dict_get m k) as [vm|] eqn:Em.
    + destruct vm; try (rewrite Hx; reflexivity).
      apply IH; [apply (Hu k _ Eu)|discriminate|exact Hx].
    + rewrite Hx. reflexivity.
Qed.

Lemma blocked_lookup v p : blocked v p = true -> lookup_path v p = None.
Proof.
  revert v. induction p as [|k p IH]; intros v H; [discriminate|].
  simpl in *. destruct v; try reflexivity.
  destruct (dict_get d k); [now apply IH|reflexivity].
Qed.

Lemma blocked_above m u p :
  proper (VDict u) ->
  blocked (VDict u) p = true ->
  blocked (VDict (deep_update m u)) p = true.
Proof.
  revert m u. induction p as [|k p IH]; intros m u Hu Hb; [discriminate|].
  simpl in *. rewrite deep_update_get by exact (proj1 (Hu [])).
  apply proper_dict in Hu. destruct Hu as [Hn Hu].
  destruct (dict_get u k) as [v|] eqn:Eu; [|discriminate].
  destruct p as [|k' p]; [destruct v; discriminate|].
  unfold merged_value.
  destruct v; try (destruct (dict_get m k) as [[]|]; reflexivity).
  destruct (dict_get m k) as [vm|]; [|exact Hb].
  destruct vm; try exact Hb.
  apply IH; [apply (Hu k _ Eu)|exact Hb].
Qed.

Lemma lookup_below m u p :
  proper (VDict u) ->
  lookup_path (VDict u) p = None -> blocked (VDict u) p = false ->
  lookup_path (VDict (deep_update m u)) p = lookup_path (VDict m) p.
Proof.
  revert m u. induction p as [|k p IH]; intros m u Hu Hx Hb; [discriminate|].
  simpl in *. rewrite deep_update_get by exact (proj1 (Hu [])).
  apply proper_dict in Hu. destruct Hu as [Hn Hu].
  destruct (dict_get u k) as [v|] eqn:Eu.
  - destruct p as [|k' p]; [discriminate|].
    destruct v; try discriminate.
    unfold merged_value.
    destruct (dict_get m k) as [vm|] eqn:Em; [|exact Hx].
    destruct vm; try exact Hx.
    apply IH; [apply (Hu k _ Eu)|exact Hx|exact Hb].
  - destruct (dict_get m k); auto.
Qed.

(** The merge of a list of proper sources. *)
Lemma proper_merge_sources sources st :
  Forall (fun s => proper (VDict s)) sources -> proper (VDict st) ->
  proper (VDict (merge_sources sources st)).
Proof.
  revert st. induction sources as [|s rest IH]; intros st Hs Hst; [exact Hst|].
  inversion Hs as [|? ? H1 H2]; subst. simpl. apply IH; [exact H2|].
  now apply proper_deep_update.
Qed.

Lemma blocked_merge_sources sources st p :
  Forall (fun s => proper (VDict s)) sources -> proper (VDict st) ->
  blocked (VDict st) p = true ->
  blocked (VDict (merge_sources sources st)) p = true.
Proof.
  revert st. induction sources as [|s rest IH]; intros st Hs Hst Hb; [exact Hb|].
  inversion Hs as [|? ? H1 H2]; subst. simpl. apply IH; [exact H2| |].
  - now apply proper_deep_update.
  - now apply blocked_above.
Qed.

Lemma merged_value_scalar below x :
  is_dict x = false -> merged_value below x = x.
Proof. intros H. destruct below as [[]|], x; try discriminate; reflexivity. Qed.

Lemma merged_value_is_dict below x :
  is_dict (merged_value below x) = is_dict x.
Proof. destruct below as [[]|], x; reflexivity. Qed.

(** Precedence: a value that is no dictionary, found at a path of the merge,
    is the one of the first source, in the order of priority, that has the
    path. *)
Lemma merge_sources_first sources st p x :
  Forall (fun s => proper (VDict s)) sources -> proper (VDict st) ->
  p <> [] ->
  lookup_path (VDict (merge_sources sources st)) p = Some x ->
  is_dict x = false ->
  first_supplied (st :: sources) p = Some x.
Proof.
  revert st. induction sources as [|s rest IH]; intros st Hs Hst Hp Hx Hd.
  - simpl in *. now rewrite Hx.
  - inversion Hs as [|? ? H1 H2]; subst. simpl in Hx.
    assert (Hst' : proper (VDict (deep_update s st)))
      by now apply proper_deep_update.
    specialize (IH _ H2 Hst' Hp Hx Hd).
    cbn [first_supplied] in IH |- *.
    destruct (lookup_path (VDict st) p) as [y|] eqn:Ey.
    + rewrite (lookup_above s st p y Hst Hp Ey) in IH.
      injection IH as IH. rewrite <- IH in Hd.
      rewrite merged_value_is_dict in Hd.
      rewrite merged_value_scalar in IH by exact Hd. now subst.
    + destruct (blocked (VDict st) p) eqn:Eb.
      * exfalso.
        assert (Hb : blocked (VDict (merge_sources rest (deep_update s st))) p = true).
        { apply blocked_merge_sources; auto. now apply blocked_above. }
        apply blocked_lookup in Hb. congruence.
      * rewrite (lookup_below s st p Hst Ey Eb) in IH. exact IH.
Qed.

(** The other way: a path that some source has is found in the merge,
    unless the merge is stopped on the way by a value that is no
    dictionary. *)
Lemma merge_sources_supplied sources st p :
  Forall (fun s => proper (VDict s)) sources -> proper (VDict st) ->
  p <> [] ->
  first_supplied (st :: sources) p <> None ->
  lookup_path (VDict (merge_sources sources st)) p <> None
  \/ blocked (VDict (merge_sources sources st)) p = true.
Proof.
  revert st. induction sources as [|s rest IH]; intros st Hs Hst Hp Hx.
  - simpl in *. left. destruct (lookup_path (VDict st) p); auto.
  - inversion Hs as [|? ? H1 H2]; subst.
    assert (Hst' : proper (VDict (deep_update s st)))
      by now apply proper_deep_update.
    cbn [first_supplied] in Hx.
    destruct (lookup_path (VDict st) p) as [y|] eqn:Ey.
    + simpl. apply IH; auto. cbn [first_supplied].
      rewrite (lookup_above s st p y Hst Hp Ey). discriminate.
    + destruct (blocked (VDict st) p) eqn:Eb.
      * right. now apply blocked_merge_sources.
      * simpl. apply IH; auto. cbn [first_supplied].
        rewrite (lookup_below s st p Hst Ey Eb). exact Hx.
Qed.

Lemma first_supplied_app l l' p :
  first_supplied (l ++ l')%list p
  = match first_supplied l p with
    | Some x => Some x
    | None => first_supplied l' p
    end.
Proof.
  induction l as [|s l IH]; simpl; [reflexivity|].
  destruct (lookup_path (VDict s) p); [reflexivity|exact IH].
Qed.

Lemma lookup_empty p : p <> [] -> lookup_path (VDict []) p = None.
Proof. destruct p; [contradiction|reflexivity]. Qed.

Lemma proper_empty : proper (VDict []).
Proof. intros [|k p]; simpl; split; auto; constructor. Qed.

(** Precedence in the merge of the settings: [above] are the sources read
    from files and from the environment, from the highest priority to the
    lowest, [init] the keyword arguments, which go under them all. *)
Lemma settings_precedence above init p :
  Forall (fun s => proper (VDict s)) above -> p <> [] ->
  let merged := deep_update init (merge_sources above []) in
  (forall x, lookup_path (VDict merged) p = Some x -> is_dict x = false ->
             first_supplied (above ++ [init])%list p = Some x)
  /\ (lookup_path (VDict merged) p = None ->
      blocked (VDict merged) p = false ->
      first_supplied (above ++ [init])%list p = None).
Proof.
  intros Ha Hp merged.
  assert (Hst : proper (VDict (merge_sources above [])))
    by (apply proper_merge_sources; [exact Ha|apply proper_empty]).
  assert (Hfirst : forall y, lookup_path (VDict (merge_sources above [])) p = Some y ->
             is_dict y = false -> first_supplied above p = Some y).
  { intros y Hy Hd.
    pose proof (merge_sources_first above [] p y Ha proper_empty Hp Hy Hd) as H.
    cbn [first_supplied] in H. now rewrite (lookup_empty p Hp) in H. }
  assert (Hnone : lookup_path (VDict (merge_sources above [])) p = None ->
             blocked (VDict (merge_sources above [])) p = false ->
             first_supplied above p = None).
  { intros Hy Hb. destruct (first_supplied above p) eqn:E; [|reflexivity].
    exfalso.
    destruct (merge_sources_supplied above [] p Ha proper_empty Hp) as [H|H].
    - cbn [first_supplied]. rewrite (lookup_empty p Hp), E. discriminate.
    - contradiction.
    - congruence. }
  rewrite first_supplied_app. cbn [first_supplied].
  destruct (lookup_path (VDict (merge_sources above [])) p) as [y|] eqn:Ey.
  - unfold merged. rewrite (lookup_above init _ p y Hst Hp Ey). split.
    + intros x [= <-] Hd. rewrite merged_value_is_dict in Hd.
      rewrite merged_value_scalar by exact Hd.
      now rewrite (Hfirst y eq_refl Hd).
    + discriminate.
  - destruct (blocked (VDict (merge_sources above [])) p) eqn:Eb.
    + pose proof (blocked_above init _ p Hst Eb) as Hb. fold merged in Hb.
      split.
      * intros x Hx. apply blocked_lookup in Hb. congruence.
      * congruence.
    + unfold merged. rewrite (lookup_below init _ p Hst Ey Eb).
      rewrite (Hnone eq_refl eq_refl). split.
      * intros x ->. reflexivity.
      * intros ->. reflexivity.
Qed.

End MergeFacts.

(** ** The sources return proper dictionaries *)
Module SourceFacts.
Import Py Models Exn Env Validation Settings Notions DictFacts MergeFacts.
Section Facts.
Context {R : Runtime} (w : World).

(** Merged values are the keyword arguments laid over what the three
    sources returned. *)
Lemma build_values_from options data values :
  _settings_build_values w options data = Ok values ->
  exists sec env dot,
    settings_sources w options = (Ok env, Ok dot, Ok sec)
    /\ values = deep_update data (merge_sources [sec; env; dot] []).
Proof.
  unfold _settings_build_values, settings_customise_sources, init_settings.
  destruct (settings_sources w options) as [[env_s dot_s] sec_s].
  cbn [fold_left]. unfold build_step. cbn [bind].
  destruct sec_s as [sec|]; [|discriminate].
  destruct env_s as [env|]; [|discriminate].
  destruct dot_s as [dot|]; [|discriminate].
  cbn [bind]. intros [= <-]. exists sec, env, dot. auto.
Qed.

Lemma build_values_inv data values :
  _settings_build_values w [] data = Ok values ->
  exists sec env dot,
    file_secret_settings w = Ok sec /\ env_settings w = Ok env
    /\ dotenv_settings w = Ok dot
    /\ values = deep_update data (merge_sources [sec; env; dot] []).
Proof.
  intros H. destruct (build_values_from [] data values H)
    as (sec & env & dot & Hs & Hv).
  cbn [settings_sources] in Hs. injection Hs as He Hd Hs.
  exists sec, env, dot. auto.
Qed.

Lemma proper_str s : proper (VStr s).
Proof. now apply proper_scalar. Qed.

Lemma proper_set_path keys : forall d last v,
  proper (VDict d) -> proper v -> proper (VDict (set_path d keys last v)).
Proof.
  induction keys as [|key keys IH]; intros d last v Hd Hv; simpl.
  - now apply proper_dict_set.
  - destruct (dict_get d key) as [x|] eqn:E.
    + destruct x; try exact Hd.
      apply proper_dict_set; [exact Hd|]. apply IH; [|exact Hv].
      apply proper_dict in Hd. apply (proj2 Hd key _ E).
    + apply proper_dict_set; [exact Hd|]. apply IH; [apply proper_empty|exact Hv].
Qed.

Lemma decode_proper f text v : decode_complex_value f text = Ok v -> proper v.
Proof.
  unfold decode_complex_value. destruct (json_loads text) eqn:E; [|discriminate].
  intros [= <-]. now apply (json_loads_proper text).
Qed.

Lemma explode_one_proper f acc var d :
  (forall a, acc = Ok a -> proper (VDict a)) ->
  explode_one w f acc var = Ok d -> proper (VDict d).
Proof.
  intros Hacc. unfold explode_one. destruct var as [env_name env_val].
  destruct acc as [a|e]; [|discriminate]. cbn [bind].
  specialize (Hacc a eq_refl).
  destruct (startswith env_name _); [|intros [= <-]; exact Hacc].
  destruct (split _ env_name) as [|x [|y path]]; try (intros [= <-]; exact Hacc).
  destruct (field_is_complex _ && _).
  - destruct (decode_complex_value _ env_val) as [v|] eqn:E; [|discriminate].
    cbn [bind]. intros [= <-]. apply proper_set_path; [exact Hacc|].
    now apply decode_proper in E.
  - cbn [bind]. intros [= <-]. apply proper_set_path; [exact Hacc|apply proper_str].
Qed.

Lemma fold_result_proper {X : Type} (step : result dict -> X -> result dict) :
  (forall acc x d, (forall a, acc = Ok a -> proper (VDict a)) ->
                   step acc x = Ok d -> proper (VDict d)) ->
  forall l acc d, (forall a, acc = Ok a -> proper (VDict a)) ->
                  fold_left step l acc = Ok d -> proper (VDict d).
Proof.
  intros Hstep l. induction l as [|x l IH]; intros acc d Hacc H; simpl in H.
  - now apply Hacc.
  - apply (IH (step acc x) d); [|exact H].
    intros a Ea. now apply (Hstep acc x a).
Qed.

Lemma explode_proper f vars d :
  explode_env_vars w f vars = Ok d -> proper (VDict d).
Proof.
  unfold explode_env_vars. apply fold_result_proper.
  - intros acc x d' Hacc. now apply explode_one_proper.
  - intros a [= <-]. apply proper_empty.
Qed.

Lemma env_field_value_proper vars f v :
  env_field_value w vars f = Ok (Some v) -> proper v.
Proof.
  unfold env_field_value. destruct (field_is_complex [f]).
  - destruct (dict_get vars f) as [text|].
    + destruct (decode_complex_value f text) as [x|] eqn:E; [|discriminate].
      cbn [bind]. apply decode_proper in E. destruct x; try (intros [= <-]; exact E).
      destruct (explode_env_vars w f vars) as [ex|] eqn:Ex; [|discriminate].
      cbn [bind]. intros [= <-]. apply proper_deep_update; [exact E|].
      now apply explode_proper in Ex.
    + destruct (explode_env_vars w f vars) as [ex|] eqn:Ex; [|discriminate].
      cbn [bind]. destruct ex; [discriminate|]. intros [= <-].
      now apply explode_proper in Ex.
  - destruct (dict_get vars f); [|discriminate]. simpl. intros [= <-].
    apply proper_str.
Qed.

Lemma source_call_proper fv d :
  (forall f v, fv f = Ok (Some v) -> proper v) ->
  source_call fv = Ok d -> proper (VDict d).
Proof.
  intros Hfv. unfold source_call. apply fold_result_proper.
  - intros acc f d' Hacc. destruct acc as [a|]; [|discriminate]. cbn [bind].
    destruct (fv f) as [[v|]|] eqn:E; cbn [bind]; try discriminate.
    + intros [= <-]. apply proper_dict_set; [now apply Hacc|now apply (Hfv f)].
    + intros [= <-]. now apply Hacc.
  - intros a [= <-]. apply proper_empty.
Qed.

Lemma env_settings_proper d : env_settings w = Ok d -> proper (VDict d).
Proof. apply source_call_proper. apply env_field_value_proper. Qed.

Lemma dotenv_extra_proper data var :
  proper (VDict data) -> proper (VDict (dotenv_extra w data var)).
Proof.
  intros H. unfold dotenv_extra. destruct var as [n v].
  destruct (_ || _); [exact H|]. destruct (dotenv_used w n); [exact H|].
  apply proper_dict_set; [exact H|apply proper_str].
Qed.

Lemma dotenv_settings_proper d : dotenv_settings w = Ok d -> proper (VDict d).
Proof.
  unfold dotenv_settings.
  destruct (source_call (env_field_value w (dotenv_vars w))) as [data|] eqn:E;
    [|discriminate].
  cbn [bind]. intros [= <-].
  apply source_call_proper in E; [|apply env_field_value_proper].
  revert data E. induction (dotenv_vars w) as [|var l IH]; intros data E; simpl.
  - exact E.
  - apply IH. now apply dotenv_extra_proper.
Qed.

Lemma secret_field_value_proper files f v :
  secret_field_value files f = Ok (Some v) -> proper v.
Proof.
  unfold secret_field_value. destruct (dict_get files f) as [text|]; [|discriminate].
  destruct (field_is_complex [f]).
  - destruct (decode_complex_value f text) as [x|] eqn:E; [|discriminate].
    cbn [bind]. intros [= <-]. now apply decode_proper in E.
  - intros [= <-]. apply proper_str.
Qed.

Lemma file_secret_settings_proper d :
  file_secret_settings w = Ok d -> proper (VDict d).
Proof.
  unfold file_secret_settings. destruct (negb (path_exists _ _)).
  - intros [= <-]. apply proper_empty.
  - destruct (negb (path_is_dir _ _)); [discriminate|].
    apply source_call_proper. apply secret_field_value_proper.
Qed.

(** The values that reach the validation, in terms of the sources. *)
Lemma build_values_sources data values :
  _settings_build_values w [] data = Ok values ->
  exists sec env dot,
    file_secret_settings w = Ok sec /\ env_settings w = Ok env
    /\ dotenv_settings w = Ok dot
    /\ Forall (fun s => proper (VDict s)) [sec; env; dot]
    /\ values = deep_update data (merge_sources [sec; env; dot] []).
Proof.
  intros H. destruct (build_values_inv _ _ H) as (sec & env & dot & Hs & He & Hd & Hv).
  exists sec, env, dot. repeat split; auto.
  repeat constructor.
  - now apply file_secret_settings_proper.
  - now apply env_settings_proper.
  - now apply dotenv_settings_proper.
Qed.

End Facts.
End SourceFacts.

(** ** From the validated configuration back to the merged values *)
Module ValidationFacts.
Import Py Models Exn Env Validation Settings Notions.
Import DictFacts MergeFacts SourceFacts.
Section Facts.
Context {R : Runtime} (w : World).

Lemma ap_valid {A B : Type} (f : validated (A -> B)) (x : validated A) b :
  ap f x = Valid b -> exists g a, f = Valid g /\ x = Valid a /\ b = g a.
Proof.
  destruct f as [g| |], x as [a| |]; simpl; try discriminate.
  intros [= <-]. now exists g, a.
Qed.

Lemma at_loc_valid {A : Type} name (r : validated A) a :
  at_loc name r = Valid a -> r = Valid a.
Proof. destruct r; simpl; congruence. Qed.

Lemma field_valid {A : Type} d name (validate : value -> validated A) default a :
  field d name validate default = Valid a ->
  match dict_get d name with
  | Some v => validate v = Valid a
  | None => default = Valid a
  end.
Proof.
  unfold field. destruct (dict_get d name); [apply at_loc_valid|auto].
Qed.

Lemma check_extra_valid {A : Type} policy fields d (r : validated A) a :
  check_extra policy fields d r = Valid a -> r = Valid a.
Proof.
  destruct policy; simpl; auto. unfold forbid_extra.
  destruct r; try discriminate. destruct (extra_forbidden fields d); congruence.
Qed.

Lemma and_then_valid {A B : Type} (r : validated A) (k : A -> validated B) b :
  and_then r k = Valid b -> exists a, r = Valid a /\ k a = Valid b.
Proof. destruct r; simpl; try discriminate. intros H. now exists a. Qed.

Ltac model_inv H :=
  repeat (let g := fresh "g" in let a := fresh "a" in
          let Hx := fresh "Hx" in
          apply ap_valid in H; destruct H as (g & a & H & Hx & ->));
  injection H as <-; simpl; repeat split; assumption.

Lemma validate_DBPerfConfig_inv v c :
  validate_DBPerfConfig v = Valid c ->
  exists d, v = VDict d
    /\ field d "POOL_SIZE" int_type (Valid (POOL_SIZE DBPerfConfig_default))
       = Valid (POOL_SIZE c)
    /\ field d "WEB_CONCURRENCY" int_type
         (Valid (WEB_CONCURRENCY DBPerfConfig_default))
       = Valid (WEB_CONCURRENCY c).
Proof.
  destruct v; try discriminate. unfold validate_DBPerfConfig. intros H.
  exists d. split; [reflexivity|]. model_inv H.
Qed.

Lemma validate_DBConfig_inv v c :
  validate_DBConfig v = Valid c ->
  exists d, v = VDict d
    /\ field d "DB_NAME" str_type (Valid (DB_NAME DBConfig_default))
       = Valid (DB_NAME c)
    /\ field d "SCHEMA_NAMES" str_type (Valid (SCHEMA_NAMES DBConfig_default))
       = Valid (SCHEMA_NAMES c)
    /\ field d "USERNAME" secret_type (Valid (USERNAME DBConfig_default))
       = Valid (USERNAME c)
    /\ field d "PASSWORD" secret_type (Valid (PASSWORD DBConfig_default))
       = Valid (PASSWORD c)
    /\ field d "HOST" str_type (Valid (HOST DBConfig_default)) = Valid (HOST c)
    /\ field d "PORT" int_type (Valid (PORT DBConfig_default)) = Valid (PORT c)
    /\ field d "PERF" validate_DBPerfConfig
         (default_factory "DBPerfConfig" validate_DBPerfConfig)
       = Valid (PERF c).
Proof.
  destruct v; try discriminate. unfold validate_DBConfig. intros H.
  exists d. split; [reflexivity|]. model_inv H.
Qed.

Lemma validate_AWSConfig_inv v c :
  validate_AWSConfig v = Valid c ->
  exists d, v = VDict d
    /\ validate_auth_config c = Valid c
    /\ field d "AWS_DEFAULT_REGION" str_type (Valid AWS_DEFAULT_REGION_default)
       = Valid (AWS_DEFAULT_REGION c).
Proof.
  destruct v; try discriminate. unfold validate_AWSConfig. intros H.
  exists d. split; [reflexivity|].
  apply and_then_valid in H. destruct H as (c0 & H & Hc).
  assert (c0 = c) as ->.
  { unfold validate_auth_config in Hc. destruct (_ && _); congruence. }
  split; [exact Hc|]. unfold validate_AWSConfig_fields in H.
  apply ap_valid in H. destruct H as (g & a & H & Hx & ->).
  repeat (let g := fresh "g" in let a := fresh "a" in
          let Hx := fresh "Hx" in
          apply ap_valid in H; destruct H as (g & a & H & Hx & ->)).
  injection H as <-. exact Hx.
Qed.

Lemma validate_LookupDataConfig_inv v c :
  validate_LookupDataConfig w v = Valid c ->
  exists d, v = VDict d
    /\ field d "DATA_FILE_1" (RequiredFile w) (Valid DATA_FILE_1_default)
       = Valid (DATA_FILE_1 c).
Proof.
  destruct v; try discriminate. unfold validate_LookupDataConfig. intros H.
  exists d. split; [reflexivity|]. model_inv H.
Qed.

Lemma validate_LoggingConfig_inv v c :
  validate_LoggingConfig v = Valid c ->
  exists d, v = VDict d
    /\ field d "LOG_LEVEL" LogLevel_type (Valid (LOG_LEVEL LoggingConfig_default))
       = Valid (LOG_LEVEL c)
    /\ field d "LOG_FORMAT" LOG_FORMAT_type
         (Valid (LOG_FORMAT LoggingConfig_default))
       = Valid (LOG_FORMAT c)
    /\ field d "LOG_DATE_FORMAT" str_type
         (Valid (LOG_DATE_FORMAT LoggingConfig_default))
       = Valid (LOG_DATE_FORMAT c).
Proof.
  destruct v; try discriminate. unfold validate_LoggingConfig. intros H.
  exists d. split; [reflexivity|]. model_inv H.
Qed.

Lemma validate_AppConfig_fields_inv values c :
  validate_AppConfig_fields w values = Valid c ->
  field values "SERVICE_NAME" str_type (Valid SERVICE_NAME_default)
  = Valid (SERVICE_NAME c)
  /\ field values "DB" validate_DBConfig
       (default_factory "DBConfig" validate_DBConfig) = Valid (DB c)
  /\ field values "AWS_CONFIG" validate_AWSConfig
       (default_factory "AWSConfig" validate_AWSConfig) = Valid (AWS_CONFIG c)
  /\ field values "LOOKUP_DATA" (validate_LookupDataConfig w)
       (default_factory "LookupDataConfig" (validate_LookupDataConfig w))
     = Valid (LOOKUP_DATA c)
  /\ field values "LOGGING" validate_LoggingConfig
       (default_factory "LoggingConfig" validate_LoggingConfig)
     = Valid (LOGGING c).
Proof.
  unfold validate_AppConfig_fields. intros H. model_inv H.
Qed.

Lemma str_type_refuses : refuses_dict str_type.
Proof. intros [] a; simpl; (discriminate || reflexivity). Qed.

Lemma int_type_refuses : refuses_dict int_type.
Proof. intros [] a; simpl; (discriminate || reflexivity). Qed.

Lemma secret_type_refuses : refuses_dict secret_type.
Proof. intros [] a; simpl; (discriminate || reflexivity). Qed.

Lemma LogLevel_type_refuses : refuses_dict LogLevel_type.
Proof. intros [] a; simpl; (discriminate || reflexivity). Qed.

Lemma LOG_FORMAT_type_refuses : refuses_dict LOG_FORMAT_type.
Proof. intros [] a; simpl; (discriminate || reflexivity). Qed.

Lemma RequiredFile_refuses : refuses_dict (RequiredFile w).
Proof. intros [] a; simpl; (discriminate || reflexivity). Qed.

(** What a valid leaf field says of the input and of the result. *)
Lemma leaf_extract {A : Type} d name (validate : value -> validated A)
    dflt a (dump : A -> value) :
  field d name validate (Valid dflt) = Valid a ->
  refuses_dict validate ->
  match lookup_path (VDict d) [name] with
  | Some x => is_dict x = false /\ as_dump validate dump x = Some (dump a)
  | None => blocked (VDict d) [name] = false /\ Some (dump a) = Some (dump dflt)
  end.
Proof.
  intros H Hr. apply field_valid in H. simpl.
  destruct (dict_get d name) as [x|].
  - split; [now apply (Hr x a)|]. unfold as_dump. now rewrite H.
  - split; [reflexivity|]. congruence.
Qed.

(** What a valid model field says: the input has a dictionary under the
    name, or nothing and the model is the one built from no input. *)
Lemma model_extract {A : Type} d name title
    (validate : value -> validated A) a :
  field d name validate (default_factory title validate) = Valid a ->
  (forall v b, validate v = Valid b -> exists d', v = VDict d') ->
  (exists d', dict_get d name = Some (VDict d') /\ validate (VDict d') = Valid a)
  \/ (dict_get d name = None /\ validate (VDict []) = Valid a).
Proof.
  intros H Hd. apply field_valid in H.
  destruct (dict_get d name) as [v|].
  - left. destruct (Hd _ _ H) as (d' & ->). now exists d'.
  - right. split; [reflexivity|]. unfold default_factory in H.
    destruct (validate (VDict [])); congruence.
Qed.

Lemma lookup_under values m d' p :
  dict_get values m = Some (VDict d') ->
  lookup_path (VDict values) (m :: p) = lookup_path (VDict d') p
  /\ blocked (VDict values) (m :: p) = blocked (VDict d') p.
Proof. intros E. simpl. rewrite E. destruct p; auto. Qed.

Lemma lookup_missing (values : dict) m p :
  dict_get values m = None ->
  lookup_path (VDict values) (m :: p) = None
  /\ blocked (VDict values) (m :: p) = false.
Proof. intros E. simpl. now rewrite E. Qed.

Lemma extracted_leaf {A : Type} values cfg path name
    (validate : value -> validated A) dump dflt a d :
  lookup_path (VDict values) path = lookup_path (VDict d) [name] ->
  blocked (VDict values) path = blocked (VDict d) [name] ->
  lookup_path (VDict (model_dump PythonMode cfg)) path = Some (dump a) ->
  field d name validate (Valid dflt) = Valid a ->
  refuses_dict validate ->
  extracted values cfg
    {| rule_path := path;
       rule_coerce := as_dump validate dump;
       rule_default := dump dflt |}.
Proof.
  intros Hl Hb Hd F Hr. unfold extracted. cbn [rule_path rule_coerce rule_default].
  rewrite Hl, Hb, Hd.
  pose proof (leaf_extract d name validate dflt a dump F Hr) as L.
  destruct (lookup_path (VDict d) [name]); intuition congruence.
Qed.

Lemma extracted_default values cfg r :
  lookup_path (VDict values) (rule_path r) = None ->
  blocked (VDict values) (rule_path r) = false ->
  lookup_path (VDict (model_dump PythonMode cfg)) (rule_path r)
  = Some (rule_default r) ->
  extracted values cfg r.
Proof. intros Hl Hb Hd. unfold extracted. rewrite Hl, Hb, Hd. auto. Qed.

Lemma validate_DBConfig_dict v b :
  validate_DBConfig v = Valid b -> exists d', v = VDict d'.
Proof. destruct v; try discriminate. eauto. Qed.

Lemma validate_DBPerfConfig_dict v b :
  validate_DBPerfConfig v = Valid b -> exists d', v = VDict d'.
Proof. destruct v; try discriminate. eauto. Qed.

Lemma validate_AWSConfig_dict v b :
  validate_AWSConfig v = Valid b -> exists d', v = VDict d'.
Proof. destruct v; try discriminate. eauto. Qed.

Lemma validate_LookupDataConfig_dict v b :
  validate_LookupDataConfig w v = Valid b -> exists d', v = VDict d'.
Proof. destruct v; try discriminate. eauto. Qed.

Lemma validate_LoggingConfig_dict v b :
  validate_LoggingConfig v = Valid b -> exists d', v = VDict d'.
Proof. destruct v; try discriminate. eauto. Qed.

Ltac absent_section V :=
  let E := fresh "E" in
  compute in V; injection V as E; subst;
  apply extracted_default; cbn [rule_path rule_default];
  [ apply lookup_missing; assumption
  | apply lookup_missing; assumption
  | reflexivity ].

Ltac present_leaf E F Href :=
  eapply extracted_leaf;
  [ apply (lookup_under _ _ _ _ E)
  | apply (lookup_under _ _ _ _ E)
  | reflexivity
  | exact F
  | exact Href ].

Lemma lookup_under2 values m d n d2 p :
  dict_get values m = Some (VDict d) ->
  dict_get d n = Some (VDict d2) ->
  lookup_path (VDict values) (m :: n :: p) = lookup_path (VDict d2) p
  /\ blocked (VDict values) (m :: n :: p) = blocked (VDict d2) p.
Proof.
  intros E E2. destruct (lookup_under values m d (n :: p) E) as [-> ->].
  now apply lookup_under.
Qed.

Lemma lookup_missing2 values m d n p :
  dict_get values m = Some (VDict d) ->
  dict_get d n = None ->
  lookup_path (VDict values) (m :: n :: p) = None
  /\ blocked (VDict values) (m :: n :: p) = false.
Proof.
  intros E E2. destruct (lookup_under values m d (n :: p) E) as [-> ->].
  now apply lookup_missing.
Qed.

Ltac present_leaf2 E E2 F Href :=
  eapply extracted_leaf;
  [ apply (lookup_under2 _ _ _ _ _ _ E E2)
  | apply (lookup_under2 _ _ _ _ _ _ E E2)
  | reflexivity
  | exact F
  | exact Href ].

Ltac absent_section2 E E2 V :=
  let E' := fresh "E" in
  compute in V; injection V as E'; subst;
  apply extracted_default; cbn [rule_path rule_default];
  [ apply (lookup_missing2 _ _ _ _ _ E E2)
  | apply (lookup_missing2 _ _ _ _ _ E E2)
  | reflexivity ].

Lemma validation_extracts values cfg r :
  validate_AppConfig_fields w values = Valid cfg ->
  In r (leaf_rules w) -> extracted values cfg r.
Proof.
  intros H Hin.
  destruct (validate_AppConfig_fields_inv _ _ H) as (Fsn & Fdb & Faws & Flk & Flg).
  destruct cfg as [sn db aws lk lg].
  cbn [SERVICE_NAME DB AWS_CONFIG LOOKUP_DATA LOGGING] in *.
  unfold leaf_rules in Hin. cbn [In] in Hin.
  repeat (destruct Hin as [<-|Hin]); [..|contradiction].
  - (* SERVICE_NAME *)
    apply (extracted_leaf values _ ["SERVICE_NAME"] "SERVICE_NAME" str_type VStr _ sn values);
      [reflexivity|reflexivity|reflexivity|exact Fsn|exact str_type_refuses].
  - destruct (model_extract _ _ _ _ _ Fdb validate_DBConfig_dict)
      as [(d & E & V)|(E & V)]; [|absent_section V].
    destruct (validate_DBConfig_inv _ _ V) as (d0 & [= <-] & F1 & F2 & F3 & F4 & F5 & F6 & F7).
    destruct db. present_leaf E F1 str_type_refuses.
  - destruct (model_extract _ _ _ _ _ Fdb validate_DBConfig_dict)
      as [(d & E & V)|(E & V)]; [|absent_section V].
    destruct (validate_DBConfig_inv _ _ V) as (d0 & [= <-] & F1 & F2 & F3 & F4 & F5 & F6 & F7).
    destruct db. present_leaf E F2 str_type_refuses.
  - destruct (model_extract _ _ _ _ _ Fdb validate_DBConfig_dict)
      as [(d & E & V)|(E & V)]; [|absent_section V].
    destruct (validate_DBConfig_inv _ _ V) as (d0 & [= <-] & F1 & F2 & F3 & F4 & F5 & F6 & F7).
    destruct db. present_leaf E F3 secret_type_refuses.
  - destruct (model_extract _ _ _ _ _ Fdb validate_DBConfig_dict)
      as [(d & E & V)|(E & V)]; [|absent_section V].
    destruct (validate_DBConfig_inv _ _ V) as (d0 & [= <-] & F1 & F2 & F3 & F4 & F5 & F6 & F7).
    destruct db. present_leaf E F4 secret_type_refuses.
  - destruct (model_extract _ _ _ _ _ Fdb validate_DBConfig_dict)
      as [(d & E & V)|(E & V)]; [|absent_section V].
    destruct (validate_DBConfig_inv _ _ V) as (d0 & [= <-] & F1 & F2 & F3 & F4 & F5 & F6 & F7).
    destruct db. present_leaf E F5 str_type_refuses.
  - destruct (model_extract _ _ _ _ _ Fdb validate_DBConfig_dict)
      as [(d & E & V)|(E & V)]; [|absent_section V].
    destruct (validate_DBConfig_inv _ _ V) as (d0 & [= <-] & F1 & F2 & F3 & F4 & F5 & F6 & F7).
    destruct db. present_leaf E F6 int_type_refuses.
  - (* DB.PERF.POOL_SIZE *)
    destruct (model_extract _ _ _ _ _ Fdb validate_DBConfig_dict)
      as [(d & E & V)|(E & V)]; [|absent_section V].
    destruct (validate_DBConfig_inv _ _ V) as (d0 & [= <-] & F1 & F2 & F3 & F4 & F5 & F6 & F7).
    destruct db as [? ? ? ? ? ? perf]. cbn [PERF] in F7.
    destruct (model_extract _ _ _ _ _ F7 validate_DBPerfConfig_dict)
      as [(d2 & E2 & V2)|(E2 & V2)].
    + destruct (validate_DBPerfConfig_inv _ _ V2) as (d3 & [= <-] & G1 & G2).
      destruct perf. present_leaf2 E E2 G1 int_type_refuses.
    + absent_section2 E E2 V2.
  - (* DB.PERF.WEB_CONCURRENCY *)
    destruct (model_extract _ _ _ _ _ Fdb validate_DBConfig_dict)
      as [(d & E & V)|(E & V)]; [|absent_section V].
    destruct (validate_DBConfig_inv _ _ V) as (d0 & [= <-] & F1 & F2 & F3 & F4 & F5 & F6 & F7).
    destruct db as [? ? ? ? ? ? perf]. cbn [PERF] in F7.
    destruct (model_extract _ _ _ _ _ F7 validate_DBPerfConfig_dict)
      as [(d2 & E2 & V2)|(E2 & V2)].
    + destruct (validate_DBPerfConfig_inv _ _ V2) as (d3 & [= <-] & G1 & G2).
      destruct perf. present_leaf2 E E2 G2 int_type_refuses.
    + absent_section2 E E2 V2.
  - (* AWS_CONFIG.AWS_DEFAULT_REGION *)
    destruct (model_extract _ _ _ _ _ Faws validate_AWSConfig_dict)
      as [(d & E & V)|(E & V)]; [|compute in V; discriminate V].
    destruct (validate_AWSConfig_inv _ _ V) as (d0 & [= <-] & _ & F1).
    destruct aws. present_leaf E F1 str_type_refuses.
  - (* LOOKUP_DATA.DATA_FILE_1 *)
    destruct (model_extract _ _ _ _ _ Flk validate_LookupDataConfig_dict)
      as [(d & E & V)|(E & V)]; [|absent_section V].
    destruct (validate_LookupDataConfig_inv _ _ V) as (d0 & [= <-] & F1).
    destruct lk. present_leaf E F1 RequiredFile_refuses.
  - destruct (model_extract _ _ _ _ _ Flg validate_LoggingConfig_dict)
      as [(d & E & V)|(E & V)]; [|absent_section V].
    destruct (validate_LoggingConfig_inv _ _ V) as (d0 & [= <-] & F1 & F2 & F3).
    destruct lg. present_leaf E F1 LogLevel_type_refuses.
  - destruct (model_extract _ _ _ _ _ Flg validate_LoggingConfig_dict)
      as [(d & E & V)|(E & V)]; [|absent_section V].
    destruct (validate_LoggingConfig_inv _ _ V) as (d0 & [= <-] & F1 & F2 & F3).
    destruct lg. present_leaf E F2 LOG_FORMAT_type_refuses.
  - destruct (model_extract _ _ _ _ _ Flg validate_LoggingConfig_dict)
      as [(d & E & V)|(E & V)]; [|absent_section V].
    destruct (validate_LoggingConfig_inv _ _ V) as (d0 & [= <-] & F1 & F2 & F3).
    destruct lg. present_leaf E F3 str_type_refuses.
Qed.

(** Keyword arguments with no parameter of the constructor among them
    are all values, and the construction reads the sources of the
    configuration of the class. *)
Lemma no_options_values (data : dict) :
  init_options data = [] -> init_values data = data.
Proof.
  unfold init_options, init_values.
  induction data as [|[k v] data IH]; cbn [filter fst]; [reflexivity|].
  destruct (init_option k); [discriminate|].
  intros H. cbn [negb]. now rewrite IH.
Qed.

Lemma BaseSettings_init_plain data :
  init_options data = [] ->
  BaseSettings_init w data
  = (values <- _settings_build_values w [] data ;;
     to_result "AppConfig" (validate_AppConfig w (extra (config w)) values))%py.
Proof.
  intros H. unfold BaseSettings_init.
  now rewrite H, (no_options_values data H).
Qed.

Lemma to_result_valid values cfg :
  to_result "AppConfig" (validate_AppConfig w (extra (config w)) values) = Ok cfg ->
  validate_AppConfig_fields w values = Valid cfg
  /\ extra_forbidden AppConfig_fields values = [].
Proof.
  intros H.
  unfold validate_AppConfig, config, DEFAULT_CONFIG_SETTINGS in H.
  cbn [extra check_extra] in H. unfold forbid_extra in H.
  destruct (validate_AppConfig_fields w values) as [c| |]; try discriminate.
  destruct (extra_forbidden AppConfig_fields values); [|discriminate].
  injection H as <-. auto.
Qed.

(** A construction that returns has validated some merged values, whatever
    sources they came from. *)
Lemma BaseSettings_init_valid data cfg :
  BaseSettings_init w data = Ok cfg ->
  exists values,
    validate_AppConfig_fields w values = Valid cfg
    /\ extra_forbidden AppConfig_fields values = [].
Proof.
  unfold BaseSettings_init.
  destruct (_settings_build_values w (init_options data) (init_values data))
    as [values|]; [|discriminate].
  cbn [bind]. intros H. exists values. now apply to_result_valid.
Qed.

Lemma BaseSettings_init_inv data cfg :
  init_options data = [] ->
  BaseSettings_init w data = Ok cfg ->
  exists values,
    _settings_build_values w [] data = Ok values
    /\ validate_AppConfig_fields w values = Valid cfg
    /\ extra_forbidden AppConfig_fields values = [].
Proof.
  intros Hn. rewrite (BaseSettings_init_plain data Hn).
  destruct (_settings_build_values w [] data) as [values|]; [|discriminate].
  cbn [bind]. intros H. exists values. split; [reflexivity|].
  now apply to_result_valid.
Qed.

Lemma rule_path_nonempty r : In r (leaf_rules w) -> rule_path r <> [].
Proof.
  unfold leaf_rules. cbn [In]. intros H.
  repeat (destruct H as [<-|H]; [discriminate|]). contradiction.
Qed.

(** Precedence, for every field that is read under its own name, when the
    keyword arguments hold no parameter of the constructor: in a loaded
    configuration the field is what the validation makes of the
    value of the first source to have the path, secrets before environment
    before dotenv before the keyword arguments (the YAML file), and its
    default when no source has it. *)
Theorem precedence_by_field_name data cfg sec env dot r :
  init_options data = [] ->
  BaseSettings_init w data = Ok cfg ->
  file_secret_settings w = Ok sec ->
  env_settings w = Ok env ->
  dotenv_settings w = Ok dot ->
  In r (leaf_rules w) ->
  lookup_path (VDict (model_dump PythonMode cfg)) (rule_path r)
  = match first_supplied [sec; env; dot; data] (rule_path r) with
    | Some x => rule_coerce r x
    | None => Some (rule_default r)
    end.
Proof.
  intros Hn Hinit Hs He Hd Hr.
  destruct (BaseSettings_init_inv _ _ Hn Hinit) as (values & Hb & Hv & _).
  destruct (build_values_sources w _ _ Hb)
    as (sec' & env' & dot' & Hs' & He' & Hd' & Hp & ->).
  rewrite Hs in Hs'. rewrite He in He'. rewrite Hd in Hd'.
  injection Hs' as <-. injection He' as <-. injection Hd' as <-.
  pose proof (validation_extracts _ _ _ Hv Hr) as Hx.
  destruct (settings_precedence [sec; env; dot] data (rule_path r) Hp
              (rule_path_nonempty r Hr)) as [Hsome Hnone].
  cbn [app] in Hsome, Hnone. unfold extracted in Hx.
  destruct (lookup_path (VDict (deep_update data (merge_sources [sec; env; dot] [])))
              (rule_path r)) as [x|].
  - destruct Hx as [Hdict Hc]. specialize (Hsome x eq_refl Hdict).
    unfold dict in *. rewrite Hsome. now symmetry.
  - destruct Hx as [Hbl Hc]. specialize (Hnone eq_refl Hbl).
    unfold dict in *. rewrite Hnone. exact Hc.
Qed.

(** The same for whatever sources the construction reads, those that
    parameters of the constructor select among them: the keyword arguments
    that are values come last. *)
Theorem precedence_of_sources data cfg sec env dot r :
  BaseSettings_init w data = Ok cfg ->
  settings_sources w (init_options data) = (Ok env, Ok dot, Ok sec) ->
  Forall (fun s => proper (VDict s)) [sec; env; dot] ->
  In r (leaf_rules w) ->
  lookup_path (VDict (model_dump PythonMode cfg)) (rule_path r)
  = match first_supplied [sec; env; dot; init_values data] (rule_path r) with
    | Some x => rule_coerce r x
    | None => Some (rule_default r)
    end.
Proof.
  intros Hinit Hsrc Hp Hr. unfold BaseSettings_init in Hinit.
  destruct (_settings_build_values w (init_options data) (init_values data))
    as [values|] eqn:Hb; [|discriminate].
  cbn [bind] in Hinit. destruct (to_result_valid _ _ Hinit) as [Hv _].
  destruct (build_values_from w _ _ _ Hb) as (sec' & env' & dot' & Hsrc' & ->).
  rewrite Hsrc in Hsrc'. injection Hsrc' as <- <- <-.
  pose proof (validation_extracts _ _ _ Hv Hr) as Hx.
  destruct (settings_precedence [sec; env; dot] (init_values data) (rule_path r)
              Hp (rule_path_nonempty r Hr)) as [Hsome Hnone].
  cbn [app] in Hsome, Hnone. unfold extracted in Hx.
  destruct (lookup_path
              (VDict (deep_update (init_values data)
                        (merge_sources [sec; env; dot] [])))
              (rule_path r)) as [x|].
  - destruct Hx as [Hdict Hc]. specialize (Hsome x eq_refl Hdict).
    unfold dict in *. rewrite Hsome. now symmetry.
  - destruct Hx as [Hbl Hc]. specialize (Hnone eq_refl Hbl).
    unfold dict in *. rewrite Hnone. exact Hc.
Qed.

End Facts.
End ValidationFacts.

(** ** Nested keys from flat variables *)
Module NestingFacts.
Import Py Models Exn Env Validation Settings Notions Samples.
Import DictFacts MergeFacts SourceFacts ValidationFacts.
Section Facts.
Context {R : Runtime} (w : World).

Lemma set_path_other d key keys last v k :
  key <> k -> dict_get (set_path d (key :: keys) last v) k = dict_get d k.
Proof.
  intros Hne. simpl. destruct (dict_get d key) as [[]|];
    try reflexivity; now apply dict_get_set_ne.
Qed.

Lemma explode_one_port acc k v acc' :
  explode_one w "DB" (Ok acc) (k, v) = Ok acc' ->
  (startswith k "DB__" = true ->
   forall x rest, split "__" k = x :: "PORT" :: rest -> rest = [] /\ v = "9999") ->
  dict_get acc "PORT" = Some (VStr "9999") ->
  dict_get acc' "PORT" = Some (VStr "9999").
Proof.
  intros H Hk Hacc. unfold explode_one in H. cbn [bind] in H.
  change (env_nested_delimiter (config w)) with "__" in H.
  change ("DB" ++ "__") with "DB__" in H.
  destruct (startswith k "DB__") eqn:Es; [|now injection H as <-].
  specialize (Hk eq_refl).
  destruct (split "__" k) as [|x [|y path]] eqn:Esp;
    try (now injection H as <-).
  destruct (String.eqb_spec y "PORT") as [->|Hne].
  - destruct (Hk x path eq_refl) as [-> ->].
    cbn in H. injection H as <-. apply dict_get_set_eq.
  - destruct (_ && _) in H.
    + destruct (decode_complex_value _ v) as [val|]; [|discriminate].
      cbn [bind] in H. injection H as <-.
      destruct path as [|z path]; simpl removelast; simpl last.
      * simpl. now rewrite dict_get_set_ne.
      * rewrite set_path_other by assumption. exact Hacc.
    + cbn [bind] in H. injection H as <-.
      destruct path as [|z path]; simpl removelast; simpl last.
      * simpl. now rewrite dict_get_set_ne.
      * rewrite set_path_other by assumption. exact Hacc.
Qed.

Lemma explode_one_sets acc acc' :
  explode_one w "DB" (Ok acc) ("DB__PORT", "9999") = Ok acc' ->
  dict_get acc' "PORT" = Some (VStr "9999").
Proof.
  unfold explode_one. cbn. intros [= <-]. apply dict_get_set_eq.
Qed.

Lemma explode_raise f l e :
  fold_left (explode_one w f) l (Raise e) = Raise e.
Proof. induction l as [|[k v] l IH]; [reflexivity|exact IH]. Qed.

Lemma explode_port l : forall acc built,
  fold_left (explode_one w "DB") l (Ok acc) = Ok built ->
  sets_port_only l ->
  dict_get acc "PORT" = Some (VStr "9999") \/ In ("DB__PORT", "9999") l ->
  dict_get built "PORT" = Some (VStr "9999").
Proof.
  induction l as [|[k v] l IH]; intros acc built H Hl Hor; cbn [fold_left] in H.
  - injection H as <-. destruct Hor as [Hor|[]]. exact Hor.
  - destruct (explode_one w "DB" (Ok acc) (k, v)) as [acc'|e] eqn:E;
      [|rewrite explode_raise in H; discriminate].
    apply (IH acc' built H).
    + intros k' v' Hin. apply (Hl k' v'). now right.
    + destruct Hor as [Hacc|[Heq|Hin]].
      * left. apply (explode_one_port _ _ _ _ E); [|exact Hacc].
        apply (Hl k v). now left.
      * left. injection Heq as -> ->. now apply (explode_one_sets acc).
      * now right.
Qed.

Lemma source_call_DB fv d :
  source_call fv = Ok d ->
  exists o, fv "DB" = Ok o /\ dict_get d "DB" = o.
Proof.
  unfold source_call, AppConfig_fields. cbn [fold_left bind].
  destruct (fv "SERVICE_NAME") as [[a|]|]; cbn [bind]; try discriminate;
  destruct (fv "DB") as [[b|]|]; cbn [bind]; try discriminate;
  destruct (fv "AWS_CONFIG") as [[c|]|]; cbn [bind]; try discriminate;
  destruct (fv "LOOKUP_DATA") as [[e|]|]; cbn [bind]; try discriminate;
  destruct (fv "LOGGING") as [[g|]|]; cbn [bind]; try discriminate;
  intros [= <-]; eexists; (split; [reflexivity|reflexivity]).
Qed.

Lemma dotenv_extra_keeps l : forall data k v,
  dict_get data k = Some v ->
  dict_get (fold_left (dotenv_extra w) l data) k = Some v.
Proof.
  induction l as [|[n x] l IH]; intros data k v H; simpl; [exact H|].
  apply IH. destruct (_ || _) eqn:E; [exact H|].
  destruct (dotenv_used w n); [exact H|].
  apply orb_false_elim in E. destruct E as [_ E].
  rewrite dict_get_set_ne; [exact H|].
  intros ->. rewrite H in E. discriminate.
Qed.

(** The dotenv source puts the text under [DB], [PORT]. *)
Lemma dotenv_settings_port dot :
  dotenv_settings w = Ok dot ->
  In ("DB__PORT", "9999") (dotenv_vars w) ->
  sets_port_only (dotenv_vars w) ->
  dict_get (dotenv_vars w) "DB" = None ->
  lookup_path (VDict dot) ["DB"; "PORT"] = Some (VStr "9999").
Proof.
  intros H Hin Honly Hdb. unfold dotenv_settings in H.
  destruct (source_call (env_field_value w (dotenv_vars w))) as [data|] eqn:E;
    [|discriminate].
  cbn [bind] in H. injection H as <-.
  destruct (source_call_DB _ _ E) as (o & Ho & Hget).
  unfold env_field_value in Ho. cbn [field_is_complex] in Ho. rewrite Hdb in Ho.
  destruct (explode_env_vars w "DB" (dotenv_vars w)) as [built|] eqn:Eb;
    [|discriminate].
  cbn [bind] in Ho.
  assert (Hport : dict_get built "PORT" = Some (VStr "9999")).
  { apply (explode_port _ [] built Eb Honly). now right. }
  destruct built as [|kv built]; [discriminate|].
  injection Ho as <-.
  simpl. rewrite (dotenv_extra_keeps _ _ _ _ Hget). now rewrite Hport.
Qed.

(** When the dotenv source has the text [9999] at the path [DB], [PORT]
    and the two sources above it have nothing there, a configuration that
    loads has the integer 9999 as [DB.PORT]: whatever the sources are. *)
Lemma port_of_sources (data : dict) (cfg : AppConfig) (sec env dot : dict) :
  BaseSettings_init w data = Ok cfg ->
  settings_sources w (init_options data) = (Ok env, Ok dot, Ok sec) ->
  Forall (fun s => proper (VDict s)) [sec; env; dot] ->
  lookup_path (VDict dot) ["DB"; "PORT"] = Some (VStr "9999") ->
  lookup_path (VDict env) ["DB"; "PORT"] = None ->
  lookup_path (VDict sec) ["DB"; "PORT"] = None ->
  PORT (DB cfg) = 9999%Z.
Proof.
  intros Hinit Hsrc Hp Hdot Henv Hsec.
  assert (Hr : In {| rule_path := ["DB"; "PORT"];
                     rule_coerce := as_dump int_type VInt;
                     rule_default := VInt (PORT DBConfig_default) |}
                  (leaf_rules w)).
  { unfold leaf_rules. do 6 right. now left. }
  pose proof (precedence_of_sources w data cfg sec env dot _ Hinit Hsrc Hp Hr)
    as H.
  cbn [rule_path rule_coerce rule_default first_supplied] in H.
  rewrite Hsec, Henv, Hdot in H.
  destruct cfg as [sn [] aws lk lg]. cbn in H. now injection H.
Qed.

(** C7. A configuration that loads has the integer 9999 as [DB.PORT]:
    when the keyword arguments (the YAML document) hold no parameter of
    the constructor, the dotenv file of the class sets [DB__PORT] to the
    text [9999] (no other variable of the file lands on that path, nor
    gives [DB] whole), and neither the environment nor the secrets
    directory gives a value to the path [DB], [PORT]; and, whatever the
    keyword arguments, when the dotenv source that the construction reads
    returns the text [9999] at the path [DB], [PORT] and the environment
    and the secrets sources that it reads return nothing there. *)
Theorem dotenv_sets_nested_port (data : dict) (cfg : AppConfig) :
  BaseSettings_init w data = Ok cfg ->
  (init_options data = [] ->
   In ("DB__PORT", "9999") (dotenv_vars w) ->
   sets_port_only (dotenv_vars w) ->
   dict_get (dotenv_vars w) "DB" = None ->
   (forall env, env_settings w = Ok env ->
                lookup_path (VDict env) ["DB"; "PORT"] = None) ->
   (forall sec, file_secret_settings w = Ok sec ->
                lookup_path (VDict sec) ["DB"; "PORT"] = None) ->
   PORT (DB cfg) = 9999%Z)
  /\ (forall sec env dot,
        settings_sources w (init_options data) = (Ok env, Ok dot, Ok sec) ->
        Forall (fun s => proper (VDict s)) [sec; env; dot] ->
        lookup_path (VDict dot) ["DB"; "PORT"] = Some (VStr "9999") ->
        lookup_path (VDict env) ["DB"; "PORT"] = None ->
        lookup_path (VDict sec) ["DB"; "PORT"] = None ->
        PORT (DB cfg) = 9999%Z).
Proof.
  intros Hinit. split.
  - intros Hn Hin Honly Hdb Henv Hsec.
    destruct (BaseSettings_init_inv w _ _ Hn Hinit) as (values & Hb & _ & _).
    destruct (build_values_sources w _ _ Hb)
      as (sec & env & dot & Hs & He & Hd & Hp & _).
    apply (port_of_sources data cfg sec env dot Hinit); auto.
    + rewrite Hn. cbn [settings_sources]. now rewrite Hs, He, Hd.
    + now apply dotenv_settings_port.
  - intros sec env dot. now apply port_of_sources.
Qed.

End Facts.

Lemma dotenv_sets_nested_port_witness :
  exists cfg, BaseSettings_init world_port [] = Ok cfg /\ PORT (DB cfg) = 9999%Z.
Proof.
  destruct (BaseSettings_init world_port []) as [cfg|e] eqn:E;
    [|vm_compute in E; discriminate].
  exists cfg. split; [reflexivity|].
  apply (proj1 (dotenv_sets_nested_port world_port [] cfg E)).
  - reflexivity.
  - now left.
  - intros k v [[= <- <-]|[]] _ x rest Hsp. vm_compute in Hsp.
    injection Hsp as _ <-. auto.
  - reflexivity.
  - intros env [= <-]. reflexivity.
  - intros sec [= <-]. reflexivity.
Defined.

End NestingFacts.

(** ** Keys that the schema does not declare *)
Module StrictFacts.
Import Py Models Exn Env Validation Settings Loader Notions Samples.
Import DictFacts MergeFacts SourceFacts ValidationFacts.
Section Facts.
Context {R : Runtime} (w : World).

Lemma ap_is_valid {A B : Type} (f : validated (A -> B)) x :
  is_valid (ap f x) = is_valid f && is_valid x.
Proof. destruct f, x; reflexivity. Qed.

Lemma in_extra_forbidden fields (d : dict) k v :
  In (k, v) d -> ~ In k fields -> In (extra_error k) (extra_forbidden fields d).
Proof.
  intros Hin Hk. unfold extra_forbidden. apply in_flat_map.
  exists (k, v). split; [exact Hin|]. simpl.
  destruct (existsb (String.eqb k) fields) eqn:E; [|now left].
  apply existsb_exists in E. destruct E as (f & Hf & E).
  apply String.eqb_eq in E. subst. contradiction.
Qed.

Lemma forbid_extra_listed {A : Type} fields d (r : validated A) k v :
  In (k, v) d -> ~ In k fields ->
  is_valid (forbid_extra fields d r) = false
  /\ forall es, forbid_extra fields d r = Invalid es -> In (extra_error k) es.
Proof.
  intros Hin Hk. pose proof (in_extra_forbidden fields d k v Hin Hk) as He.
  unfold forbid_extra. destruct r as [a|es'|e].
  - destruct (extra_forbidden fields d) as [|x l] eqn:E; [contradiction|].
    split; [reflexivity|]. now intros es [= <-].
  - split; [reflexivity|]. intros es [= <-]. apply in_or_app. now right.
  - split; [reflexivity|]. discriminate.
Qed.

Lemma deep_update_keeps_key data st k :
  In k (keys data) -> exists v, In (k, v) (deep_update data st).
Proof.
  intros H. assert (Hk : In k (keys (deep_update data st)))
    by (apply deep_update_keys; now left).
  unfold keys in Hk. apply in_map_iff in Hk. destruct Hk as ([k' v] & <- & Hin).
  now exists v.
Qed.

Lemma field_skips_other {A : Type} d k v name
    (validate : value -> validated A) default :
  k <> name ->
  field (dict_set d k v) name validate default = field d name validate default.
Proof. intros H. unfold field. now rewrite dict_get_set_ne. Qed.

Lemma field_alias_skips_other {A : Type} d k v names
    (validate : value -> validated A) default :
  ~ In k names ->
  field_alias (dict_set d k v) names validate default
  = field_alias d names validate default.
Proof.
  induction names as [|n names IH]; intros H; simpl; [reflexivity|].
  rewrite dict_get_set_ne by (intros ->; apply H; now left).
  rewrite IH by (intros Hin; apply H; now right). reflexivity.
Qed.

Ltac skip_key H :=
  repeat (rewrite field_skips_other
            by (intros ->; apply H; simpl; tauto));
  repeat (rewrite field_alias_skips_other
            by (let Hn := fresh "Hn" in
                intros Hn; apply H; simpl in Hn |- *; tauto));
  reflexivity.

(** C5, amended. A key of the keyword arguments (the YAML document) that
    names no field of [AppConfig], and no parameter of the constructor of
    the settings class, makes the construction fail, whatever the other
    keys and whatever the state it is called in; it is listed as an extra
    input whenever the validation ends with line errors; a key that names
    no field of a nested model changes nothing to the validation of that
    model. *)
Theorem unknown_key_top_level_only (data : dict) (k : string) (v : value) :
  In (k, v) data -> ~ In k AppConfig_fields -> init_option k = false ->
  is_ok (BaseSettings_init w data) = false
  /\ (forall st, is_ok (fst (AppConfig_init w data st)) = false)
  /\ (forall values es,
        _settings_build_values w (init_options data) (init_values data)
        = Ok values ->
        validate_AppConfig w (extra (config w)) values = Invalid es ->
        BaseSettings_init w data = Raise (ValidationError "AppConfig" es)
        /\ In (extra_error k) es)
  /\ (forall d k' v',
        (~ In k' ["POOL_SIZE"; "WEB_CONCURRENCY"] ->
         validate_DBPerfConfig (VDict (dict_set d k' v'))
         = validate_DBPerfConfig (VDict d))
        /\ (~ In k' ["DB_NAME"; "SCHEMA_NAMES"; "USERNAME"; "PASSWORD"; "HOST";
                     "PORT"; "PERF"] ->
            validate_DBConfig (VDict (dict_set d k' v'))
            = validate_DBConfig (VDict d))
        /\ (~ In k' ["AWS__AWS_PROFILE"; "AWS_PROFILE";
                     "AWS__AWS_ACCESS_KEY_ID"; "AWS_ACCESS_KEY_ID";
                     "AWS__AWS_SECRET_ACCESS_KEY"; "AWS_SECRET_ACCESS_KEY";
                     "AWS_DEFAULT_REGION"] ->
            validate_AWSConfig (VDict (dict_set d k' v'))
            = validate_AWSConfig (VDict d))
        /\ (~ In k' ["DATA_FILE_1"] ->
            validate_LookupDataConfig w (VDict (dict_set d k' v'))
            = validate_LookupDataConfig w (VDict d))
        /\ (~ In k' ["LOG_LEVEL"; "LOG_FORMAT"; "LOG_DATE_FORMAT"] ->
            validate_LoggingConfig (VDict (dict_set d k' v'))
            = validate_LoggingConfig (VDict d))).
Proof.
  intros Hin Hk Hopt.
  assert (Hval : In (k, v) (init_values data)).
  { unfold init_values. apply filter_In. split; [exact Hin|].
    cbn [fst]. now rewrite Hopt. }
  assert (Hlisted : forall values,
            _settings_build_values w (init_options data) (init_values data)
            = Ok values ->
            is_valid (validate_AppConfig w (extra (config w)) values) = false
            /\ forall es, validate_AppConfig w (extra (config w)) values = Invalid es ->
                          In (extra_error k) es).
  { intros values Hb.
    destruct (build_values_from w _ _ _ Hb) as (sec & env & dot & _ & ->).
    destruct (deep_update_keeps_key (init_values data)
                (merge_sources [sec; env; dot] []) k)
      as (v' & Hv'); [now apply (in_keys (init_values data) k v)|].
    unfold validate_AppConfig. cbn [config DEFAULT_CONFIG_SETTINGS extra check_extra].
    now apply forbid_extra_listed with (v := v'). }
  assert (Hfails : is_ok (BaseSettings_init w data) = false).
  { unfold BaseSettings_init.
    destruct (_settings_build_values w (init_options data) (init_values data))
      as [values|] eqn:Hb; [|reflexivity].
    cbn [bind]. destruct (Hlisted values eq_refl) as [Hnv _].
    destruct (validate_AppConfig w (extra (config w)) values); try reflexivity.
    discriminate. }
  split; [exact Hfails|]. split; [|split].
  - intros st. unfold AppConfig_init.
    destruct (dict_get data "self"); [reflexivity|exact Hfails].
  - intros values es Hb Hes. split.
    + unfold BaseSettings_init. rewrite Hb. cbn [bind]. now rewrite Hes.
    + now apply (proj2 (Hlisted values Hb)).
  - intros d k' v'. repeat split; intros H.
    + unfold validate_DBPerfConfig. skip_key H.
    + unfold validate_DBConfig. skip_key H.
    + unfold validate_AWSConfig, validate_AWSConfig_fields. skip_key H.
    + unfold validate_LookupDataConfig. skip_key H.
    + unfold validate_LoggingConfig. skip_key H.
Qed.

End Facts.

(** C5, as stated, fails: a YAML document with a key that [DBConfig] does
    not declare loads, and the configuration is the one that loads without
    the key. *)
Lemma nested_unknown_key_is_ignored :
  dict_get yaml_nested_unknown "DB" = Some (VDict [("BOGUS", VInt 1)])
  /\ is_ok (fst (get_config world_nested_unknown initial_state)) = true
  /\ BaseSettings_init world_nested_unknown yaml_nested_unknown
     = BaseSettings_init world_nested_unknown [("DB", VDict [])].
Proof. vm_compute. auto. Qed.

Lemma unknown_key_top_level_only_witness :
  is_ok (BaseSettings_init world_ok [("typo", VInt 1)]) = false.
Proof.
  apply (unknown_key_top_level_only world_ok [("typo", VInt 1)] "typo" (VInt 1)).
  - now left.
  - simpl. intuition discriminate.
  - reflexivity.
Defined.

End StrictFacts.

(** ** The check of the AWS section *)
Module AuthFacts.
Import Py Models Exn Env Validation Settings Loader Notions Samples.
Import DictFacts MergeFacts SourceFacts ValidationFacts StrictFacts.
Section Facts.
Context {R : Runtime} (w : World).








Lemma sets_false d a b :
  sets d [a; b] = false -> dict_get d a = None /\ dict_get d b = None.
Proof.
  unfold sets. simpl. destruct (dict_get d a), (dict_get d b); simpl; auto;
    discriminate.
Qed.

Lemma field_alias_absent {A : Type} d a b (validate : value -> validated A)
    default :
  sets d [a; b] = false -> field_alias d [a; b] validate default = default.
Proof. intros H. apply sets_false in H. destruct H as [Ha Hb]. simpl. now rewrite Ha, Hb. Qed.

(** Without a profile and without both keys, the fields of the AWS section,
    when they are valid, fail the check of the section. *)
Lemma auth_fails d c :
  sets d ["AWS__AWS_PROFILE"; "AWS_PROFILE"] = false ->
  sets d ["AWS__AWS_ACCESS_KEY_ID"; "AWS_ACCESS_KEY_ID"]
  && sets d ["AWS__AWS_SECRET_ACCESS_KEY"; "AWS_SECRET_ACCESS_KEY"] = false ->
  validate_AWSConfig_fields d = Valid c ->
  validate_auth_config c = Invalid [auth_error []].
Proof.
  intros Hp Hk H. unfold validate_AWSConfig_fields in H.
  rewrite (field_alias_absent _ _ _ _ _ Hp) in H.
  apply ap_valid in H. destruct H as (g1 & rg & H & _ & ->).
  apply ap_valid in H. destruct H as (g2 & sk & H & Hsk & ->).
  apply ap_valid in H. destruct H as (g3 & ak & H & Hak & ->).
  simpl in H. injection H as <-.
  unfold validate_auth_config. simpl.
  apply andb_false_iff in Hk. destruct Hk as [Hk|Hk].
  - rewrite (field_alias_absent _ _ _ _ _ Hk) in Hak. injection Hak as <-.
    reflexivity.
  - rewrite (field_alias_absent _ _ _ _ _ Hk) in Hsk. injection Hsk as <-.
    destruct ak; reflexivity.
Qed.

Lemma aws_field_not_valid values :
  aws_auth_unset values ->
  is_valid (field values "AWS_CONFIG" validate_AWSConfig
              (default_factory "AWSConfig" validate_AWSConfig)) = false.
Proof.
  unfold aws_auth_unset, field.
  destruct (dict_get values "AWS_CONFIG") as [x|]; [|reflexivity].
  destruct x; try reflexivity. intros [Hp Hk]. unfold validate_AWSConfig.
  destruct (validate_AWSConfig_fields d) as [c| |] eqn:E; try reflexivity.
  simpl. now rewrite (auth_fails d c Hp Hk E).
Qed.

Lemma forbid_extra_valid {A : Type} fields d (r : validated A) :
  is_valid r = false -> is_valid (forbid_extra fields d r) = false.
Proof. destruct r; simpl; auto. discriminate. Qed.

Lemma to_result_invalid {A : Type} title (r : validated A) :
  is_valid r = false -> is_ok (to_result title r) = false.
Proof. destruct r; simpl; auto. Qed.

















End Facts.


(** With no profile and no key in the AWS section, and a number as
    [LOOKUP_DATA.DATA_FILE_1], the load ends with a [TypeError], not with
    a validation error. *)
Lemma type_error_hides_the_rule :
  aws_auth_unset yaml_bad_file
  /\ exists m, fst (get_config world_bad_file initial_state)
               = Raise (TypeError m).
Proof. split; [vm_compute; auto|]. eexists. vm_compute. reflexivity. Qed.


End AuthFacts.

(** ** Priority of the sources *)
Module PriorityFacts.
Import Py Models Exn Env Validation Settings Loader Notions Samples.

(** C1, at the input where the code departs from it. The environment gives
    the profile under the field name, the YAML document gives it under the
    first alias of the field: the environment is the first source, in the
    order of priority, to have the path of the field, and the loaded
    configuration has the profile of the YAML document. *)
Theorem alias_beats_priority :
  first_supplied
    [ [] ; [("AWS_CONFIG", VDict [("AWS_PROFILE", VStr "env_profile")])];
      [] ; yaml_alias ]
    ["AWS_CONFIG"; "AWS_PROFILE"] = Some (VStr "env_profile")
  /\ file_secret_settings world_alias = Ok []
  /\ env_settings world_alias
     = Ok [("AWS_CONFIG", VDict [("AWS_PROFILE", VStr "env_profile")])]
  /\ dotenv_settings world_alias = Ok []
  /\ fst (load_config_yaml world_alias "config.yaml" initial_state)
     = VDict yaml_alias
  /\ exists st cfg,
       get_config world_alias initial_state = (Ok 0%nat, st)
       /\ deref st 0 = Some cfg
       /\ AWS_PROFILE (AWS_CONFIG cfg) = Some "yaml_profile".
Proof.
  repeat split; try (vm_compute; reflexivity).
  eexists. eexists. split; [vm_compute; reflexivity|].
  split; vm_compute; reflexivity.
Qed.

End PriorityFacts.

(** ** The root logger *)
Module LoggingFacts.
Import Py Models Loader LoggingSetup.

(** What [get_config] does to the root logger is what [setup_logging]
    does without [force_reconfigure], seen through the level of the
    logger and the levels of its handlers. *)
Lemma setup_logging_levels (config : LoggingConfig) (st : State)
    (root_logger : Logger) :
  root_level st = level root_logger ->
  root_handlers st = map handler_level (handlers root_logger) ->
  root_level (Loader.setup_logging config st)
  = level (LoggingSetup.setup_logging config false root_logger)
  /\ root_handlers (Loader.setup_logging config st)
     = map handler_level
         (handlers (LoggingSetup.setup_logging config false root_logger)).
Proof.
  intros Hl H. unfold Loader.setup_logging, LoggingSetup.setup_logging.
  destruct (handlers root_logger) as [|h hs] eqn:E; cbn [map] in H;
    rewrite H; cbn; rewrite ?E; auto.
Qed.

(** X1. Once [setup_logging] has run, a further call without
    [force_reconfigure] changes nothing, whatever configuration it is
    given: the root logger keeps its level and its handlers, and no handler
    is added twice. *)
Theorem setup_logging_once (config config' : LoggingConfig) (force : bool)
    (root_logger : Logger) :
  LoggingSetup.setup_logging config' false
    (LoggingSetup.setup_logging config force root_logger)
  = LoggingSetup.setup_logging config force root_logger.
Proof.
  unfold LoggingSetup.setup_logging at 2 3.
  destruct (handlers root_logger) as [|h hs] eqn:E, force; cbn [app];
    unfold LoggingSetup.setup_logging; cbn [handlers]; rewrite ?E;
    reflexivity.
Qed.

(** X2. [reset_logging] followed by [setup_logging] is [setup_logging] with
    [force_reconfigure]: whatever level and handlers the root logger had,
    it ends with the level of the configuration and one handler, the new
    one, whose formatter has the fixed format string of
    [_create_formatter] and the date format of the configuration;
    [LOG_FORMAT] has no part in it. *)
Theorem reset_then_setup_is_forced_setup (config : LoggingConfig)
    (root_logger : Logger) :
  LoggingSetup.setup_logging config false (reset_logging root_logger)
  = LoggingSetup.setup_logging config true root_logger
  /\ level (LoggingSetup.setup_logging config true root_logger)
     = LOG_LEVEL config
  /\ handlers (LoggingSetup.setup_logging config true root_logger)
     = [ {| handler_level := LOG_LEVEL config;
            handler_formatter :=
              {| fmt := "%(asctime)s %(name)s %(levelname)s %(message)s";
                 datefmt := LOG_DATE_FORMAT config |} |} ].
Proof.
  unfold LoggingSetup.setup_logging, reset_logging. cbn [handlers].
  destruct (handlers root_logger); auto.
Qed.

End LoggingFacts.

(** ** What a call of the entry point leaves behind *)
Module EntryFacts.
Import Py Models Exn Env Validation Settings Loader Exporter Notions Samples.
Import DictFacts LoadFacts.
Section Facts.
Context {R : Runtime}.

Lemma load_config_yaml_fst w filename st st0 :
  fst (load_config_yaml w filename st) = fst (load_config_yaml w filename st0).
Proof.
  unfold load_config_yaml. destruct (negb _); [reflexivity|].
  now destruct (parse_yaml_file_as_dict w _).
Qed.

(** What [load_config_yaml] does to the state: one more record, and a
    warning when the path does not exist. *)
Lemma load_config_yaml_snd w filename st :
  let st' := snd (load_config_yaml w filename st) in
  _config_sources st' = (_config_sources st ++ [yaml_record w filename])%list
  /\ get_config_cache st' = get_config_cache st
  /\ objects st' = objects st
  /\ root_handlers st' = root_handlers st
  /\ files st' = files st
  /\ (log st' = log st \/ exists m, log st' = (log st ++ [("WARNING", m)])%list).
Proof.
  unfold load_config_yaml, yaml_record. destruct (negb _).
  - cbn [snd]. rewrite emit_sources, emit_cache, emit_objects,
      emit_root_handlers, emit_files, emit_log.
    cbn. repeat split; auto.
    destruct (isEnabledFor WARNING _); [right; eexists; reflexivity|now left].
  - destruct (parse_yaml_file_as_dict w _); cbn; repeat split; auto.
Qed.

(** The warning of [load_config_yaml] is logged when the path does not
    exist and the logger is enabled for warnings. *)
Lemma load_config_yaml_log w filename st :
  let st' := snd (load_config_yaml w filename st) in
  root_level st' = root_level st
  /\ exists m,
       log st'
       = (log st
          ++ if negb (path_exists w (path_join (PROJECT_BASE_DIR w) filename))
                && isEnabledFor WARNING st
             then [("WARNING", m)] else [])%list.
Proof.
  unfold load_config_yaml. destruct (negb _).
  - cbn [snd andb]. rewrite emit_root_level, emit_log. split; [reflexivity|].
    eexists. unfold isEnabledFor. cbn [root_level track_config_source
      set_config_sources log LogLevel_value].
    destruct (_ <=? _)%nat; [reflexivity|now rewrite app_nil_r].
  - split.
    + now destruct (parse_yaml_file_as_dict w _).
    + exists "". cbn [andb]. rewrite app_nil_r.
      now destruct (parse_yaml_file_as_dict w _).
Qed.

Lemma fold_track_env_file w l : forall st,
  let st' := fold_left (track_env_file w) l st in
  _config_sources st'
  = (_config_sources st
     ++ map (fun env_path =>
               {| source_type := "dotenv"; path := env_path;
                  available := path_exists w env_path && path_is_file w env_path;
                  description := "Dotenv file: " ++ env_path |}) l)%list
  /\ get_config_cache st' = get_config_cache st
  /\ objects st' = objects st
  /\ root_handlers st' = root_handlers st
  /\ files st' = files st
  /\ log st' = log st.
Proof.
  induction l as [|p l IH]; intros st; cbn [fold_left map].
  - rewrite app_nil_r. repeat split; reflexivity.
  - destruct (IH (track_env_file w st p)) as (H1 & H2 & H3 & H4 & H5 & H6).
    cbv zeta. rewrite H1, H2, H3, H4, H5, H6. cbn.
    rewrite <- app_assoc. repeat split; reflexivity.
Qed.

Lemma fold_track_env_file_level w l : forall st,
  root_level (fold_left (track_env_file w) l st) = root_level st.
Proof.
  induction l as [|p l IH]; intros st; cbn [fold_left]; [reflexivity|].
  now rewrite IH.
Qed.

Lemma track_all_sources_level w st :
  root_level (_track_all_sources w st) = root_level st.
Proof. unfold _track_all_sources. now rewrite fold_track_env_file_level. Qed.

Lemma track_all_sources_snd w st :
  let st' := _track_all_sources w st in
  _config_sources st' = (_config_sources st ++ settings_records w)%list
  /\ get_config_cache st' = get_config_cache st
  /\ objects st' = objects st
  /\ root_handlers st' = root_handlers st
  /\ files st' = files st
  /\ log st' = log st.
Proof.
  unfold _track_all_sources.
  match goal with |- context [fold_left _ _ ?s] =>
    destruct (fold_track_env_file w (env_file (config w)) s)
      as (H1 & H2 & H3 & H4 & H5 & H6) end.
  cbv zeta. rewrite H1, H2, H3, H4, H5, H6. cbn.
  rewrite <- !app_assoc. repeat split; reflexivity.
Qed.

Lemma setup_logging_frame c st :
  let st' := setup_logging c st in
  _config_sources st' = _config_sources st
  /\ get_config_cache st' = get_config_cache st
  /\ objects st' = objects st
  /\ files st' = files st
  /\ log st' = log st
  /\ root_handlers st'
     = match root_handlers st with
       | [] => [LOG_LEVEL c]
       | hs => hs
       end.
Proof.
  unfold setup_logging. destruct (root_handlers st) eqn:E; cbn;
    rewrite ?E; repeat split; reflexivity.
Qed.

Lemma setup_logging_level c st :
  root_level (setup_logging c st)
  = match root_handlers st with
    | [] => LOG_LEVEL c
    | _ => root_level st
    end.
Proof. unfold setup_logging. now destruct (root_handlers st). Qed.

Lemma print_config_sources_frame st :
  let st' := print_config_sources st in
  _config_sources st' = _config_sources st
  /\ get_config_cache st' = get_config_cache st
  /\ objects st' = objects st
  /\ files st' = files st
  /\ root_handlers st' = root_handlers st
  /\ exists report,
       log st'
       = (log st ++ if isEnabledFor INFO st then [("INFO", report)] else [])%list.
Proof.
  unfold print_config_sources, get_config_sources.
  destruct (_config_sources st) eqn:E;
    rewrite emit_sources, emit_cache, emit_objects, emit_files,
      emit_root_handlers, emit_log, ?E;
    (repeat split; auto; eexists;
     destruct (isEnabledFor INFO st);
     [reflexivity|now rewrite app_nil_r]).
Qed.

Lemma print_config_sources_level st :
  root_level (print_config_sources st) = root_level st.
Proof.
  unfold print_config_sources, get_config_sources.
  destruct (_config_sources st); apply emit_root_level.
Qed.

(** The body of [get_config], in terms of what the surroundings
    determine. *)
Lemma get_config_body_outcome w st :
  let st2 := snd (load_config_yaml w "config.yaml" (clear_config_sources st)) in
  match loaded w with
  | Ok cfg =>
      get_config_body w st
      = (Ok (List.length (objects st)),
         print_config_sources
           (setup_logging (LOGGING cfg)
              (snd (allocate cfg (_track_all_sources w st2)))))
  | Raise e =>
      get_config_body w st = (Raise e, st2)
      \/ get_config_body w st = (Raise e, _track_all_sources w st2)
  end.
Proof.
  cbv zeta. unfold loaded, get_config_body.
  rewrite (load_config_yaml_fst w "config.yaml" initial_state (clear_config_sources st)).
  destruct (load_config_yaml_snd w "config.yaml" (clear_config_sources st))
    as (_ & _ & Ho & _).
  destruct (load_config_yaml w "config.yaml" (clear_config_sources st))
    as [yaml_config st2] eqn:El.
  cbn [fst snd] in *.
  assert (H : forall data,
    match fst (AppConfig_init w data initial_state) with
    | Ok cfg =>
        match AppConfig_init w data st2 with
        | (Raise e, st3) => (@Raise nat e, st3)
        | (Ok config, st3) =>
            let (ref, st4) := allocate config st3 in
            (Ok ref, print_config_sources (setup_logging (LOGGING config) st4))
        end
        = (Ok (List.length (objects st)),
           print_config_sources
             (setup_logging (LOGGING cfg)
                (snd (allocate cfg (_track_all_sources w st2)))))
    | Raise e =>
        match AppConfig_init w data st2 with
        | (Raise e, st3) => (@Raise nat e, st3)
        | (Ok config, st3) =>
            let (ref, st4) := allocate config st3 in
            (Ok ref, print_config_sources (setup_logging (LOGGING config) st4))
        end = (Raise e, st2)
        \/ match AppConfig_init w data st2 with
           | (Raise e, st3) => (@Raise nat e, st3)
           | (Ok config, st3) =>
               let (ref, st4) := allocate config st3 in
               (Ok ref, print_config_sources (setup_logging (LOGGING config) st4))
           end = (Raise e, _track_all_sources w st2)
    end).
  { intros data. unfold AppConfig_init.
    destruct (dict_get data "self"); [now left|]. cbn [fst].
    destruct (BaseSettings_init w data) as [cfg|e]; [|now right].
    destruct (track_all_sources_snd w st2) as (_ & _ & Ho' & _).
    unfold allocate. cbv beta iota. cbn [snd]. rewrite Ho', Ho. reflexivity. }
  destruct yaml_config; try (left; reflexivity); apply H.
Qed.

Lemma get_config_first w st ref st' :
  get_config_cache st = None ->
  get_config w st = (Ok ref, st') ->
  exists cfg,
    loaded w = Ok cfg
    /\ ref = List.length (objects st)
    /\ st' = set_cache (Some ref)
               (print_config_sources
                  (setup_logging (LOGGING cfg)
                     (snd (allocate cfg
                             (_track_all_sources w
                                (snd (load_config_yaml w "config.yaml"
                                        (clear_config_sources st)))))))).
Proof.
  intros Hc. unfold get_config. rewrite Hc.
  pose proof (get_config_body_outcome w st) as H. cbv zeta in H.
  destruct (loaded w) as [cfg|e].
  - rewrite H. intros [= <- <-]. exists cfg. auto.
  - destruct H as [H|H]; rewrite H; discriminate.
Qed.

(** The states that a first call of [get_config] goes through, and what
    each step leaves as it was. The logger of [load_config_yaml] is
    enabled, or not, by the level that the root logger has before the
    call; that of [print_config_sources] by the level it has after
    [setup_logging]. *)
Lemma first_call_steps (w : World) (st : State) (cfg : AppConfig) :
  let st2 := snd (load_config_yaml w "config.yaml" (clear_config_sources st)) in
  let st4 := snd (allocate cfg (_track_all_sources w st2)) in
  let st6 := print_config_sources (setup_logging (LOGGING cfg) st4) in
  objects st6 = (objects st ++ [cfg])%list
  /\ root_handlers st6
     = match root_handlers st with
       | [] => [LOG_LEVEL (LOGGING cfg)]
       | hs => hs
       end
  /\ root_level st6
     = match root_handlers st with
       | [] => LOG_LEVEL (LOGGING cfg)
       | _ => root_level st
       end
  /\ files st6 = files st
  /\ exists warning report,
       log st6
       = (log st
          ++ (if negb (path_exists w (path_join (PROJECT_BASE_DIR w) "config.yaml"))
                 && isEnabledFor WARNING st
              then [("WARNING", warning)] else [])
          ++ (if isEnabledFor INFO st6 then [("INFO", report)] else []))%list.
Proof.
  cbv zeta.
  destruct (load_config_yaml_snd w "config.yaml" (clear_config_sources st))
    as (_ & _ & Ho2 & Hh2 & Hf2 & _).
  destruct (load_config_yaml_log w "config.yaml" (clear_config_sources st))
    as (Hv2 & warning & Hl2).
  change (objects (clear_config_sources st)) with (objects st) in Ho2.
  change (root_handlers (clear_config_sources st)) with (root_handlers st) in Hh2.
  change (root_level (clear_config_sources st)) with (root_level st) in Hv2.
  change (files (clear_config_sources st)) with (files st) in Hf2.
  change (log (clear_config_sources st)) with (log st) in Hl2.
  change (isEnabledFor WARNING (clear_config_sources st))
    with (isEnabledFor WARNING st) in Hl2.
  set (st2 := snd (load_config_yaml w "config.yaml" (clear_config_sources st))) in *.
  clearbody st2.
  destruct (track_all_sources_snd w st2) as (_ & _ & Ho3 & Hh3 & Hf3 & Hl3).
  pose proof (track_all_sources_level w st2) as Hv3.
  set (st3 := _track_all_sources w st2) in *. clearbody st3.
  assert (H4 : objects (snd (allocate cfg st3)) = (objects st3 ++ [cfg])%list
               /\ root_handlers (snd (allocate cfg st3)) = root_handlers st3
               /\ root_level (snd (allocate cfg st3)) = root_level st3
               /\ files (snd (allocate cfg st3)) = files st3
               /\ log (snd (allocate cfg st3)) = log st3) by (cbn; auto).
  destruct H4 as (Ho4 & Hh4 & Hv4 & Hf4 & Hl4).
  set (st4 := snd (allocate cfg st3)) in *. clearbody st4.
  destruct (setup_logging_frame (LOGGING cfg) st4) as (_ & _ & Ho5 & Hf5 & Hl5 & Hh5).
  pose proof (setup_logging_level (LOGGING cfg) st4) as Hv5.
  set (st5 := setup_logging (LOGGING cfg) st4) in *. clearbody st5.
  destruct (print_config_sources_frame st5) as (_ & _ & Ho6 & Hf6 & Hh6 & report & Hl6).
  pose proof (print_config_sources_level st5) as Hv6.
  set (st6 := print_config_sources st5) in *. clearbody st6.
  split; [now rewrite Ho6, Ho5, Ho4, Ho3, Ho2|].
  split; [now rewrite Hh6, Hh5, Hh4, Hh3, Hh2|].
  split; [now rewrite Hv6, Hv5, Hh4, Hh3, Hh2, Hv4, Hv3, Hv2|].
  split; [now rewrite Hf6, Hf5, Hf4, Hf3, Hf2|].
  exists warning, report.
  assert (He : isEnabledFor INFO st6 = isEnabledFor INFO st5)
    by (unfold isEnabledFor; now rewrite Hv6).
  rewrite Hl6, Hl5, Hl4, Hl3, Hl2, He, <- app_assoc. reflexivity.
Qed.

(** The object that a first call registers. *)
Lemma first_call_post (w : World) (st st' : State) (ref : nat) :
  get_config_cache st = None ->
  get_config w st = (Ok ref, st') ->
  exists cfg,
    loaded w = Ok cfg
    /\ ref = List.length (objects st)
    /\ objects st' = (objects st ++ [cfg])%list
    /\ deref st' ref = Some cfg
    /\ (forall r, (r < ref)%nat -> deref st' r = deref st r)
    /\ get_config_cache st' = Some ref.
Proof.
  intros Hc H. destruct (get_config_first w st ref st' Hc H) as (cfg & Hl & Hr & ->).
  exists cfg. pose proof (first_call_steps w st cfg) as Hs.
  cbv zeta in Hs. destruct Hs as (Hobj & _).
  split; [exact Hl|]. split; [exact Hr|]. split; [exact Hobj|].
  split; [|split].
  - unfold deref. cbn [set_cache objects]. rewrite Hobj, Hr, nth_error_app2 by lia.
    now rewrite Nat.sub_diag.
  - intros r Hlt. unfold deref. cbn [set_cache objects]. rewrite Hobj.
    apply nth_error_app1. lia.
  - reflexivity.
Qed.

(** X3. A first call of [get_config] that returns: the reference is that
    of a new object, which holds the configuration that the surroundings
    determine; the objects that were there are as they were; the cache
    holds the reference; a root logger that had handlers keeps them and
    its level, one that had none gets one handler and the level of the
    configuration; no file is written; and the log grows by the warning
    of [load_config_yaml], when the YAML file is missing and the root
    logger was enabled for warnings before the call, and by the report of
    the sources, when the root logger is enabled for [INFO] after
    [setup_logging]: with [LOG_LEVEL] at [WARNING] or above, or a root
    logger that had handlers and a level above [INFO], no report is
    logged. *)
Theorem first_call_builds_a_new_object (w : World) (st st' : State) (ref : nat) :
  get_config_cache st = None ->
  get_config w st = (Ok ref, st') ->
  exists cfg,
    loaded w = Ok cfg
    /\ ref = List.length (objects st)
    /\ objects st' = (objects st ++ [cfg])%list
    /\ deref st' ref = Some cfg
    /\ (forall r, (r < ref)%nat -> deref st' r = deref st r)
    /\ get_config_cache st' = Some ref
    /\ root_handlers st'
       = match root_handlers st with
         | [] => [LOG_LEVEL (LOGGING cfg)]
         | hs => hs
         end
    /\ root_level st'
       = match root_handlers st with
         | [] => LOG_LEVEL (LOGGING cfg)
         | _ => root_level st
         end
    /\ files st' = files st
    /\ exists warning report,
         log st'
         = (log st
            ++ (if negb (path_exists w
                           (path_join (PROJECT_BASE_DIR w) "config.yaml"))
                   && isEnabledFor WARNING st
                then [("WARNING", warning)] else [])
            ++ (if isEnabledFor INFO st' then [("INFO", report)] else []))%list.
Proof.
  intros Hc H.
  destruct (first_call_post w st st' ref Hc H)
    as (cfg & Hl & Hr & Hobj & Hd & Hold & Hc').
  exists cfg. repeat (split; [assumption|]).
  destruct (get_config_first w st ref st' Hc H) as (cfg' & Hl' & _ & ->).
  assert (cfg' = cfg) as -> by congruence.
  pose proof (first_call_steps w st cfg) as Hs.
  cbv zeta in Hs. destruct Hs as (_ & Hh & Hv & Hf & Hlog).
  cbn [set_cache root_handlers root_level files log]. auto.
Qed.

Lemma first_call_sources (w : World) (st st' : State) (ref : nat) :
  get_config_cache st = None ->
  get_config w st = (Ok ref, st') ->
  get_config_sources st' = yaml_record w "config.yaml" :: settings_records w.
Proof.
  intros Hc. unfold get_config. rewrite Hc.
  destruct (get_config_body w st) as [[r|e] st1] eqn:E; [|discriminate].
  intros [= <- <-]. unfold get_config_sources. cbn [set_cache _config_sources].
  now apply (get_config_body_sources w st r st1).
Qed.

Lemma get_config_failed w st e st' :
  get_config w st = (Raise e, st') ->
  get_config_cache st = None
  /\ loaded w = Raise e
  /\ (st' = snd (load_config_yaml w "config.yaml" (clear_config_sources st))
      \/ st' = _track_all_sources w
                 (snd (load_config_yaml w "config.yaml" (clear_config_sources st)))).
Proof.
  unfold get_config. destruct (get_config_cache st) eqn:Hc; [discriminate|].
  pose proof (get_config_body_outcome w st) as H. cbv zeta in H.
  destruct (loaded w) as [cfg|e0].
  - rewrite H. discriminate.
  - destruct H as [H|H]; rewrite H; intros [= <- <-]; auto.
Qed.

Lemma failed_frame w st st' :
  st' = snd (load_config_yaml w "config.yaml" (clear_config_sources st))
  \/ st' = _track_all_sources w
             (snd (load_config_yaml w "config.yaml" (clear_config_sources st))) ->
  get_config_cache st' = get_config_cache st
  /\ objects st' = objects st
  /\ root_handlers st' = root_handlers st
  /\ files st' = files st
  /\ (log st' = log st \/ exists m, log st' = (log st ++ [("WARNING", m)])%list)
  /\ (get_config_sources st' = [yaml_record w "config.yaml"]
      \/ get_config_sources st' = yaml_record w "config.yaml" :: settings_records w).
Proof.
  destruct (load_config_yaml_snd w "config.yaml" (clear_config_sources st))
    as (Hs2 & Hc2 & Ho2 & Hh2 & Hf2 & Hl2).
  set (st2 := snd (load_config_yaml w "config.yaml" (clear_config_sources st))) in *.
  destruct (track_all_sources_snd w st2) as (Hs3 & Hc3 & Ho3 & Hh3 & Hf3 & Hl3).
  intros [->| ->].
  - repeat split; auto.
  - unfold get_config_sources. rewrite Hs3, Hc3, Ho3, Hh3, Hf3, Hl3, Hs2.
    repeat split; auto.
Qed.


(** X5. The YAML document has to be a mapping: when the file parses to
    anything else (a list, a text, a number) but an empty document,
    [get_config] raises a [TypeError], with the YAML file as the one
    tracked source, before any other source is read. *)
Theorem yaml_document_must_be_a_mapping (w : World) (st : State) (v : value) :
  let yaml := path_join (PROJECT_BASE_DIR w) "config.yaml" in
  path_exists w yaml = true ->
  parse_yaml_file_as_dict w yaml = Some v ->
  v <> VNone -> is_dict v = false ->
  get_config_cache st = None ->
  exists m st',
    get_config w st = (Raise (TypeError m), st')
    /\ get_config_sources st' = [yaml_record w "config.yaml"]
    /\ get_config_cache st' = None
    /\ log st' = log st.
Proof.
  intros yaml Hex Hp Hn Hd Hc. unfold get_config. rewrite Hc.
  unfold get_config_body, load_config_yaml. fold yaml. rewrite Hex, Hp. cbn [negb].
  destruct v; try discriminate; try (exfalso; now apply Hn);
    (eexists; eexists; split; [reflexivity|]; cbn; rewrite ?Hc;
     unfold yaml_record; fold yaml; rewrite Hex; auto).
Qed.

(** X6. After [cache_clear], [get_config] runs its body again: a call that
    returns gives a reference to a new object, other than the one returned
    before, holding what the surroundings then determine; the object
    returned before is left as it was; the tracked sources are those of
    the new run alone. *)
Theorem cache_clear_reloads (w w' : World) (st st1 st2 : State) (ref ref' : nat) :
  get_config_cache st = None ->
  get_config w st = (Ok ref, st1) ->
  get_config w' (cache_clear st1) = (Ok ref', st2) ->
  ref' <> ref
  /\ deref st2 ref = deref st1 ref
  /\ (exists cfg', loaded w' = Ok cfg' /\ deref st2 ref' = Some cfg')
  /\ get_config_sources st2 = yaml_record w' "config.yaml" :: settings_records w'.
Proof.
  intros Hc H1 H2.
  destruct (first_call_post w st st1 ref Hc H1)
    as (cfg & _ & Hr & Ho & Hd & _).
  assert (Hc1 : get_config_cache (cache_clear st1) = None) by reflexivity.
  destruct (first_call_post w' _ st2 ref' Hc1 H2)
    as (cfg' & Hl' & Hr' & Ho' & Hd' & Hold & _).
  change (objects (cache_clear st1)) with (objects st1) in *.
  assert (Hlt : (ref < ref')%nat).
  { rewrite Hr', Ho, Hr, length_app. simpl. lia. }
  split; [lia|]. split; [|split].
  - rewrite (Hold ref Hlt). reflexivity.
  - exists cfg'. auto.
  - apply (first_call_sources w' (cache_clear st1) st2 ref' Hc1 H2).
Qed.

(** X7. The construction of an [AppConfig] from keyword arguments none
    of which is named [self] tracks its three sources before it validates,
    and never clears the list: the records of the secrets directory, the
    environment and the dotenv file are appended whether the construction
    returns or raises, so that two constructions leave them twice; nothing
    is logged and no object is registered by the tracking. A keyword
    argument named [self] is refused with a [TypeError] at the call, and
    the state is left as it was: no record is appended. *)
Theorem construction_appends_three_records (w : World) (data data' : dict)
    (st : State) :
  dict_get data "self" = None ->
  dict_get data' "self" = None ->
  let st1 := snd (AppConfig_init w data st) in
  let st2 := snd (AppConfig_init w data' st1) in
  get_config_sources st1 = (get_config_sources st ++ settings_records w)%list
  /\ get_config_sources st2
     = (get_config_sources st ++ settings_records w ++ settings_records w)%list
  /\ log st2 = log st
  /\ objects st2 = objects st
  /\ (forall refused v s,
        dict_get refused "self" = Some v ->
        exists m, AppConfig_init w refused s = (Raise (TypeError m), s)).
Proof.
  intros Hd Hd'. cbv zeta. unfold AppConfig_init, get_config_sources.
  rewrite Hd, Hd'. cbn [snd].
  destruct (track_all_sources_snd w st) as (Hs1 & _ & Ho1 & _ & _ & Hl1).
  destruct (track_all_sources_snd w (_track_all_sources w st))
    as (Hs2 & _ & Ho2 & _ & _ & Hl2).
  rewrite Hs2, Hs1, Hl2, Hl1, Ho2, Ho1, <- app_assoc.
  repeat split; auto.
  intros refused v s ->. eexists. reflexivity.
Qed.

Lemma get_config_cached_call w st ref :
  get_config_cache st = Some ref -> get_config w st = (Ok ref, st).
Proof. intros H. unfold get_config. now rewrite H. Qed.

Lemma dump_with_failed content notice w filename st st' e :
  get_config w st = (Raise e, st') ->
  dump_with content notice w filename st = (Raise e, st').
Proof. intros H. unfold dump_with. now rewrite H. Qed.

(** X8. When the configuration cannot be loaded, an export raises what
    [get_config] raises and writes nothing: the files are as they were,
    and no record tells of a dump. *)
Theorem failed_load_writes_no_file (w : World) (filename : string)
    (st st' : State) (e : exn) :
  get_config w st = (Raise e, st') ->
  dump_config_to_yaml w filename st = (Raise e, st')
  /\ dump_config_to_dotenv w filename st = (Raise e, st')
  /\ files st' = files st
  /\ Forall (fun record => fst record <> "INFO")
       (skipn (List.length (log st)) (log st')).
Proof.
  intros H. split; [|split]; try (now apply dump_with_failed).
  destruct (get_config_failed w st e st' H) as (_ & _ & Hst).
  destruct (failed_frame w st st' Hst) as (_ & _ & _ & Hf & Hlog & _).
  split; [exact Hf|].
  destruct Hlog as [->|[m ->]].
  - rewrite skipn_all. constructor.
  - rewrite skipn_app, skipn_all, Nat.sub_diag. cbn.
    repeat constructor. discriminate.
Qed.

(** X9. The two exports share one load. A first export that returns,
    started from an empty cache, has opened its path and written the flat
    lines of the configuration that the surroundings determined. A second
    export then uses the cached object, whatever the surroundings have
    become: when its path cannot be opened for writing, it raises the
    [OSError] and leaves the state as it was; otherwise no new object is
    built and no source is tracked again, the file holds the document of
    the same configuration, and the first file still holds its lines
    unless the two paths lead to one file. *)
Theorem exports_share_one_load (w w' : World) (dotenv_name yaml_name : string)
    (st st1 : State) :
  get_config_cache st = None ->
  dump_config_to_dotenv w dotenv_name st = (Ok tt, st1) ->
  exists cfg dotenv_file,
    loaded w = Ok cfg
    /\ open_for_writing w (project_file w dotenv_name) = Some dotenv_file
    /\ dict_get (files st1) dotenv_file = Some (TextFile (dotenv_lines cfg))
    /\ match open_for_writing w' (project_file w' yaml_name) with
       | None =>
           exists m,
             dump_config_to_yaml w' yaml_name st1 = (Raise (OSError m), st1)
       | Some yaml_file =>
           exists st2,
             dump_config_to_yaml w' yaml_name st1 = (Ok tt, st2)
             /\ objects st2 = (objects st ++ [cfg])%list
             /\ get_config_sources st2 = get_config_sources st1
             /\ dict_get (files st2) yaml_file
                = Some (YamlFile (yaml_document cfg))
             /\ (dotenv_file <> yaml_file ->
                 dict_get (files st2) dotenv_file
                 = Some (TextFile (dotenv_lines cfg)))
       end.
Proof.
  intros Hc H. unfold dump_config_to_dotenv, dump_with in H.
  destruct (get_config w st) as [[ref|e] st'] eqn:E; [|discriminate].
  destruct (first_call_post w st st' ref Hc E)
    as (cfg & Hl & Hr & Ho & Hd & _ & Hc').
  rewrite Hd in H.
  destruct (open_for_writing w (project_file w dotenv_name))
    as [dotenv_file|] eqn:Eo; [|discriminate].
  injection H as <-.
  exists cfg, dotenv_file. split; [exact Hl|]. split; [reflexivity|].
  assert (Hfile : forall s m,
            dict_get
              (files (emit INFO m
                        (write_file dotenv_file
                           (TextFile (dotenv_lines cfg)) s)))
              dotenv_file
            = Some (TextFile (dotenv_lines cfg))).
  { intros s m. rewrite emit_files. cbn [write_file files].
    apply dict_get_set_eq. }
  split; [apply Hfile|].
  unfold dump_config_to_yaml, dump_with.
  rewrite (get_config_cached_call w' _ ref)
    by (now rewrite emit_cache).
  assert (Hd1 : forall s m c,
            deref (emit INFO m (write_file s c st')) ref = deref st' ref).
  { intros s m c. unfold deref. now rewrite emit_objects. }
  rewrite Hd1, Hd.
  destruct (open_for_writing w' (project_file w' yaml_name)) as [yaml_file|].
  - eexists. split; [reflexivity|].
    unfold get_config_sources.
    assert (Hw : forall f c s,
              objects (write_file f c s) = objects s
              /\ _config_sources (write_file f c s) = _config_sources s
              /\ files (write_file f c s) = dict_set (files s) f c)
      by (intros; repeat split; reflexivity).
    repeat (rewrite ?emit_objects, ?emit_sources, ?emit_files,
              ?(proj1 (Hw _ _ _)), ?(proj1 (proj2 (Hw _ _ _))),
              ?(proj2 (proj2 (Hw _ _ _)))).
    split; [exact Ho|]. split; [reflexivity|]. split.
    + apply dict_get_set_eq.
    + intros Hne. rewrite dict_get_set_ne by (intros Heq; now apply Hne).
      apply dict_get_set_eq.
  - eexists. reflexivity.
Qed.

End Facts.

Lemma first_call_builds_a_new_object_witness :
  exists st' cfg report,
    get_config world_ok initial_state = (Ok 0%nat, st')
    /\ objects st' = [cfg] /\ files st' = []
    /\ root_level st' = INFO
    /\ log st' = [("INFO", report)].
Proof.
  destruct (get_config world_ok initial_state) as [[ref|e] st'] eqn:E;
    [|vm_compute in E; discriminate].
  destruct (first_call_builds_a_new_object world_ok initial_state st' ref
              eq_refl E)
    as (cfg & Hl & -> & Ho & _ & _ & _ & _ & Hv & Hf & warning & report & Hlog).
  exists st', cfg, report. vm_compute in Hl. injection Hl as <-.
  cbn in Hv. unfold isEnabledFor in Hlog. rewrite Hv in Hlog. cbn in Hlog.
  auto.
Defined.

Lemma construction_appends_three_records_witness :
  let st1 := snd (AppConfig_init world_no_aws [] initial_state) in
  is_ok (fst (AppConfig_init world_no_aws [] initial_state)) = false
  /\ get_config_sources (snd (AppConfig_init world_no_aws [] st1))
     = (settings_records world_no_aws ++ settings_records world_no_aws)%list.
Proof.
  cbv zeta. split; [vm_compute; reflexivity|].
  destruct (construction_appends_three_records world_no_aws [] []
              initial_state eq_refl eq_refl) as (_ & H & _).
  exact H.
Defined.


Lemma yaml_document_must_be_a_mapping_witness :
  exists m, fst (get_config world_yaml_list initial_state) = Raise (TypeError m).
Proof.
  destruct (yaml_document_must_be_a_mapping world_yaml_list initial_state
              (VList [VStr "a"]) eq_refl eq_refl)
    as (m & st' & H & _); try reflexivity; try discriminate.
  exists m. now rewrite H.
Defined.

Lemma cache_clear_reloads_witness :
  let st1 := snd (get_config world_ok initial_state) in
  fst (get_config world_port (cache_clear st1)) = Ok 1%nat
  /\ deref (snd (get_config world_port (cache_clear st1))) 0
     = deref st1 0.
Proof.
  cbv zeta.
  destruct (get_config world_ok initial_state) as [[ref|e] st1] eqn:E1;
    [|vm_compute in E1; discriminate].
  assert (ref = 0%nat) as -> by (vm_compute in E1; congruence).
  cbn [snd].
  destruct (get_config world_port (cache_clear st1)) as [[ref'|e] st2] eqn:E2.
  - destruct (cache_clear_reloads world_ok world_port initial_state st1 st2 0 ref'
                eq_refl E1 E2) as (_ & Hd & _).
    split; [|exact Hd].
    revert E2. injection E1 as <-. vm_compute. congruence.
  - exfalso. revert E2. injection E1 as <-. vm_compute. discriminate.
Defined.

Lemma failed_load_writes_no_file_witness :
  is_ok (fst (dump_config_to_dotenv world_no_aws ".env.dump" initial_state))
  = false
  /\ files (snd (dump_config_to_dotenv world_no_aws ".env.dump" initial_state))
     = [].
Proof.
  destruct (get_config world_no_aws initial_state) as [[ref|e] st'] eqn:E;
    [vm_compute in E; discriminate|].
  destruct (failed_load_writes_no_file world_no_aws ".env.dump"
              initial_state st' e E) as (_ & -> & Hf & _).
  split; [reflexivity|exact Hf].
Defined.

Lemma exports_share_one_load_witness :
  let st1 := snd (dump_config_to_dotenv world_ok ".env.dump" initial_state) in
  exists st2,
    dump_config_to_yaml world_port "config_dump.yaml" st1 = (Ok tt, st2)
    /\ List.length (objects st2) = 1%nat
    /\ map fst (files st2) = ["/app/.env.dump"; "/app/config_dump.yaml"].
Proof.
  cbv zeta.
  destruct (dump_config_to_dotenv world_ok ".env.dump" initial_state)
    as [[[]|e] st1] eqn:E; [|vm_compute in E; discriminate].
  destruct (exports_share_one_load world_ok world_port ".env.dump"
              "config_dump.yaml" initial_state st1 eq_refl E)
    as (cfg & dotenv_file & _ & _ & _ & H).
  cbn [snd]. change (open_for_writing world_port
                       (project_file world_port "config_dump.yaml"))
    with (Some "/app/config_dump.yaml") in H.
  destruct H as (st2 & H & Ho & _).
  exists st2. split; [exact H|]. split; [now rewrite Ho|].
  revert H. injection E as <-. vm_compute. now intros [= <-].
Defined.

End EntryFacts.

(** ** Flattening, leaf by leaf *)
Module FlattenFacts.
Import Py Models Exn Env Settings Loader Exporter Notions Samples DictFacts ExportFacts.
Section Facts.
Context {R : Runtime}.

Lemma leaves_path_nonempty d p leaf :
  In (p, leaf) (leaves (VDict d)) -> p <> [].
Proof.
  rewrite leaves_dict. intros H. apply in_flat_map in H.
  destruct H as ([k v] & _ & H). apply in_map_iff in H.
  destruct H as ([p' l'] & [= <- _] & _). discriminate.
Qed.

Lemma leaf_item_nested parent_key sep null_value skip k p leaf :
  p <> [] ->
  leaf_item parent_key sep null_value skip (k :: p, leaf)
  = leaf_item (new_key_of parent_key sep k) sep "None" true (p, leaf).
Proof.
  intros Hp. unfold leaf_item. cbn [fst snd].
  destruct p as [|k' [|k'' p']]; [contradiction|reflexivity|reflexivity].
Qed.

Lemma flat_map_map {A B C : Type} (f : B -> list C) (g : A -> B) l :
  flat_map f (map g l) = flat_map (fun x => f (g x)) l.
Proof. induction l as [|x l IH]; simpl; [reflexivity|now rewrite IH]. Qed.

Lemma flat_map_flat_map {A B C : Type} (f : B -> list C) (g : A -> list B) l :
  flat_map f (flat_map g l) = flat_map (fun x => flat_map f (g x)) l.
Proof.
  induction l as [|x l IH]; simpl; [reflexivity|].
  now rewrite flat_map_app, IH.
Qed.

Lemma flat_map_ext_in {A B : Type} (f g : A -> list B) l :
  (forall x, In x l -> f x = g x) -> flat_map f l = flat_map g l.
Proof.
  induction l as [|x l IH]; intros H; simpl; [reflexivity|].
  rewrite (H x) by now left. rewrite IH; [reflexivity|].
  intros y Hy. apply H. now right.
Qed.

Lemma flat_items_entries d parent_key sep null_value skip :
  flat_items d parent_key sep null_value skip
  = flat_map (entry_leaves parent_key sep null_value skip) d.
Proof.
  unfold flat_items. rewrite leaves_dict. apply flat_map_flat_map.
Qed.

Lemma entry_leaves_dict parent_key sep null_value skip k d :
  entry_leaves parent_key sep null_value skip (k, VDict d)
  = flat_items d (new_key_of parent_key sep k) sep "None" true.
Proof.
  unfold entry_leaves, flat_items. cbn [fst snd]. rewrite flat_map_map.
  apply flat_map_ext_in. intros [p leaf] Hin. cbn [fst snd].
  apply leaf_item_nested. now apply (leaves_path_nonempty d p leaf).
Qed.

Lemma entry_leaves_leaf parent_key sep null_value skip k v :
  is_dict v = false ->
  entry_leaves parent_key sep null_value skip (k, v)
  = entry_items parent_key sep null_value skip (k, v).
Proof.
  intros Hv. unfold entry_leaves, entry_items, leaf_item. cbn [fst snd].
  destruct v; try discriminate; cbn; rewrite ?app_nil_r; try reflexivity.
  destruct (startswith s "********" && skip); reflexivity.
Qed.

(** Where the flat keys of the items differ, [dict(items)] drops nothing
    at any depth, and the flat dictionary is the list of the items of the
    leaves. *)
Lemma flatten_value_flat_items (v : value) :
  forall d parent_key sep null_value skip,
  v = VDict d ->
  NoDup (keys (flat_items d parent_key sep null_value skip)) ->
  flatten_value v parent_key sep null_value skip
  = flat_items d parent_key sep null_value skip.
Proof.
  induction v as [| | | | | | |d0 IH] using value_nested_ind;
    intros d parent_key sep null_value skip Hv Hn; try discriminate.
  injection Hv as <-.
  rewrite flatten_value_dict.
  assert (Hraw : raw_items d0 parent_key sep null_value skip
                 = flat_items d0 parent_key sep null_value skip).
  { rewrite flat_items_entries in *. unfold raw_items.
    induction d0 as [|[k v] d0 IHd]; [reflexivity|].
    cbn [flat_map] in *. rewrite keys_app in Hn.
    inversion IH as [|? ? Hv Hd]; subst. cbn [snd] in Hv.
    rewrite (IHd Hd (NoDup_app_remove_l _ _ Hn)). f_equal.
    apply NoDup_app_remove_r in Hn.
    destruct (is_dict v) eqn:Ev.
    - destruct v; try discriminate.
      rewrite entry_leaves_dict in *. unfold entry_items. cbn [fst snd].
      now apply Hv.
    - symmetry. now apply entry_leaves_leaf. }
  rewrite Hraw. now apply dict_of_items_distinct.
Qed.

Lemma in_flat_items d parent_key sep null_value skip k text :
  In (k, text) (flat_items d parent_key sep null_value skip) <->
  exists p leaf,
    In (p, leaf) (leaves (VDict d))
    /\ k = flat_key parent_key sep p
    /\ leaf_text (match p with [_] => null_value | _ => "None" end)
                 (match p with [_] => skip | _ => true end) leaf
       = Some text.
Proof.
  unfold flat_items. rewrite in_flat_map. split.
  - intros ([p leaf] & Hin & H). exists p, leaf. split; [exact Hin|].
    unfold leaf_item in H. cbn [fst snd] in H.
    destruct p as [|a [|b p]];
      match type of H with
      | In _ (match ?t with _ => _ end) => destruct t eqn:E
      end; try contradiction; destruct H as [[= <- <-]|[]]; auto.
  - intros (p & leaf & Hin & -> & H). exists (p, leaf). split; [exact Hin|].
    unfold leaf_item. cbn [fst snd].
    destruct p as [|a [|b p]]; rewrite H; now left.
Qed.

Lemma sub_keys d parent_key sep null_value skip :
  NoDup (leaf_keys d parent_key sep) ->
  NoDup (keys (flat_items d parent_key sep null_value skip)).
Proof.
  unfold leaf_keys, flat_items.
  induction (leaves (VDict d)) as [|[p leaf] l IH]; intros H; cbn [map flat_map].
  - constructor.
  - inversion H as [|? ? Hx Hl]; subst. cbn [fst] in Hx.
    rewrite keys_app. unfold leaf_item at 1. cbn [fst snd].
    match goal with |- context [match ?t with _ => _ end] => destruct t end;
      [|now apply IH].
    cbn [keys map app]. constructor; [|now apply IH].
    intros Hin. apply Hx. unfold keys in Hin. apply in_map_iff in Hin.
    destruct Hin as ([k t] & Heq & Hin). cbn [fst] in Heq.
    apply in_flat_map in Hin.
    destruct Hin as ([p' leaf'] & Hin & Hit). apply in_map_iff.
    exists (p', leaf'). split; [|exact Hin]. cbn [fst].
    unfold leaf_item in Hit. cbn [fst snd] in Hit.
    match type of Hit with
    | In _ (match ?t with _ => _ end) => destruct t
    end; [|contradiction].
    destruct Hit as [[= Hk _]|[]]. congruence.
Qed.

Lemma flatten_is_one_item_per_leaf_aux d parent_key sep null_value skip :
  NoDup (leaf_keys d parent_key sep) ->
  _flatten_config_dict d parent_key sep null_value skip
  = flat_items d parent_key sep null_value skip.
Proof.
  intros H. unfold _flatten_config_dict.
  apply (flatten_value_flat_items (VDict d) d); [reflexivity|].
  now apply sub_keys.
Qed.

(** X10. [_flatten_config_dict] files one item per leaf. In a dictionary
    whose leaves that are written get distinct flat keys, the flat
    dictionary is, in the order of the document, the list of the items of
    the leaves: a list is the comma-joined text of its elements, a null is
    the null value, a boolean is lower case, a string is itself unless it
    is left out, anything else its [str]; and a dictionary with no leaf
    (an empty section) leaves no trace. *)
Theorem flatten_is_one_item_per_leaf (d : dict)
    (parent_key sep null_value : string) (skip_secret_values : bool) :
  NoDup (keys (flat_items d parent_key sep null_value skip_secret_values)) ->
  _flatten_config_dict d parent_key sep null_value skip_secret_values
  = flat_items d parent_key sep null_value skip_secret_values.
Proof.
  intros H. unfold _flatten_config_dict.
  now apply (flatten_value_flat_items (VDict d) d).
Qed.

(** X11. [null_value] and [skip_secret_values] stop at the first level.
    In a dictionary whose leaves get distinct flat keys: a null directly
    under it is written as [null_value], and a string that starts with
    eight asterisks is kept when [skip_secret_values] is [False]; but a
    null inside a nested section is written as the text [None] whatever
    [null_value] is, and a string that starts with eight asterisks inside
    a nested section has no item whatever [skip_secret_values] is. *)
Theorem options_stop_at_the_first_level (d : dict)
    (parent_key sep null_value : string) (skip_secret_values : bool) :
  NoDup (leaf_keys d parent_key sep) ->
  let flat :=
    _flatten_config_dict d parent_key sep null_value skip_secret_values in
  (forall k, dict_get d k = Some VNone ->
     In (flat_key parent_key sep [k], null_value) flat)
  /\ (forall k s, dict_get d k = Some (VStr s) -> skip_secret_values = false ->
        In (flat_key parent_key sep [k], s) flat)
  /\ (forall k k' p, lookup_path (VDict d) (k :: k' :: p) = Some VNone ->
        In (flat_key parent_key sep (k :: k' :: p), "None") flat)
  /\ (forall k k' p s text,
        lookup_path (VDict d) (k :: k' :: p) = Some (VStr s) ->
        startswith s "********" = true ->
        ~ In (flat_key parent_key sep (k :: k' :: p), text) flat).
Proof.
  intros Hn flat. unfold flat.
  rewrite flatten_is_one_item_per_leaf_aux by exact Hn.
  repeat split.
  - intros k Hk. apply in_flat_items. exists [k], VNone. repeat split.
    apply reaches_leaves; [|reflexivity].
    apply (lookup_reaches (VDict d) [k]). cbn. now rewrite Hk.
  - intros k s Hk ->. apply in_flat_items. exists [k], (VStr s). repeat split.
    + apply reaches_leaves; [|reflexivity].
      apply (lookup_reaches (VDict d) [k]). cbn. now rewrite Hk.
    + cbn. now rewrite andb_false_r.
  - intros k k' p Hl. apply in_flat_items. exists (k :: k' :: p), VNone.
    repeat split. apply reaches_leaves; [|reflexivity].
    now apply lookup_reaches.
  - intros k k' p s text Hl Hs Hin. apply in_flat_items in Hin.
    destruct Hin as (p' & leaf' & Hin & Hk & Ht).
    assert (Hl' : In (k :: k' :: p, VStr s) (leaves (VDict d))).
    { apply reaches_leaves; [|reflexivity]. now apply lookup_reaches. }
    assert (E : (k :: k' :: p, VStr s) = (p', leaf')).
    { apply (NoDup_map_eq (fun pl => flat_key parent_key sep (fst pl)) _ _ _
               Hn Hl' Hin). exact Hk. }
    injection E as <- <-. cbn in Ht. rewrite Hs in Ht. discriminate.
Qed.

Lemma insert_sorted_perm (x : string * string) l :
  Permutation (insert_sorted x l) (x :: l).
Proof.
  induction l as [|y l IH]; cbn [insert_sorted]; [reflexivity|].
  destruct (String.leb (fst x) (fst y)); [reflexivity|].
  rewrite IH. apply perm_swap.
Qed.

Lemma sorted_items_perm (l : list (string * string)) :
  Permutation (sorted_items l) l.
Proof.
  induction l as [|x l IH]; cbn [sorted_items fold_right]; [reflexivity|].
  fold (sorted_items l). rewrite insert_sorted_perm. now constructor.
Qed.

Lemma insert_sorted_hd (x a : string * string) l :
  key_le a x -> HdRel key_le a l -> HdRel key_le a (insert_sorted x l).
Proof.
  intros Hax Hal. destruct l as [|y l]; cbn [insert_sorted].
  - now constructor.
  - destruct (String.leb (fst x) (fst y)); constructor; auto.
    now inversion Hal.
Qed.

Lemma insert_sorted_sorted (x : string * string) l :
  Sorted key_le l -> Sorted key_le (insert_sorted x l).
Proof.
  induction l as [|y l IH]; intros Hs; cbn [insert_sorted].
  - repeat constructor.
  - destruct (String.leb (fst x) (fst y)) eqn:E.
    + constructor; [exact Hs|]. now constructor.
    + apply Sorted_inv in Hs. destruct Hs as [Hs Hh].
      constructor; [now apply IH|].
      apply insert_sorted_hd; [|exact Hh]. unfold key_le.
      destruct (String.leb_total (fst x) (fst y)) as [H|H]; congruence.
Qed.

Lemma sorted_items_sorted (l : list (string * string)) :
  Sorted key_le (sorted_items l).
Proof.
  induction l as [|x l IH]; cbn [sorted_items fold_right]; [constructor|].
  now apply insert_sorted_sorted.
Qed.

Lemma flat_config_flat_items (config : AppConfig) :
  flat_config config
  = flat_items (model_dump JsonMode config) "" "__" "None" true.
Proof.
  unfold flat_config. apply flatten_is_one_item_per_leaf_aux.
  apply model_dump_flat_keys.
Qed.

(** X12. The lines of the dotenv export: one for every leaf of the JSON
    dump that is written (a string that starts with eight asterisks is
    not), no key twice, in ascending order of the keys. *)
Theorem dotenv_lines_in_key_order (config : AppConfig) :
  let items := sorted_items (flat_config config) in
  dotenv_lines config = map dotenv_line items
  /\ Sorted key_le items
  /\ Permutation items
       (flat_items (model_dump JsonMode config) "" "__" "None" true)
  /\ NoDup (keys items).
Proof.
  cbv zeta. split; [reflexivity|]. split; [apply sorted_items_sorted|].
  assert (Hp : Permutation (sorted_items (flat_config config))
                 (flat_items (model_dump JsonMode config) "" "__" "None" true)).
  { rewrite <- flat_config_flat_items. apply sorted_items_perm. }
  split; [exact Hp|].
  unfold keys. apply (Permutation_NoDup (l := map fst
    (flat_items (model_dump JsonMode config) "" "__" "None" true))).
  - apply Permutation_map. now symmetry.
  - apply (sub_keys (model_dump JsonMode config) "" "__" "None" true).
    apply model_dump_flat_keys.
Qed.

(** X13. The key that the dotenv export writes for a field is the name of
    the variable that the settings sources read for it: split at the
    delimiter, the flat key of every leaf of a dumped configuration gives
    back the path of the leaf. *)
Theorem exported_keys_split_into_paths (config : AppConfig) :
  Forall (fun pl => split "__" (flat_key "" "__" (fst pl)) = fst pl)
    (leaves (VDict (model_dump JsonMode config))).
Proof.
  destruct config as [sn [dbn sch [u] [pw] h po [ps wc]] [pr ak sk rg] [df] [ll lf ld]].
  destruct pr, ak, sk, df; repeat constructor.
Qed.

End Facts.
(** A dictionary with a nested section, a list and an empty section. *)
Lemma flatten_is_one_item_per_leaf_witness :
  _flatten_config_dict sample_tree "" "__" "null" false
  = [("A__B", "None"); ("A__C", "true"); ("L", "1,2"); ("N", "null");
     ("S", "********")].
Proof.
  rewrite (flatten_is_one_item_per_leaf sample_tree "" "__" "null" false).
  - reflexivity.
  - apply distinctb_NoDup. reflexivity.
Defined.

Lemma options_stop_at_the_first_level_witness :
  In ("N", "null") (_flatten_config_dict sample_tree "" "__" "null" false)
  /\ In ("A__B", "None") (_flatten_config_dict sample_tree "" "__" "null" false)
  /\ In ("S", "********") (_flatten_config_dict sample_tree "" "__" "null" false)
  /\ ~ In ("A__D", "********x")
         (_flatten_config_dict sample_tree "" "__" "null" false).
Proof.
  destruct (options_stop_at_the_first_level sample_tree "" "__" "null" false)
    as (H1 & H2 & H3 & H4).
  - apply distinctb_NoDup. reflexivity.
  - split; [apply (H1 "N"); reflexivity|].
    split; [apply (H3 "A" "B" []); reflexivity|].
    split; [apply (H2 "S" "********"); reflexivity|].
    apply (H4 "A" "D" [] "********x" "********x"); reflexivity.
Defined.

End FlattenFacts.

(** ** What the exports show of the secrets *)
Module SecretFacts.
Import Py Models Exn Env Loader Exporter Notions Samples.
Import DictFacts ExportFacts FlattenFacts.
Section Facts.
Context {R : Runtime}.

(** A leaf of the JSON dump that is written has its item in the flat
    dictionary of the dotenv export. *)
Lemma written_leaf_item (config : AppConfig) (p : list string) (leaf : value)
    (text : string) :
  lookup_path (VDict (model_dump JsonMode config)) p = Some leaf ->
  is_dict leaf = false ->
  leaf_text "None" true leaf = Some text ->
  In (flat_key "" "__" p, text) (sorted_items (flat_config config)).
Proof.
  intros Hl Hd Ht. apply in_sorted_items. rewrite flat_config_flat_items.
  apply in_flat_items. exists p, leaf.
  apply lookup_reaches in Hl. apply reaches_leaves in Hl; [|exact Hd].
  split; [exact Hl|]. split; [reflexivity|].
  destruct p as [|a [|b p]]; exact Ht.
Qed.

Lemma written_item_line (config : AppConfig) (k text : string) :
  In (k, text) (sorted_items (flat_config config)) ->
  In (dotenv_line (k, text)) (dotenv_lines config).
Proof. intros H. unfold dotenv_lines. now apply in_map. Qed.

(** C8, amended. The two exports of a configuration are those of the
    configuration with every secret replaced by its display. For every
    secret field, of every configuration: a secret that is set and not
    empty is the mask in the YAML document and has no item in the dotenv
    export; one that is not set is a null in the YAML document and the
    text [None] in the dotenv export; an empty one is the empty text in
    both. A list becomes the comma-joined text of its elements in the flat
    dictionary, and stays a list in the YAML document, which is the JSON
    dump itself. *)
Theorem exports_show_no_secret (config : AppConfig) :
  (yaml_document (redact config) = yaml_document config
   /\ dotenv_lines (redact config) = dotenv_lines config)
  /\ (forall p o, In (p, o) (secret_fields config) ->
        lookup_path (VDict (yaml_document config)) p
        = Some (dump_option (fun x => VStr (secret_str x)) o)
        /\ (forall x, o = Some x -> get_secret_value x <> "" ->
             lookup_path (VDict (yaml_document config)) p
             = Some (VStr SECRET_MASK)
             /\ forall v, ~ In (flat_key "" "__" p, v)
                              (sorted_items (flat_config config)))
        /\ (o = None ->
            lookup_path (VDict (yaml_document config)) p = Some VNone
            /\ In (flat_key "" "__" p, "None")
                  (sorted_items (flat_config config))
            /\ In (flat_key "" "__" p ++ "=None" ++ newline)
                  (dotenv_lines config))
        /\ (forall x, o = Some x -> get_secret_value x = "" ->
            lookup_path (VDict (yaml_document config)) p = Some (VStr "")
            /\ In (flat_key "" "__" p, "")
                  (sorted_items (flat_config config))
            /\ In (flat_key "" "__" p ++ "=" ++ newline)
                  (dotenv_lines config)))
  /\ (forall (d : dict) parent_key sep null_value skip key l,
        In (key, VList l) d ->
        NoDup (keys (raw_items d parent_key sep null_value skip)) ->
        In (new_key_of parent_key sep key, join "," (map py_str l))
           (_flatten_config_dict d parent_key sep null_value skip))
  /\ yaml_document config = model_dump JsonMode config.
Proof.
  split; [split|split; [|split]].
  - unfold yaml_document. apply model_dump_json_redact.
  - unfold dotenv_lines, flat_config. now rewrite model_dump_json_redact.
  - intros p o Hin.
    assert (Hdump : lookup_path (VDict (model_dump JsonMode config)) p
                    = Some (dump_option (fun x => VStr (secret_str x)) o))
      by now rewrite (secret_field_dump JsonMode config p o).
    split; [exact Hdump|]. split; [|split].
    + intros x -> Hx. cbn [dump_option] in Hdump. unfold secret_str in Hdump.
      rewrite (secret_display_mask _ Hx) in Hdump.
      split; [exact Hdump|]. intros v.
      now apply starred_field_absent with (s := SECRET_MASK).
    + intros ->. cbn [dump_option] in Hdump. split; [exact Hdump|].
      assert (Hitem : In (flat_key "" "__" p, "None")
                         (sorted_items (flat_config config)))
        by now apply (written_leaf_item config p VNone).
      split; [exact Hitem|]. now apply written_item_line in Hitem.
    + intros x -> Hx. cbn [dump_option] in Hdump. unfold secret_str in Hdump.
      rewrite Hx in Hdump. change (secret_display "") with "" in Hdump.
      split; [exact Hdump|].
      assert (Hitem : In (flat_key "" "__" p, "")
                         (sorted_items (flat_config config)))
        by now apply (written_leaf_item config p (VStr "")).
      split; [exact Hitem|]. now apply written_item_line in Hitem.
  - intros d parent_key sep null_value skip key l Hin Hn.
    unfold _flatten_config_dict. rewrite flatten_value_dict.
    rewrite (dict_of_items_distinct _ Hn). now apply list_entry_items.
  - reflexivity.
Qed.

End Facts.

(** C8, as stated, fails: an access key that is not set is written as a
    null and as the text [None], and an empty user name is written as it
    is, neither masked nor left out. *)
Lemma unset_and_empty_secrets_are_written :
  let c := sample_config "svc" "" in
  lookup_path (VDict (yaml_document c)) ["AWS_CONFIG"; "AWS_ACCESS_KEY_ID"]
    = Some VNone
  /\ In ("AWS_CONFIG__AWS_ACCESS_KEY_ID=None" ++ newline) (dotenv_lines c)
  /\ lookup_path (VDict (yaml_document c)) ["DB"; "USERNAME"]
     = Some (VStr (get_secret_value (USERNAME (DB c))))
  /\ In ("DB__USERNAME=" ++ newline) (dotenv_lines c).
Proof. vm_compute. intuition. Qed.

Lemma exports_show_no_secret_witness :
  lookup_path (VDict (yaml_document (sample_config "svc" "admin")))
    ["DB"; "USERNAME"] = Some (VStr SECRET_MASK)
  /\ (forall v, ~ In ("DB__USERNAME", v)
                     (sorted_items (flat_config (sample_config "svc" "admin"))))
  /\ In ("AWS_CONFIG__AWS_ACCESS_KEY_ID=None" ++ newline)
        (dotenv_lines (sample_config "svc" "admin")).
Proof.
  destruct (exports_show_no_secret (sample_config "svc" "admin"))
    as (_ & H & _).
  destruct (H ["DB"; "USERNAME"] (Some {| get_secret_value := "admin" |}))
    as (_ & H' & _); [simpl; now left|].
  destruct (H ["AWS_CONFIG"; "AWS_ACCESS_KEY_ID"] None)
    as (_ & _ & Hn & _); [simpl; tauto|].
  destruct (H' _ eq_refl) as [Hm Ha]; [simpl; discriminate|].
  split; [exact Hm|]. split; [exact Ha|]. apply (Hn eq_refl).
Defined.

End SecretFacts.

(** ** What every constructed configuration satisfies *)
Module ModelFacts.
Import Py Models Exn Env Validation Settings Loader Notions Samples.
Import DictFacts MergeFacts SourceFacts ValidationFacts StrictFacts.
Import NestingFacts.
Section Facts.
Context {R : Runtime} (w : World).

Lemma default_AWSConfig_fails c :
  default_factory "AWSConfig" validate_AWSConfig <> Valid c.
Proof. discriminate. Qed.

(** X14. A configuration that is constructed can authenticate: its AWS
    section has a profile or both access keys, so that one of
    [use_profile_auth] and [use_key_auth] is true; in particular the
    section is never the one built from nothing. *)
Theorem constructed_configuration_can_authenticate (data : dict)
    (cfg : AppConfig) :
  BaseSettings_init w data = Ok cfg ->
  use_profile_auth (AWS_CONFIG cfg) || use_key_auth (AWS_CONFIG cfg) = true.
Proof.
  intros H. destruct (BaseSettings_init_valid w _ _ H) as (values & Hv & _).
  destruct (validate_AppConfig_fields_inv w _ _ Hv) as (_ & _ & Ha & _).
  apply field_valid in Ha.
  destruct (dict_get values "AWS_CONFIG") as [v|];
    [|now apply default_AWSConfig_fails in Ha].
  destruct (validate_AWSConfig_inv _ _ Ha) as (d & _ & Hc & _).
  unfold validate_auth_config in Hc. unfold use_profile_auth, use_key_auth.
  destruct (is_some (AWS_PROFILE (AWS_CONFIG cfg))); [reflexivity|].
  destruct (is_some (AWS_ACCESS_KEY_ID (AWS_CONFIG cfg))
            && is_some (AWS_SECRET_ACCESS_KEY (AWS_CONFIG cfg)));
    [reflexivity|discriminate].
Qed.

(** X15. [RequiredFile] checks what is supplied, not the default. In a
    configuration that is constructed, [DATA_FILE_1] is either the default,
    the text [pyproject.toml] as it stands in the class (no source gave the
    field, and nothing was looked up), or the path that
    [convert_to_absolute_path] made of the supplied value, and then a
    regular file exists there. *)
Theorem required_file_exists_unless_default (data : dict) (cfg : AppConfig) :
  BaseSettings_init w data = Ok cfg ->
  DATA_FILE_1 (LOOKUP_DATA cfg) = PStr "pyproject.toml"
  \/ exists supplied,
       DATA_FILE_1 (LOOKUP_DATA cfg)
       = PPath (convert_to_absolute_path w supplied)
       /\ path_is_file w (convert_to_absolute_path w supplied) = true
       /\ path_exists w (convert_to_absolute_path w supplied) = true.
Proof.
  intros H. destruct (BaseSettings_init_valid w _ _ H) as (values & Hv & _).
  destruct (validate_AppConfig_fields_inv w _ _ Hv) as (_ & _ & _ & Hl & _).
  apply field_valid in Hl.
  assert (Hfield : forall d,
            field d "DATA_FILE_1" (RequiredFile w) (Valid DATA_FILE_1_default)
            = Valid (DATA_FILE_1 (LOOKUP_DATA cfg)) ->
            DATA_FILE_1 (LOOKUP_DATA cfg) = PStr "pyproject.toml"
            \/ exists supplied,
                 DATA_FILE_1 (LOOKUP_DATA cfg)
                 = PPath (convert_to_absolute_path w supplied)
                 /\ path_is_file w (convert_to_absolute_path w supplied) = true
                 /\ path_exists w (convert_to_absolute_path w supplied) = true).
  { intros d Hf. apply field_valid in Hf.
    destruct (dict_get d "DATA_FILE_1") as [x|]; [|left; now injection Hf].
    right.
    assert (Hs : forall s, assert_file_exists w (convert_to_absolute_path w s)
                           = Valid (DATA_FILE_1 (LOOKUP_DATA cfg)) ->
              DATA_FILE_1 (LOOKUP_DATA cfg) = PPath (convert_to_absolute_path w s)
              /\ path_is_file w (convert_to_absolute_path w s) = true
              /\ path_exists w (convert_to_absolute_path w s) = true).
    { intros s. unfold assert_file_exists.
      destruct (path_is_file w _) eqn:E1, (path_exists w _) eqn:E2;
        try discriminate. intros [= <-]. auto. }
    destruct x; simpl in Hf; try discriminate;
      (eexists; apply Hs; exact Hf). }
  destruct (dict_get values "LOOKUP_DATA") as [v|].
  - destruct (validate_LookupDataConfig_inv w _ _ Hl) as (d & _ & Hf).
    now apply (Hfield d).
  - unfold default_factory in Hl. cbn in Hl. left. now injection Hl as <-.
Qed.



(** X18. The text that the exports write for an integer is read back as
    that integer by an integer field. *)
Theorem integer_text_reads_back (z : Z) :
  int_type (VStr (py_str (VInt z))) = Valid z.
Proof.
  cbn. unfold int_of_str, str_of_int. rewrite NilZero.isi.
  - cbn. now rewrite DecimalZ.of_to.
  - destruct z; cbn; try discriminate.
    intros [= H]. now apply Unsigned.to_uint_nonnil in H.
  - destruct z; cbn; try discriminate.
    intros [= H]. now apply Unsigned.to_uint_nonnil in H.
Qed.

Lemma loaded_init cfg :
  loaded w = Ok cfg -> BaseSettings_init w (yaml_kwargs w) = Ok cfg.
Proof.
  unfold loaded, yaml_kwargs, AppConfig_init.
  destruct (fst (load_config_yaml w "config.yaml" initial_state));
    try discriminate; cbn [dict_get fst]; try (intros H; exact H).
  destruct (dict_get d "self"); [discriminate|]. intros H. exact H.
Qed.

(** X19. Precedence, at the entry point. For every field that is read
    under its own name (all but the three of the AWS section that have
    aliases), the configuration that the surroundings determine has, at
    the path of the field, what the validation makes of the value of the
    first source to have the path, and the default of the field when no
    source has it. When the YAML document holds no parameter of the
    constructor of the settings class, the sources are, in this order, the
    secrets directory, the environment, the dotenv file of the class and
    the YAML document. When it holds some (a key [_env_file] sends the
    dotenv source to another file), they are the secrets, environment and
    dotenv sources that the parameters select, and the rest of the YAML
    document. *)
Theorem loaded_field_comes_from_first_source (cfg : AppConfig) (r : leaf_rule) :
  loaded w = Ok cfg ->
  In r (leaf_rules w) ->
  (init_options (yaml_kwargs w) = [] ->
   exists sec env dot,
     file_secret_settings w = Ok sec
     /\ env_settings w = Ok env
     /\ dotenv_settings w = Ok dot
     /\ lookup_path (VDict (model_dump PythonMode cfg)) (rule_path r)
        = match first_supplied [sec; env; dot; yaml_kwargs w] (rule_path r) with
          | Some x => rule_coerce r x
          | None => Some (rule_default r)
          end)
  /\ exists sec env dot,
       settings_sources w (init_options (yaml_kwargs w)) = (Ok env, Ok dot, Ok sec)
       /\ (Forall (fun s => proper (VDict s)) [sec; env; dot] ->
           lookup_path (VDict (model_dump PythonMode cfg)) (rule_path r)
           = match first_supplied
                     [sec; env; dot; init_values (yaml_kwargs w)] (rule_path r)
             with
             | Some x => rule_coerce r x
             | None => Some (rule_default r)
             end).
Proof.
  intros Hl Hr. pose proof (loaded_init cfg Hl) as Hi. split.
  - intros Hn.
    destruct (BaseSettings_init_inv w _ _ Hn Hi) as (values & Hb & _ & _).
    destruct (build_values_sources w _ _ Hb)
      as (sec & env & dot & Hs & He & Hd & _ & _).
    exists sec, env, dot. repeat split; auto.
    now apply (precedence_by_field_name w (yaml_kwargs w) cfg sec env dot r).
  - pose proof Hi as Hi'. unfold BaseSettings_init in Hi'.
    destruct (_settings_build_values w (init_options (yaml_kwargs w))
                (init_values (yaml_kwargs w))) as [values|] eqn:Hb;
      [|discriminate].
    destruct (build_values_from w _ _ _ Hb) as (sec & env & dot & Hsrc & _).
    exists sec, env, dot. split; [exact Hsrc|]. intros Hp.
    now apply (precedence_of_sources w (yaml_kwargs w) cfg sec env dot r).
Qed.

Lemma prefix_app_l a b s :
  String.prefix (a ++ b) s = true -> String.prefix a s = true.
Proof.
  revert s. induction a as [|c a IH]; intros s H; [now destruct s|].
  destruct s as [|c' s]; [discriminate|]. cbn in H |- *.
  destruct (Ascii.ascii_dec c c'); [now apply IH|discriminate].
Qed.

Lemma dotenv_used_false name :
  dotenv_used w name = false ->
  ~ In name AppConfig_fields
  /\ forall f, In f ["DB"; "AWS_CONFIG"; "LOOKUP_DATA"; "LOGGING"] ->
               startswith name (f ++ "__") = false.
Proof.
  unfold dotenv_used, AppConfig_fields. cbn [existsb field_is_complex].
  change (env_nested_delimiter (config w)) with "__".
  intros H. repeat (apply orb_false_elim in H; destruct H as [? H]).
  cbn [andb] in *.
  repeat match goal with
         | H : _ || _ = false |- _ =>
             apply orb_false_elim in H; destruct H
         end.
  split.
  - cbn [In]. intros Hin.
    repeat (destruct Hin as [<-|Hin];
            [rewrite String.eqb_refl in *; discriminate|]).
    contradiction.
  - intros f Hf. cbn [In] in Hf.
    repeat (destruct Hf as [<-|Hf]; [assumption|]). contradiction.
Qed.

Lemma dotenv_extra_adds l : forall data name value,
  In (name, value) l -> value <> "" -> dotenv_used w name = false ->
  exists v, dict_get (fold_left (dotenv_extra w) l data) name = Some v.
Proof.
  induction l as [|[n x] l IH]; intros data name value Hin Hv Hu;
    [contradiction|].
  cbn [fold_left]. destruct Hin as [[= -> ->]|Hin];
    [|now apply (IH _ name value)].
  assert (H : exists v, dict_get (dotenv_extra w data (name, value)) name = Some v).
  { unfold dotenv_extra.
    destruct (String.eqb_spec value ""); [contradiction|]. cbn [orb].
    destruct (dict_get data name) as [v|] eqn:E; cbn [is_some].
    - rewrite E. now exists v.
    - rewrite Hu. eexists. apply dict_get_set_eq. }
  destruct H as (v & H). exists v.
  now apply (NestingFacts.dotenv_extra_keeps w).
Qed.

Lemma explode_skips f name value l acc :
  startswith name (f ++ "__") = false ->
  fold_left (explode_one w f) ((name, value) :: l) (Ok acc)
  = fold_left (explode_one w f) l (Ok acc).
Proof.
  intros H. cbn [fold_left]. f_equal. unfold explode_one. cbn [bind].
  change (env_nested_delimiter (config w)) with "__". now rewrite H.
Qed.

Lemma env_field_value_skips name value vars f :
  dotenv_used w name = false -> In f AppConfig_fields ->
  env_field_value w ((name, value) :: vars) f = env_field_value w vars f.
Proof.
  intros Hu Hf. destruct (dotenv_used_false name Hu) as [Hn Hp].
  assert (Hne : name <> f) by (intros ->; contradiction).
  unfold env_field_value. cbn [dict_get].
  destruct (String.eqb_spec name f); [contradiction|].
  unfold AppConfig_fields in Hf. cbn [In] in Hf.
  destruct Hf as [<-|Hf]; [reflexivity|].
  assert (Hx : explode_env_vars w f ((name, value) :: vars)
               = explode_env_vars w f vars).
  { unfold explode_env_vars. apply explode_skips. apply Hp. exact Hf. }
  now rewrite Hx.
Qed.

(** X20. A variable that no field reads is harmless in the environment and
    fatal in the dotenv file of the class. When that file gives a value
    that is not empty to a name that is no field and does not start with
    the name of a section and the delimiter, every construction that is
    given no parameter of the constructor fails (one that is given
    [_env_file=None] does not read the file); the same variable added to
    the environment changes nothing to such a construction. *)
Theorem stray_variable_fails_only_in_dotenv (name value : string) :
  value <> "" ->
  dotenv_used w name = false ->
  (In (name, value) (dotenv_vars w) ->
   forall data, init_options data = [] ->
                is_ok (BaseSettings_init w data) = false)
  /\ (forall data,
        init_options data = [] ->
        BaseSettings_init (with_environ w ((name, value) :: environ w)) data
        = BaseSettings_init w data).
Proof.
  intros Hv Hu. split.
  - intros Hin data Hn. rewrite (BaseSettings_init_plain w data Hn).
    destruct (_settings_build_values w [] data) as [values|] eqn:Hb;
      [|reflexivity].
    cbn [bind]. destruct (build_values_inv w _ _ Hb)
      as (sec & env & dot & _ & _ & Hd & ->).
    assert (Hk : In name (keys dot)).
    { unfold dotenv_settings in Hd.
      destruct (source_call _) as [d0|]; [|discriminate].
      cbn [bind] in Hd. injection Hd as <-.
      destruct (dotenv_extra_adds (dotenv_vars w) d0 name value Hin Hv Hu)
        as (v & Hget).
      apply dict_get_in in Hget. now apply in_keys in Hget. }
    assert (Hm : In name (keys (deep_update data (merge_sources [sec; env; dot] [])))).
    { apply deep_update_keys. right. cbn [merge_sources fold_left].
      apply deep_update_keys. now left. }
    unfold keys in Hm. apply in_map_iff in Hm.
    destruct Hm as ([k v] & Hkv & Hm). cbn [fst] in Hkv. subst k.
    destruct (dotenv_used_false name Hu) as [Hn' _].
    unfold validate_AppConfig. cbn [config DEFAULT_CONFIG_SETTINGS extra check_extra].
    destruct (forbid_extra_listed AppConfig_fields _
                (validate_AppConfig_fields w
                   (deep_update data (merge_sources [sec; env; dot] [])))
                name v Hm Hn') as [Hnv _].
    destruct (forbid_extra _ _ _); try reflexivity. discriminate.
  - intros data Hn.
    assert (He : env_settings (with_environ w ((name, value) :: environ w))
                 = env_settings w).
    { unfold env_settings, source_call. cbn [environ with_environ].
      unfold AppConfig_fields. cbn [fold_left].
      change (env_field_value (with_environ w ((name, value) :: environ w)))
        with (env_field_value w).
      rewrite !(env_field_value_skips name value (environ w)) by
        (assumption || (unfold AppConfig_fields; cbn [In]; tauto)).
      reflexivity. }
    rewrite !BaseSettings_init_plain by exact Hn.
    unfold _settings_build_values, settings_sources. rewrite He. reflexivity.
Qed.

End Facts.
Lemma constructed_configuration_can_authenticate_witness :
  exists cfg,
    BaseSettings_init world_ok [] = Ok cfg
    /\ use_profile_auth (AWS_CONFIG cfg) || use_key_auth (AWS_CONFIG cfg) = true.
Proof.
  destruct (BaseSettings_init world_ok []) as [cfg|e] eqn:E;
    [|vm_compute in E; discriminate].
  exists cfg. split; [reflexivity|].
  exact (constructed_configuration_can_authenticate world_ok [] cfg E).
Defined.

Lemma required_file_exists_unless_default_witness :
  exists cfg,
    BaseSettings_init world_ok
      [("LOOKUP_DATA", VDict [("DATA_FILE_1", VStr ".env")])] = Ok cfg
    /\ DATA_FILE_1 (LOOKUP_DATA cfg) = PPath "/app/.env".
Proof.
  destruct (BaseSettings_init world_ok
              [("LOOKUP_DATA", VDict [("DATA_FILE_1", VStr ".env")])])
    as [cfg|e] eqn:E; [|vm_compute in E; discriminate].
  exists cfg. split; [reflexivity|].
  destruct (required_file_exists_unless_default world_ok _ cfg E)
    as [H|(s & H & _)].
  - vm_compute in E. injection E as <-. discriminate.
  - vm_compute in E. injection E as <-. reflexivity.
Defined.



Lemma loaded_field_comes_from_first_source_witness :
  exists cfg,
    loaded world_port = Ok cfg
    /\ lookup_path (VDict (model_dump PythonMode cfg)) ["DB"; "PORT"]
       = Some (VInt 9999).
Proof.
  destruct (loaded world_port) as [cfg|e] eqn:E;
    [|vm_compute in E; discriminate].
  exists cfg. split; [reflexivity|].
  destruct (loaded_field_comes_from_first_source world_port cfg
              {| rule_path := ["DB"; "PORT"];
                 rule_coerce := as_dump int_type VInt;
                 rule_default := VInt (PORT DBConfig_default) |} E)
    as [H _].
  - unfold leaf_rules. do 6 right. now left.
  - destruct (H eq_refl) as (sec & env & dot & Hs & He & Hd & H').
    cbn [rule_path rule_coerce rule_default] in H'. rewrite H'.
    vm_compute in Hs, He, Hd.
    injection Hs as <-. injection He as <-. injection Hd as <-.
    reflexivity.
Defined.

(** The stray variable in the dotenv file makes the plain construction
    fail; the construction of the tests, with [_env_file=None], returns;
    the variable in the environment changes nothing. *)
Lemma stray_variable_fails_only_in_dotenv_witness :
  is_ok (BaseSettings_init world_stray []) = false
  /\ is_ok (BaseSettings_init world_stray [("_env_file", VNone)]) = true
  /\ BaseSettings_init (with_environ world_ok
                          (("EDITOR", "vi") :: environ world_ok)) []
     = BaseSettings_init world_ok [].
Proof.
  destruct (stray_variable_fails_only_in_dotenv world_stray "EDITOR" "vi")
    as [H _]; [discriminate|reflexivity|].
  destruct (stray_variable_fails_only_in_dotenv world_ok "EDITOR" "vi")
    as [_ H']; [discriminate|reflexivity|].
  split; [apply H; [now left|reflexivity]|].
  split; [vm_compute; reflexivity|now apply H'].
Defined.

End ModelFacts.

(** ** The report of the sources *)
Module ReportFacts.
Import Py Models Exn Env Validation Settings Loader Notions Samples.

Lemma append_empty s : s ++ "" = s.
Proof. induction s as [|c s IH]; cbn; [reflexivity|now rewrite IH]. Qed.

Lemma append_char cur c a : (cur ++ String c "") ++ a = cur ++ String c a.
Proof. induction cur as [|x cur IH]; cbn; [reflexivity|now rewrite IH]. Qed.

Lemma append_assoc (a b c : string) : (a ++ b) ++ c = a ++ b ++ c.
Proof. induction a as [|x a IH]; cbn; [reflexivity|now rewrite IH]. Qed.

Lemma split_from_line a : forall rest cur,
  single_line a = true ->
  split_from newline (a ++ rest) 0 cur = split_from newline rest 0 (cur ++ a).
Proof.
  induction a as [|c a IH]; intros rest cur H.
  - cbn. now rewrite append_empty.
  - cbn in H. apply andb_prop in H. destruct H as [Hc Ha].
    cbn [append split_from]. unfold newline at 1. cbn [String.prefix].
    destruct (Ascii.ascii_dec (ascii_of_nat 10) c) as [<-|Hne].
    + rewrite Ascii.eqb_refl in Hc. discriminate.
    + rewrite (IH rest (cur ++ String c "") Ha). now rewrite append_char.
Qed.

Lemma split_from_break rest cur :
  split_from newline (newline ++ rest) 0 cur
  = cur :: split_from newline rest 0 "".
Proof. destruct rest; reflexivity. Qed.

(** A text that starts with a line, then a line break. *)
Lemma split_line a rest :
  single_line a = true ->
  split newline (a ++ newline ++ rest) = a :: split newline rest.
Proof.
  intros H. unfold split. rewrite (split_from_line a _ "" H).
  now rewrite split_from_break.
Qed.

Lemma split_last a :
  single_line a = true -> split newline a = [a].
Proof.
  intros H. unfold split. rewrite <- (append_empty a) at 1.
  now rewrite (split_from_line a "" "" H).
Qed.

Lemma single_line_app a b :
  single_line (a ++ b) = single_line a && single_line b.
Proof.
  unfold single_line.
  induction a as [|c a IH]; cbn [append list_ascii_of_string forallb];
    [reflexivity|].
  now rewrite IH, andb_assoc.
Qed.

Lemma upper_ascii_break c :
  Ascii.eqb (upper_ascii c) (ascii_of_nat 10) = Ascii.eqb c (ascii_of_nat 10).
Proof.
  destruct c as [[] [] [] [] [] [] [] []]; reflexivity.
Qed.

Lemma single_line_upper s : single_line (upper s) = single_line s.
Proof.
  unfold single_line, upper.
  induction s as [|c s IH]; cbn [map_string list_ascii_of_string forallb];
    [reflexivity|].
  now rewrite IH, upper_ascii_break.
Qed.

Lemma single_line_spaces n : single_line (spaces n) = true.
Proof. induction n as [|n IH]; cbn; [reflexivity|exact IH]. Qed.

Lemma single_line_source_text source :
  single_line (source_type source) = true ->
  single_line (description source) = true ->
  single_line (source_text source) = true.
Proof.
  intros Ht Hd. unfold source_text, rjust.
  rewrite !single_line_app, single_line_upper, single_line_spaces, Ht, Hd.
  destruct (available source); reflexivity.
Qed.

Lemma concat_cons x l :
  String.concat "" (x :: l) = x ++ String.concat "" l.
Proof. destruct l; cbn; [now rewrite append_empty|reflexivity]. Qed.

Lemma split_source_lines sources tail :
  Forall (fun source => single_line (source_type source) = true
                        /\ single_line (description source) = true) sources ->
  forall first,
  single_line first = true ->
  split newline (first ++ String.concat "" (map source_line sources)
                   ++ newline ++ tail)
  = (first :: map source_text sources ++ split newline tail)%list.
Proof.
  induction 1 as [|source sources [Ht Hd] _ IH]; intros first Hf.
  - cbn [map String.concat append app]. now apply split_line.
  - cbn [map]. 
    assert (E : String.concat "" (source_line source :: map source_line sources)
                = newline ++ source_text source
                    ++ String.concat "" (map source_line sources)).
    { rewrite concat_cons. unfold source_line, source_text.
      now rewrite !append_assoc. }
    rewrite E. rewrite !append_assoc. rewrite (split_line first _ Hf).
    cbn [app]. f_equal.
    apply IH. now apply single_line_source_text.
Qed.

(** X21. [print_config_sources] logs at level [INFO]: one record when the
    root logger is at [INFO] or [DEBUG], nothing when it is at [WARNING]
    (as it is before any setup) or above; the level of the root logger is
    left as it is. The text of the record: with no tracked source it is
    the one line that says so. Otherwise, when no type and no description
    of a source has a line break in it, the report is, line by line: the
    heading, a rule, one line for every tracked source in the order of the
    tracking (its type in upper case, whether it is available, its
    description), a rule, and the line of the priority order. *)
Theorem report_has_one_line_per_source (st : State) :
  Forall (fun source => single_line (source_type source) = true
                        /\ single_line (description source) = true)
    (get_config_sources st) ->
  root_level (print_config_sources st) = root_level st
  /\ exists report,
       log (print_config_sources st)
       = (log st
          ++ if (levelno (root_level st) <=? levelno INFO)%nat
             then [("INFO", report)] else [])%list
       /\ split newline report
          = match get_config_sources st with
            | [] => ["No configuration sources tracked."]
            | sources => report_lines sources
            end.
Proof.
  intros H. unfold print_config_sources.
  destruct (get_config_sources st) as [|source sources] eqn:E.
  - rewrite LoadFacts.emit_root_level, LoadFacts.emit_log.
    split; [reflexivity|]. eexists. split.
    + unfold isEnabledFor. destruct (_ <=? _)%nat;
        [reflexivity|now rewrite app_nil_r].
    + reflexivity.
  - rewrite LoadFacts.emit_root_level, LoadFacts.emit_log.
    split; [reflexivity|]. eexists. split.
    + unfold isEnabledFor. destruct (_ <=? _)%nat;
        [reflexivity|now rewrite app_nil_r].
    + rewrite split_line by reflexivity.
      rewrite (split_source_lines (source :: sources) _ H rule eq_refl).
      reflexivity.
Qed.

(** A root logger set up with the default configuration is at [INFO]: the
    report is logged, in five lines for one source. Before any setup the
    root logger is at [WARNING]: nothing is logged. *)
Lemma report_has_one_line_per_source_witness :
  let st := track_config_source "yaml" "/app/config.yaml" false
              "YAML configuration file: config.yaml" initial_state in
  (exists report,
     log (print_config_sources (setup_logging LoggingConfig_default st))
     = [("INFO", report)]
     /\ List.length (split newline report) = 5%nat)
  /\ log (print_config_sources st) = [].
Proof.
  cbv zeta. split.
  - destruct (report_has_one_line_per_source
                (setup_logging LoggingConfig_default
                   (track_config_source "yaml" "/app/config.yaml" false
                      "YAML configuration file: config.yaml" initial_state)))
      as (_ & report & Hl & Hs).
    + repeat constructor.
    + exists report. split; [exact Hl|]. rewrite Hs. reflexivity.
  - destruct (report_has_one_line_per_source
                (track_config_source "yaml" "/app/config.yaml" false
                   "YAML configuration file: config.yaml" initial_state))
      as (_ & report & Hl & _).
    + repeat constructor.
    + exact Hl.
Defined.

End ReportFacts.

(** ** Leaves that share a flat key *)
Module CollisionFacts.
Import Py Models Exn Env Settings Loader Exporter Notions Samples DictFacts ExportFacts FlattenFacts.
Section Facts.
Context {R : Runtime}.

Lemma last_item_app (l1 l2 : list (string * string)) k :
  last_item (l1 ++ l2)%list k
  = match last_item l2 k with
    | Some v => Some v
    | None => last_item l1 k
    end.
Proof.
  unfold last_item. rewrite rev_app_distr.
  induction (rev l2) as [|[k' v'] l IH]; cbn [app dict_get]; [reflexivity|].
  destruct (k' =? k); [reflexivity|exact IH].
Qed.

Lemma dict_get_app (l1 l2 : list (string * string)) k :
  dict_get (l1 ++ l2)%list k
  = match dict_get l1 k with
    | Some v => Some v
    | None => dict_get l2 k
    end.
Proof.
  induction l1 as [|[k' v'] l IH]; cbn [app dict_get]; [reflexivity|].
  destruct (k' =? k); [reflexivity|exact IH].
Qed.

Lemma last_item_one k' v' k :
  last_item [(k', v')] k = if k' =? k then Some v' else None.
Proof. reflexivity. Qed.

Lemma last_item_distinct (l : list (string * string)) k :
  NoDup (keys l) -> last_item l k = dict_get l k.
Proof.
  induction l as [|[k' v'] l IH]; intros Hn; [reflexivity|].
  inversion Hn as [|? ? Hx Hl]; subst.
  change ((k', v') :: l) with ([(k', v')] ++ l)%list.
  rewrite last_item_app, (IH Hl), last_item_one. cbn [app dict_get].
  destruct (String.eqb_spec k' k) as [->|Hne].
  - destruct (dict_get l k) eqn:E; [|reflexivity].
    exfalso. apply Hx. apply dict_get_in in E. now apply in_keys in E.
  - now destruct (dict_get l k).
Qed.

Lemma fold_dict_set_get (l : list (string * string)) : forall acc k,
  dict_get (fold_left (fun acc kv => dict_set acc (fst kv) (snd kv)) l acc) k
  = match last_item l k with
    | Some v => Some v
    | None => dict_get acc k
    end.
Proof.
  induction l as [|[k' v'] l IH]; intros acc k; cbn [fold_left]; [reflexivity|].
  rewrite IH. change ((k', v') :: l) with ([(k', v')] ++ l)%list.
  rewrite last_item_app. destruct (last_item l k); [reflexivity|].
  rewrite last_item_one. cbn [fst snd].
  destruct (String.eqb_spec k' k) as [->|Hne].
  - apply dict_get_set_eq.
  - now apply dict_get_set_ne.
Qed.

Lemma dict_of_items_get (l : list (string * string)) k :
  dict_get (dict_of_items l) k = last_item l k.
Proof.
  unfold dict_of_items. rewrite fold_dict_set_get.
  now destruct (last_item l k).
Qed.

Lemma NoDup_dict_of_items (l : list (string * string)) :
  NoDup (keys (dict_of_items l)).
Proof.
  unfold dict_of_items.
  assert (H : forall acc, NoDup (keys acc) ->
            NoDup (keys (fold_left (fun acc kv => dict_set acc (fst kv) (snd kv))
                           l acc))).
  { induction l as [|kv l IH]; intros acc Ha; cbn [fold_left]; [exact Ha|].
    apply IH. now apply NoDup_dict_set. }
  apply H. constructor.
Qed.

Lemma last_item_flat_map {A : Type} (f g : A -> list (string * string)) l k :
  (forall x, In x l -> last_item (f x) k = last_item (g x) k) ->
  last_item (flat_map f l) k = last_item (flat_map g l) k.
Proof.
  induction l as [|x l IH]; intros H; cbn [flat_map]; [reflexivity|].
  rewrite !last_item_app, IH by (intros y Hy; apply H; now right).
  now rewrite (H x) by now left.
Qed.

Lemma flatten_value_last (v : value) :
  forall d parent_key sep null_value skip k,
  v = VDict d ->
  dict_get (flatten_value v parent_key sep null_value skip) k
  = last_item (flat_items d parent_key sep null_value skip) k.
Proof.
  induction v as [| | | | | | |d0 IH] using value_nested_ind;
    intros d parent_key sep null_value skip k Hv; try discriminate.
  injection Hv as <-.
  rewrite flatten_value_dict, dict_of_items_get, flat_items_entries.
  unfold raw_items. apply last_item_flat_map.
  intros [key v] Hin. rewrite Forall_forall in IH.
  specialize (IH (key, v) Hin). cbn [snd] in IH.
  destruct (is_dict v) eqn:Ev.
  - destruct v; try discriminate.
    rewrite entry_leaves_dict. unfold entry_items. cbn [fst snd].
    rewrite <- (IH d (new_key_of parent_key sep key) sep "None" true k eq_refl).
    apply last_item_distinct. rewrite flatten_value_dict.
    apply NoDup_dict_of_items.
  - now rewrite entry_leaves_leaf.
Qed.

(** X22. [_flatten_config_dict] returns a dictionary: no key twice. When
    several leaves get the same flat key, the last of them in the order of
    the document is the one whose text is kept; a key is in the flat
    dictionary exactly when some written leaf has it. *)
Theorem flatten_keeps_the_last_leaf (d : dict)
    (parent_key sep null_value : string) (skip_secret_values : bool) :
  let flat :=
    _flatten_config_dict d parent_key sep null_value skip_secret_values in
  NoDup (keys flat)
  /\ forall k,
       dict_get flat k
       = last_item (flat_items d parent_key sep null_value skip_secret_values) k.
Proof.
  cbv zeta. unfold _flatten_config_dict. split.
  - rewrite flatten_value_dict. apply NoDup_dict_of_items.
  - intros k. now apply (flatten_value_last (VDict d) d).
Qed.

End Facts.
End CollisionFacts.

(** ** The aliases of the AWS fields *)
Module AliasFacts.
Import Py Models Exn Env Validation Settings Loader Notions Samples.
Import DictFacts ValidationFacts StrictFacts.
Section Facts.
Context {R : Runtime}.

Lemma field_alias_first {A : Type} d first second v x
    (validate : value -> validated A) default :
  first <> second ->
  dict_get d first = Some v ->
  field_alias (dict_set d second x) [first; second] validate default
  = field_alias d [first; second] validate default.
Proof.
  intros Hne H. cbn [field_alias].
  rewrite dict_get_set_ne by (intros E; now apply Hne). now rewrite H.
Qed.

(** X23. The first alias of an AWS field hides the name of the field. In
    an AWS section that has [AWS__AWS_PROFILE], whatever stands under
    [AWS_PROFILE] is never read: adding it or changing it changes nothing
    to the validation; and so for the two access keys. *)
Theorem first_alias_hides_field_name (d : dict) (v x : value) :
  (dict_get d "AWS__AWS_PROFILE" = Some v ->
   validate_AWSConfig (VDict (dict_set d "AWS_PROFILE" x))
   = validate_AWSConfig (VDict d))
  /\ (dict_get d "AWS__AWS_ACCESS_KEY_ID" = Some v ->
      validate_AWSConfig (VDict (dict_set d "AWS_ACCESS_KEY_ID" x))
      = validate_AWSConfig (VDict d))
  /\ (dict_get d "AWS__AWS_SECRET_ACCESS_KEY" = Some v ->
      validate_AWSConfig (VDict (dict_set d "AWS_SECRET_ACCESS_KEY" x))
      = validate_AWSConfig (VDict d)).
Proof.
  split; [|split]; intros H; unfold validate_AWSConfig, validate_AWSConfig_fields.
  - rewrite (field_alias_first d "AWS__AWS_PROFILE" "AWS_PROFILE" v x)
      by (discriminate || exact H).
    rewrite !field_alias_skips_other
      by (cbn [In]; intros [E|[E|[]]]; discriminate).
    now rewrite field_skips_other by discriminate.
  - rewrite (field_alias_first d "AWS__AWS_ACCESS_KEY_ID" "AWS_ACCESS_KEY_ID" v x)
      by (discriminate || exact H).
    rewrite !field_alias_skips_other
      by (cbn [In]; intros [E|[E|[]]]; discriminate).
    now rewrite field_skips_other by discriminate.
  - rewrite (field_alias_first d "AWS__AWS_SECRET_ACCESS_KEY"
               "AWS_SECRET_ACCESS_KEY" v x) by (discriminate || exact H).
    rewrite !field_alias_skips_other
      by (cbn [In]; intros [E|[E|[]]]; discriminate).
    now rewrite field_skips_other by discriminate.
Qed.

End Facts.

Lemma first_alias_hides_field_name_witness :
  validate_AWSConfig
    (VDict (dict_set [("AWS__AWS_PROFILE", VStr "yaml_profile")]
              "AWS_PROFILE" (VStr "env_profile")))
  = validate_AWSConfig (VDict [("AWS__AWS_PROFILE", VStr "yaml_profile")]).
Proof.
  apply (proj1 (first_alias_hides_field_name
                  [("AWS__AWS_PROFILE", VStr "yaml_profile")]
                  (VStr "yaml_profile") (VStr "env_profile"))).
  reflexivity.
Defined.

End AliasFacts.
